(** * Bias-Variance-Trade-Off.ipynb: the regularization sweep and its metrics

    A shallow embedding of the Python functions of the notebook
    [Module5/Bias-Variance-Trade-Off.ipynb]:

    - [print_metrics]            (cell 9,  lines 165-174)
    - [plot_regularization]      (cell 13, lines 265-280)
    - [test_regularization_l2]   (cell 13, lines 282-300)
    - [test_regularization_l1]   (cell 20, lines 395-413)

    Python floats are IEEE-754 binary64 numbers, which is what Rocq's
    primitive [float] is.  The functions are written over a small arithmetic
    interface ([PyNum]), of which the binary64 floats the notebook runs on
    are the instance; what does not depend on the arithmetic is proved for
    the interface.  Exceptions are values of an [outcome], calls of [print]
    and of [matplotlib.pyplot] are events of a trace. *)

From Stdlib Require Import List String ZArith Bool Lia.
From Stdlib Require Import Floats.
From Stdlib Require Import Reals Lra.
Import ListNotations.

Set Implicit Arguments.

(** ** Python runtime: exceptions and output *)

(** An exception is identified by its class name; the message is kept for
    reference. *)
Record exception : Type := mkExc { exc_class : string; exc_msg : string }.

Definition ValueError (msg : string) : exception := mkExc "ValueError" msg.
Definition IndexError (msg : string) : exception := mkExc "IndexError" msg.

(** The result of evaluating a Python expression. *)
Inductive outcome (A : Type) : Type :=
| Returned (a : A)
| Raised (e : exception).
Arguments Returned {A} a.
Arguments Raised {A} e.

Definition obind {A B : Type} (o : outcome A) (k : A -> outcome B) : outcome B :=
  match o with
  | Returned a => k a
  | Raised e => Raised e
  end.

(** The text the notebook prints: literals, [str(x)] of a number, and their
    concatenation with [+].  How [str] writes a float is not modelled. *)
Inductive text (F : Type) : Type :=
| lit (s : string)
| str (x : F)
| cat (a b : text F).
Arguments lit {F} s.

(** A call of [print] or of a [matplotlib.pyplot] function, with the
    arguments the notebook passes.  [F] is the type of numbers. *)
Inductive event (F : Type) : Type :=
| print (s : text F)
| plt_plot (x y : list F) (color label : option string)
| plt_plot_lines (x : list F) (ys : list (list F))
| plt_axvline (x : F) (color linestyle : string)
| plt_legend
| plt_xlabel (s : string)
| plt_ylabel (s : string)
| plt_title (s : string)
| plt_show.
Arguments plt_legend {F}.
Arguments plt_xlabel {F} s.
Arguments plt_ylabel {F} s.
Arguments plt_title {F} s.
Arguments plt_show {F}.

(** A statement: the events it emitted, in order, and how it ended.  An
    exception ends the statement and keeps what was emitted before it. *)
Definition stmt (F A : Type) : Type := (list (event F) * outcome A)%type.

Definition ret {F A : Type} (a : A) : stmt F A := ([], Returned a).

Definition bind {F A B : Type} (c : stmt F A) (k : A -> stmt F B) : stmt F B :=
  match c with
  | (t, Returned a) => let (t', r) := k a in (t ++ t', r)
  | (t, Raised e) => (t, Raised e)
  end.

(** A library call that has no output of its own. *)
Definition call {F A : Type} (o : outcome A) : stmt F A := ([], o).

(** A call that only produces output. *)
Definition emit {F : Type} (e : event F) : stmt F unit := ([e], Returned tt).

Definition trace {F A : Type} (c : stmt F A) : list (event F) := fst c.
Definition result {F A : Type} (c : stmt F A) : outcome A := snd c.

Declare Scope py_scope.
Delimit Scope py_scope with py.
Notation "x <- c ;; k" := (bind c (fun x => k))
  (at level 61, c at next level, right associativity) : py_scope.
Notation "' p <- c ;; k" := (bind c (fun p => k))
  (at level 61, p pattern, c at next level, right associativity) : py_scope.
Notation "c ;;; k" := (bind c (fun _ => k))
  (at level 61, right associativity) : py_scope.

(** ** Numbers *)

(** The arithmetic the notebook and the library functions it calls use. *)
Class PyNum (F : Type) : Type := {
  zero : F;
  add : F -> F -> F;
  sub : F -> F -> F;
  mul : F -> F -> F;
  div : F -> F -> F;
  fsqrt : F -> F;
  fabs : F -> F;
  (** [float(n)] for a length [n] *)
  of_nat : nat -> F;
  (** [x <= y] and [x < y] *)
  leb : F -> F -> bool;
  ltb : F -> F -> bool;
  (** [math.isnan] and [math.isfinite] *)
  isnan : F -> bool;
  isfinite : F -> bool
}.

(** IEEE-754 binary64, the [float] of Python and the [float64] of numpy. *)
#[export] Instance float64 : PyNum float := {
  zero := PrimFloat.zero;
  add := PrimFloat.add;
  sub := PrimFloat.sub;
  mul := PrimFloat.mul;
  div := PrimFloat.div;
  fsqrt := PrimFloat.sqrt;
  fabs := PrimFloat.abs;
  of_nat := fun n => PrimFloat.of_uint63 (Uint63.of_Z (Z.of_nat n));
  leb := PrimFloat.leb;
  ltb := PrimFloat.ltb;
  isnan := PrimFloat.is_nan;
  isfinite := PrimFloat.is_finite
}.

(** What the proofs use of the numbers: the comparison [<=] is a total
    preorder away from NaN and false at NaN, and neither a square, a sum of
    squares nor their mean is below zero. *)
Class PyNumLaws (F : Type) `{PyNum F} : Prop := {
  leb_nan_l : forall x y, isnan x = true -> leb x y = false;
  leb_nan_r : forall x y, isnan y = true -> leb x y = false;
  leb_refl : forall x, isnan x = false -> leb x x = true;
  leb_total : forall x y,
    isnan x = false -> isnan y = false -> leb x y = false -> leb y x = true;
  leb_trans : forall x y z, leb x y = true -> leb y z = true -> leb x z = true;
  ltb_zero_zero : ltb zero zero = false;
  ltb_zero_square : forall x, ltb (mul x x) zero = false;
  ltb_zero_add : forall x y,
    ltb x zero = false -> ltb y zero = false -> ltb (add x y) zero = false;
  ltb_zero_div : forall x n,
    (0 < n)%nat -> ltb x zero = false -> ltb (div x (of_nat n)) zero = false
}.
Arguments PyNumLaws F {_}.

(** For the binary64 instance: in the specification of the primitive floats,
    a NaN, a zero, or a number with the sign bit clear. *)
Definition sign_clear (x : spec_float) : bool :=
  match x with
  | S754_nan | S754_zero _ => true
  | S754_infinity s | S754_finite s _ _ => negb s
  end.

(** ... a number that is not NaN and has the sign bit clear: [+0], a finite
    number above zero or [+infinity]. *)
Definition not_negative (x : spec_float) : bool :=
  match x with
  | S754_nan => false
  | S754_zero s | S754_infinity s | S754_finite s _ _ => negb s
  end.

(** ... a zero or a finite number. *)
Definition SFfinite (x : spec_float) : bool :=
  match x with
  | S754_zero _ | S754_finite _ _ _ => true
  | _ => false
  end.

(** The number of bits the rounding of the specification drops from the
    mantissa [m] at the exponent [e]. *)
Definition shr_shift (m e : Z) : Z :=
  Z.max 0 (fexp prec emax (Zdigits2 m + e) - e).

(** ** Data *)

(** A feature matrix is a sequence of rows, a label vector a sequence of
    numbers. *)
Definition features (F : Type) : Type := list (list F).
Definition labels (F : Type) : Type := list F.

(** The three lists the [for] loops of the notebook fill, in the order they
    are declared: [train_RMSE], [test_RMSE], [coefs]. *)
Definition sweep (F : Type) : Type := (list F * list F * list (list F))%type.

Section Library.

Context {F : Type} `{PyNum F}.

(** ** numpy and the Python builtins *)

(** [seq[i]] for a list and a non-negative index. *)
Definition getitem {A : Type} (l : list A) (i : nat) : outcome A :=
  match nth_error l i with
  | Some a => Returned a
  | None => Raised (IndexError "list index out of range")
  end.

(** The scan of numpy's [argmin] over float64 after the first element:
    [mp] is the smallest value so far, [min_ind] its index, [i] the index of
    the head of [l].  An element replaces [mp] when [not (ip >= mp)], so a
    later equal value does not, and a NaN does and ends the scan. *)
Fixpoint argmin_scan (mp : F) (min_ind i : nat) (l : list F) : nat :=
  match l with
  | [] => min_ind
  | ip :: l' =>
      if negb (leb mp ip)
      then if isnan ip then i else argmin_scan ip i (S i) l'
      else argmin_scan mp min_ind (S i) l'
  end.

(** [np.argmin(a)] for a one-dimensional sequence of floats. *)
Definition np_argmin (a : list F) : outcome nat :=
  match a with
  | [] => Raised (ValueError "attempt to get argmin of an empty sequence")
  | mp :: l => if isnan mp then Returned 0 else Returned (argmin_scan mp 0 1 l)
  end.

(** [math.sqrt(x)] *)
Definition math_sqrt (x : F) : outcome F :=
  if ltb x zero then Raised (ValueError "math domain error")
  else Returned (fsqrt x).

(** ** sklearn.metrics *)

(** The squared differences [(y_true - y_pred) ** 2], element by element. *)
Fixpoint squared_errors (y_true y_pred : list F) : list F :=
  match y_true, y_pred with
  | a :: y_true', b :: y_pred' =>
      mul (sub a b) (sub a b) :: squared_errors y_true' y_pred'
  | _, _ => []
  end.

(** The sum of a sequence, from its first element on. *)
Definition fsum (l : list F) : F := fold_left add l zero.

(** *** The sum of a float64 array

    [np.sum] of a contiguous array, and with it [np.mean] and [np.average],
    does not add from left to right: the inner loop of [np.add.reduce] is
    numpy's pairwise summation ([DOUBLE_pairwise_sum] of
    [numpy/core/src/umath/loops_utils.h.src]).  Fewer than 8 elements are
    added in index order; up to 128 elements go through eight running sums
    that are combined as a tree; a longer array is split in two halves, the
    first a multiple of 8 long. *)

(** The eight running sums [r[0]], ..., [r[7]]. *)
Definition lanes : Type := (F * F * F * F * F * F * F * F)%type.

(** The unrolled loop [for (i = 8; i < n - (n % 8); i += 8) r[j] += a[i + j]]:
    [a] is what is left of the array from index [i] on; the loop returns the
    running sums and the last [n % 8] elements. *)
Fixpoint add_blocks (r : lanes) (a : list F) : lanes * list F :=
  match a with
  | a0 :: a1 :: a2 :: a3 :: a4 :: a5 :: a6 :: a7 :: rest =>
      let '(r0, r1, r2, r3, r4, r5, r6, r7) := r in
      add_blocks (add r0 a0, add r1 a1, add r2 a2, add r3 a3,
                  add r4 a4, add r5 a5, add r6 a6, add r7 a7) rest
  | _ => (r, a)
  end.

(** The branch for [8 <= n <= 128]: the running sums start as the first
    eight elements, are combined as
    [((r0 + r1) + (r2 + r3)) + ((r4 + r5) + (r6 + r7))], and the elements the
    loop left are added one by one. *)
Definition unrolled_sum (a : list F) : F :=
  match a with
  | a0 :: a1 :: a2 :: a3 :: a4 :: a5 :: a6 :: a7 :: rest =>
      let '((r0, r1, r2, r3, r4, r5, r6, r7), tail) :=
        add_blocks (a0, a1, a2, a3, a4, a5, a6, a7) rest in
      fold_left add tail
        (add (add (add r0 r1) (add r2 r3)) (add (add r4 r5) (add r6 r7)))
  | _ => fold_left add a zero
  end.

Definition PW_BLOCKSIZE : nat := 128.

(** [DOUBLE_pairwise_sum(a, n, stride)].  The C function calls itself on
    the two halves of an array of more than 128 elements; [depth] bounds the
    number of nested calls, and the length of the array is always enough
    (lemma [pairwise_sum_depth]). *)
Fixpoint pairwise_sum (depth : nat) (a : list F) : F :=
  let n := List.length a in
  if (n <? 8)%nat then fold_left add a zero
  else if (n <=? PW_BLOCKSIZE)%nat then unrolled_sum a
  else match depth with
       | O => unrolled_sum a
       | S depth' =>
           let n2 := (n / 2 - (n / 2) mod 8)%nat in
           add (pairwise_sum depth' (firstn n2 a))
               (pairwise_sum depth' (skipn n2 a))
       end.

(** [np.sum(a)] for a one-dimensional float64 array, or one column.  The
    reduction adds the pairwise sum to its start value, a zero, which leaves
    a sum of squares as it is (lemma [add_zero_not_negative]). *)
Definition np_sum (a : list F) : F := pairwise_sum (List.length a) a.

(** [sklearn.metrics.mean_squared_error(y_true, y_pred)] for two
    one-dimensional arrays: the inputs are validated (same length, at least
    one sample, no NaN and no infinity), then the squared differences are
    averaged with [np.average], their [np.sum] divided by the number of
    samples. *)
Definition mean_squared_error (y_true y_pred : list F) : outcome F :=
  if negb (List.length y_true =? List.length y_pred)%nat
  then Raised (ValueError "Found input variables with inconsistent numbers of samples")
  else if (List.length y_true =? 0)%nat
  then Raised (ValueError "Found array with 0 sample(s) while a minimum of 1 is required")
  else if negb (forallb isfinite y_true && forallb isfinite y_pred)
  then Raised (ValueError "Input contains NaN, infinity or a value too large for dtype('float64')")
  else Returned (div (np_sum (squared_errors y_true y_pred)) (of_nat (List.length y_true))).

End Library.


(** ** The notebook *)

Section Notebook.

Context {F : Type} `{PyNum F}.

Local Open Scope string_scope.
Local Open Scope list_scope.
Local Open Scope py_scope.

(** What the notebook takes from Python and scikit-learn without looking
    inside: three metric functions, and a fitted linear model with its
    constructors.  [Ridge reg x y] stands for
    [linear_model.Ridge(alpha = reg)] followed by [fit(x, y)], [Lasso reg x y]
    for the same with [linear_model.Lasso]; [coef_] and [predict] are the
    attribute and the method of the fitted model.  Each of them returns or
    raises; the warnings scikit-learn may write are left out. *)
Variable r2_score : labels F -> labels F -> outcome F.
Variable mean_absolute_error : labels F -> labels F -> outcome F.
Variable median_absolute_error : labels F -> labels F -> outcome F.
Variable estimator : Type.
Variable Ridge : F -> features F -> labels F -> outcome estimator.
Variable Lasso : F -> features F -> labels F -> outcome estimator.
Variable coef_ : estimator -> list F.
Variable predict : estimator -> features F -> outcome (labels F).

(** The newline of ['\n']. *)
Definition nl : string := String (Ascii.ascii_of_nat 10) EmptyString.

(** [print_metrics(y_true, y_predicted)], lines 165-174.  The function has no
    [return]: it ends with [None]. *)
Definition print_metrics (y_true y_predicted : labels F) : stmt F unit :=
  r2 <- call (r2_score y_true y_predicted) ;;
  mse <- call (mean_squared_error y_true y_predicted) ;;
  emit (print (cat (lit "Mean Square Error      = ") (str mse))) ;;;
  mse' <- call (mean_squared_error y_true y_predicted) ;;
  rmse <- call (math_sqrt mse') ;;
  emit (print (cat (lit "Root Mean Square Error = ") (str rmse))) ;;;
  mae <- call (mean_absolute_error y_true y_predicted) ;;
  emit (print (cat (lit "Mean Absolute Error    = ") (str mae))) ;;;
  medae <- call (median_absolute_error y_true y_predicted) ;;
  emit (print (cat (lit "Median Absolute Error  = ") (str medae))) ;;;
  emit (print (cat (lit "R^2                    = ") (str r2))) ;;;
  ret tt.

(** [plt.plot(x, y, ...)]: matplotlib refuses an [x] and a [y] whose first
    dimensions differ, before it draws anything. *)
Definition plot (x y : list F) (color label : option string) : stmt F unit :=
  if (List.length x =? List.length y)%nat
  then emit (plt_plot x y color label)
  else call (Raised (ValueError "x and y must have same first dimension")).

Definition plot_lines (x : list F) (ys : list (list F)) : stmt F unit :=
  if (List.length x =? List.length ys)%nat
  then emit (plt_plot_lines x ys)
  else call (Raised (ValueError "x and y must have same first dimension")).

(** [plot_regularization(l, train_RMSE, test_RMSE, coefs, min_idx, title)],
    lines 265-280. *)
Definition plot_regularization (l train_RMSE test_RMSE : list F)
    (coefs : list (list F)) (min_idx : F) (title : string) : stmt F unit :=
  plot l test_RMSE (Some "red") (Some "Test RMSE") ;;;
  plot l train_RMSE None (Some "Train RMSE") ;;;
  emit (plt_axvline min_idx "black" "--") ;;;
  emit plt_legend ;;;
  emit (plt_xlabel "Regularization parameter") ;;;
  emit (plt_ylabel "Root Mean Square Error") ;;;
  emit (plt_title title) ;;;
  emit plt_show ;;;
  plot_lines l coefs ;;;
  emit (plt_axvline min_idx "black" "--") ;;;
  emit (plt_title ("Model coefficient values " ++ nl ++ " vs. regularizaton parameter")%string) ;;;
  emit (plt_xlabel "Regularization parameter") ;;;
  emit (plt_ylabel "Model coefficient value") ;;;
  emit plt_show.

(** The calls [plot_regularization] makes when matplotlib accepts the
    lists: two charts, each ended by [plt.show()]. *)
Definition charts (l train_RMSE test_RMSE : list F) (coefs : list (list F))
    (min_idx : F) (title : string) : list (event F) :=
  [ plt_plot l test_RMSE (Some "red") (Some "Test RMSE");
    plt_plot l train_RMSE None (Some "Train RMSE");
    plt_axvline min_idx "black" "--";
    plt_legend;
    plt_xlabel "Regularization parameter";
    plt_ylabel "Root Mean Square Error";
    plt_title title;
    plt_show;
    plt_plot_lines l coefs;
    plt_axvline min_idx "black" "--";
    plt_title ("Model coefficient values " ++ nl ++ " vs. regularizaton parameter")%string;
    plt_xlabel "Regularization parameter";
    plt_ylabel "Model coefficient value";
    plt_show ].

(** The title both routines give their first chart. *)
Definition sweep_title : string :=
  ("Train and test root mean square error " ++ nl
   ++ " vs. regularization parameter")%string.

(** The [for reg in l2] loop of [test_regularization_l2], lines 286-293, from
    the lists built so far. *)
Fixpoint loop_l2 (x_train : features F) (y_train : labels F) (x_test : features F)
    (y_test : labels F) (l2 : list F) (train_RMSE test_RMSE : list F)
    (coefs : list (list F)) : outcome (sweep F) :=
  match l2 with
  | [] => Returned (train_RMSE, test_RMSE, coefs)
  | reg :: rest =>
      obind (Ridge reg x_train y_train) (fun lin_mod =>
      let coefs := coefs ++ [coef_ lin_mod] in
      obind (predict lin_mod x_train) (fun y_score_train =>
      obind (mean_squared_error y_train y_score_train) (fun e_train =>
      let train_RMSE := train_RMSE ++ [e_train] in
      obind (predict lin_mod x_test) (fun y_score =>
      obind (mean_squared_error y_test y_score) (fun e_test =>
      let test_RMSE := test_RMSE ++ [e_test] in
      loop_l2 x_train y_train x_test y_test rest train_RMSE test_RMSE coefs)))))
  end.

(** [test_regularization_l2(x_train, y_train, x_test, y_test, l2)],
    lines 282-300. *)
Definition test_regularization_l2 (x_train : features F) (y_train : labels F)
    (x_test : features F) (y_test : labels F) (l2 : list F) : stmt F (F * F) :=
  '(train_RMSE, test_RMSE, coefs) <-
      call (loop_l2 x_train y_train x_test y_test l2 [] [] []) ;;
  min_idx <- call (np_argmin test_RMSE) ;;
  min_l2 <- call (getitem l2 min_idx) ;;
  min_RMSE <- call (getitem test_RMSE min_idx) ;;
  let title := sweep_title in
  plot_regularization l2 train_RMSE test_RMSE coefs min_l2 title ;;;
  ret (min_l2, min_RMSE).

(** The [for reg in l1] loop of [test_regularization_l1], lines 399-406. *)
Fixpoint loop_l1 (x_train : features F) (y_train : labels F) (x_test : features F)
    (y_test : labels F) (l1 : list F) (train_RMSE test_RMSE : list F)
    (coefs : list (list F)) : outcome (sweep F) :=
  match l1 with
  | [] => Returned (train_RMSE, test_RMSE, coefs)
  | reg :: rest =>
      obind (Lasso reg x_train y_train) (fun lin_mod =>
      let coefs := coefs ++ [coef_ lin_mod] in
      obind (predict lin_mod x_train) (fun y_score_train =>
      obind (mean_squared_error y_train y_score_train) (fun e_train =>
      let train_RMSE := train_RMSE ++ [e_train] in
      obind (predict lin_mod x_test) (fun y_score =>
      obind (mean_squared_error y_test y_score) (fun e_test =>
      let test_RMSE := test_RMSE ++ [e_test] in
      loop_l1 x_train y_train x_test y_test rest train_RMSE test_RMSE coefs)))))
  end.

(** [test_regularization_l1(x_train, y_train, x_test, y_test, l1)],
    lines 395-413. *)
Definition test_regularization_l1 (x_train : features F) (y_train : labels F)
    (x_test : features F) (y_test : labels F) (l1 : list F) : stmt F (F * F) :=
  '(train_RMSE, test_RMSE, coefs) <-
      call (loop_l1 x_train y_train x_test y_test l1 [] [] []) ;;
  min_idx <- call (np_argmin test_RMSE) ;;
  min_l1 <- call (getitem l1 min_idx) ;;
  min_RMSE <- call (getitem test_RMSE min_idx) ;;
  let title := sweep_title in
  plot_regularization l1 train_RMSE test_RMSE coefs min_l1 title ;;;
  ret (min_l1, min_RMSE).

End Notebook.

(** ** The statements of the specification *)

Section Specification.

Context {F : Type} `{PyNum F}.

(** "RMSE computed as [sqrt(sum((y_true - y_pred)^2) / n)]". *)
Definition rmse (y_true y_pred : list F) : F :=
  fsqrt (div (fsum (squared_errors y_true y_pred)) (of_nat (List.length y_true))).

(** "This component performs no I/O and produces no plots". *)
Definition no_side_effects {A : Type} (c : stmt F A) : Prop := trace c = [].

(** "Fails with [EmptyGridError]", for a class name. *)
Definition fails_with {A : Type} (class : string) (c : stmt F A) : Prop :=
  exists e, result c = Raised e /\ exc_class e = class.

(** "Return the full per-penalty sequences plus the selected best penalty":
    the four sequences can be read off the value a routine returns.
    [routine] and [loop] take the training and the test data and the grid. *)
Definition returns_sequences
    (routine : features F -> labels F -> features F -> labels F -> list F -> stmt F (F * F))
    (loop : features F -> labels F -> features F -> labels F -> list F -> outcome (sweep F))
    : Prop :=
  exists read : F * F -> list F * sweep F,
  forall x_train y_train x_test y_test l s r,
    loop x_train y_train x_test y_test l = Returned s ->
    result (routine x_train y_train x_test y_test l) = Returned r ->
    read r = (l, s).

(** "Select the index with minimum testRMSE": the minimum-selection step on
    its own, the three statements between the loop and the charts in both
    routines, [min_idx = np.argmin(test_RMSE)], [min_l2 = l2[min_idx]] and
    [min_RMSE = test_RMSE[min_idx]] (lines 294-296 and 407-409). *)
Definition select_min (l test_RMSE : list F) : outcome (F * F) :=
  obind (np_argmin test_RMSE) (fun min_idx =>
  obind (getitem l min_idx) (fun min_l =>
  obind (getitem test_RMSE min_idx) (fun min_RMSE =>
  Returned (min_l, min_RMSE)))).

(** "Select the smallest-magnitude penalty value among the ties": no grid
    value whose recorded test error is the returned one is smaller in
    magnitude than the returned penalty. *)
Definition smallest_of_ties (l test_RMSE : list F) (best : F * F) : Prop :=
  forall j q,
    nth_error l j = Some q -> nth_error test_RMSE j = Some (snd best) ->
    leb (fabs (fst best)) (fabs q) = true.

(** "NaN results must be excluded from the minimum-selection step": the
    selected pair is a grid value with its recorded error, the error is not
    NaN and no recorded error that is not NaN is below it. *)
Definition skips_nan (l test_RMSE : list F) (best : F * F) : Prop :=
  (exists i, nth_error l i = Some (fst best)
             /\ nth_error test_RMSE i = Some (snd best))
  /\ isnan (snd best) = false
  /\ forall x, In x test_RMSE -> isnan x = false -> leb (snd best) x = true.

(** "For each penalty value, the triple (trainRMSE, testRMSE,
    coefficientVector)": what one turn of the loop computes for the penalty
    [reg] with the constructor [fit], the errors being whatever
    [mean_squared_error] returns. *)
Definition fit_point {estimator : Type}
    (fit : F -> features F -> labels F -> outcome estimator)
    (coef_ : estimator -> list F)
    (predict : estimator -> features F -> outcome (labels F))
    (x_train : features F) (y_train : labels F)
    (x_test : features F) (y_test : labels F) (reg : F)
    : outcome (F * F * list F) :=
  obind (fit reg x_train y_train) (fun lin_mod =>
  obind (predict lin_mod x_train) (fun y_score_train =>
  obind (mean_squared_error y_train y_score_train) (fun e_train =>
  obind (predict lin_mod x_test) (fun y_score =>
  obind (mean_squared_error y_test y_score) (fun e_test =>
  Returned (e_train, e_test, coef_ lin_mod)))))).

(** The triples of a grid, penalty by penalty, and the three sequences they
    make. *)
Definition grid_points {estimator : Type}
    (fit : F -> features F -> labels F -> outcome estimator)
    (coef_ : estimator -> list F)
    (predict : estimator -> features F -> outcome (labels F))
    (x_train : features F) (y_train : labels F)
    (x_test : features F) (y_test : labels F)
    (l : list F) (rs : list (F * F * list F)) : Prop :=
  Forall2 (fun reg r =>
             fit_point fit coef_ predict x_train y_train x_test y_test reg
             = Returned r) l rs.

Definition train_errors (rs : list (F * F * list F)) : list F :=
  map (fun r => fst (fst r)) rs.
Definition test_errors (rs : list (F * F * list F)) : list F :=
  map (fun r => snd (fst r)) rs.
Definition coefficients (rs : list (F * F * list F)) : list (list F) :=
  map (fun r => snd r) rs.

(** "For all valid inputs (non-empty grid, well-shaped train/test data)":
    a feature matrix with at least one row, rows of one width that is not
    zero, as many labels as rows, and no NaN or infinity; the two matrices
    of one width; penalties that are finite and above zero. *)
Definition well_shaped (x : features F) (y : labels F) : Prop :=
  x <> [] /\ List.length x = List.length y
  /\ (forall row, In row x ->
      row <> [] /\ List.length row = List.length (hd [] x)
      /\ forallb isfinite row = true)
  /\ forallb isfinite y = true.

Definition valid_input (x_train : features F) (y_train : labels F)
    (x_test : features F) (y_test : labels F) (l : list F) : Prop :=
  l <> []
  /\ (forall reg, In reg l -> isfinite reg = true /\ ltb zero reg = true)
  /\ well_shaped x_train y_train /\ well_shaped x_test y_test
  /\ List.length (hd [] x_train) = List.length (hd [] x_test).

(** "... the train RMSE list, the test RMSE list, and the coefficient list
    returned by the evaluation routine each have exactly one entry per
    penalty-grid element, and the i-th entry of each list corresponds to the
    i-th grid penalty": on every valid input the routine returns, and the
    lists of its loop are as long as the grid and hold at [i] what [point]
    computes for the [i]-th penalty. *)
Definition one_entry_per_penalty
    (routine : features F -> labels F -> features F -> labels F -> list F -> stmt F (F * F))
    (loop : features F -> labels F -> features F -> labels F -> list F -> outcome (sweep F))
    (point : features F -> labels F -> features F -> labels F -> F
             -> outcome (F * F * list F))
    : Prop :=
  forall x_train y_train x_test y_test l,
    valid_input x_train y_train x_test y_test l ->
    exists train_RMSE test_RMSE coefs best,
      loop x_train y_train x_test y_test l = Returned (train_RMSE, test_RMSE, coefs)
      /\ result (routine x_train y_train x_test y_test l) = Returned best
      /\ List.length train_RMSE = List.length l
      /\ List.length test_RMSE = List.length l
      /\ List.length coefs = List.length l
      /\ forall i reg, nth_error l i = Some reg ->
         exists e_train e_test c,
           point x_train y_train x_test y_test reg = Returned (e_train, e_test, c)
           /\ nth_error train_RMSE i = Some e_train
           /\ nth_error test_RMSE i = Some e_test
           /\ nth_error coefs i = Some c.

(** The behaviour of [np.argmin]: index [i] holds a smallest entry of [a]
    and every entry before it is larger. *)
Definition first_minimum (a : list F) (i : nat) : Prop :=
  exists v, nth_error a i = Some v
  /\ (forall j x, nth_error a j = Some x -> leb v x = true)
  /\ (forall j x, (j < i)%nat -> nth_error a j = Some x -> leb x v = false).

(** ... and index [i] holds the first NaN of [a]. *)
Definition first_nan (a : list F) (i : nat) : Prop :=
  exists v, nth_error a i = Some v /\ isnan v = true
  /\ (forall j x, (j < i)%nat -> nth_error a j = Some x -> isnan x = false).

End Specification.

(** "RMSE² must equal MSE within floating-point tolerance": the real number
    a binary64 number stands for, and two numbers that are equal or finite
    and apart by no more than the share [rel_tol] of the second. *)
Definition SF2R (x : spec_float) : R :=
  match x with
  | S754_finite s m e => (IZR (cond_Zopp s (Z.pos m)) * powerRZ 2 e)%R
  | _ => 0%R
  end.

Definition value (x : float) : R := SF2R (Prim2SF x).

Definition within_tolerance (rel_tol : R) (a b : float) : Prop :=
  a = b
  \/ (PrimFloat.is_finite a = true /\ PrimFloat.is_finite b = true
      /\ (Rabs (value a - value b) <= rel_tol * Rabs (value b))%R).

(** ** A solver for the examples *)

(** Ridge regression on a single feature column has a closed form: with the
    column and the labels centred, the coefficient is
    [sum(xc * yc) / (sum(xc * xc) + alpha)] and the intercept, which the
    penalty leaves out, is [mean(y) - coef * mean(x)].  It is the minimiser
    of the objective of [linear_model.Ridge(alpha)] and serves as the fitted
    model of the examples; prediction is [X @ coef_ + intercept_]. *)
Module OneFeature.

Section Solver.

Context {F : Type} `{PyNum F}.

Record linear : Type := mkLinear { coef_ : list F; intercept_ : F }.

Definition mean (l : list F) : F := div (fsum l) (of_nat (List.length l)).

Definition column (x : features F) : list F := map (fun row => hd zero row) x.

Fixpoint dot (u v : list F) : F :=
  match u, v with
  | a :: u', b :: v' => add (mul a b) (dot u' v')
  | _, _ => zero
  end.

Definition centred (l : list F) : list F := let m := mean l in map (fun a => sub a m) l.

Definition Ridge (alpha : F) (x : features F) (y : labels F) : outcome linear :=
  let xs := column x in
  let xc := centred xs in
  let yc := centred y in
  let coef := div (dot xc yc) (add (dot xc xc) alpha) in
  Returned (mkLinear [coef] (sub (mean y) (mul coef (mean xs)))).

Definition predict (m : linear) (x : features F) : outcome (labels F) :=
  Returned (map (fun row => add (dot row (coef_ m)) (intercept_ m)) x).

End Solver.

(** Metric functions that return a fixed value: an example fixes the input
    and gives them the value scikit-learn computes there. *)
Definition metric_value {F : Type} (v : F) : labels F -> labels F -> outcome F :=
  fun _ _ => Returned v.

(** A data set whose feature is constant: whatever the penalty, the fitted
    coefficient is 0 and the intercept the mean of the training labels, 2. *)
Definition x_train : features float := [[1]; [1]]%float.
Definition y_train : labels float := [0; 4]%float.
Definition x_test : features float := [[1]]%float.
Definition y_test : labels float := [4]%float.

(** A data set on the line [y = x], where the fit depends on the penalty. *)
Definition line_x_train : features float := [[0]; [2]]%float.
Definition line_y_train : labels float := [0; 2]%float.
Definition line_x_test : features float := [[4]]%float.
Definition line_y_test : labels float := [4]%float.

(** A grid for it, and the lists the loops build on it. *)
Definition line_grid : list float := [6; 2; 14]%float.
Definition line_train_RMSE : list float := [0.5625; 0.25; 0.765625]%float.
Definition line_test_RMSE : list float := [5.0625; 2.25; 6.890625]%float.
Definition line_coefs : list (list float) := [[0.25]; [0.5]; [0.125]]%float.

(** A data set on the line [y = 8 x] with a test row far out: with the
    penalty 2 the fitted coefficient and the intercept are 4, and the
    prediction [4 * 2 ^ 1023 + 4] for the test row is beyond the largest
    float. *)
Definition steep_x_train : features float := [[0]; [2]]%float.
Definition steep_y_train : labels float := [0; 16]%float.
Definition far_x_test : features float := [[0x1p1023]]%float.
Definition far_y_test : labels float := [0]%float.

(** Eight labels whose squares add up differently in different orders. *)
#[warnings="-inexact-float"] Definition eight_labels : labels float :=
  [0.5; 0.9; 2.5; 3.7; 0.8; 1.1; 1.6; 2.2]%float.
Definition eight_zeros : labels float := [0; 0; 0; 0; 0; 0; 0; 0]%float.

(** The two routines and the loop of the first on this solver. *)
Definition l2_routine := test_regularization_l2 (F := float) Ridge coef_ predict.
Definition l1_routine := test_regularization_l1 (F := float) Ridge coef_ predict.
Definition l2_loop (x_train : features float) (y_train : labels float)
    (x_test : features float) (y_test : labels float) (l : list float)
    : outcome (sweep float) :=
  loop_l2 Ridge coef_ predict x_train y_train x_test y_test l [] [] [].

End OneFeature.

(** ** The residual plots and the cells that use them *)

(** The calls of seaborn and scipy in the notebook, with their arguments. *)
Inductive library_call (F : Type) : Type :=
| sns_regplot (x y : list F) (fit_reg : bool)
| sns_distplot (a : list F)
| ss_probplot (x : list F).

(** What a cell does that can be seen: a call of seaborn or scipy that has
    drawn, or one of the events above. *)
Inductive action (F : Type) : Type :=
| drew (c : library_call F)
| did (e : event F).

(** A cell or a function that draws with these libraries: what it did, in
    order, and how it ended. *)
Definition script (F A : Type) : Type := (list (action F) * outcome A)%type.

Definition sbind {F A B : Type} (c : script F A) (k : A -> script F B)
    : script F B :=
  match c with
  | (t, Returned a) => let (t', r) := k a in (t ++ t', r)
  | (t, Raised e) => (t, Raised e)
  end.

(** A library call without output, a call of [matplotlib.pyplot], and a
    function of the notebook that is a [stmt]. *)
Definition run {F A : Type} (o : outcome A) : script F A := ([], o).
Definition say {F : Type} (e : event F) : script F unit := ([did e], Returned tt).
Definition lift {F A : Type} (c : stmt F A) : script F A :=
  (map (fun e => did e) (trace c), result c).

Definition actions {F A : Type} (c : script F A) : list (action F) := fst c.
Definition ending {F A : Type} (c : script F A) : outcome A := snd c.

Declare Scope nb_scope.
Delimit Scope nb_scope with nb.
Notation "x <- c ;; k" := (sbind c (fun x => k))
  (at level 61, c at next level, right associativity) : nb_scope.
Notation "c ;;; k" := (sbind c (fun _ => k))
  (at level 61, right associativity) : nb_scope.

Section Cells.

Context {F : Type} `{PyNum F}.

Local Open Scope string_scope.
Local Open Scope list_scope.
Local Open Scope nb_scope.

(** The differences [a[i] - b[i]] of two sequences, as far as both go. *)
Fixpoint differences (a b : list F) : list F :=
  match a, b with
  | x :: a', y :: b' => sub x y :: differences a' b'
  | _, _ => []
  end.

(** [np.subtract(a, b)] for two one-dimensional arrays, and as well for the
    two columns [a.reshape(-1, 1)] and [b.reshape(-1, 1)], of which the list
    is the only column: element by element when the lengths agree; an array
    of length one is broadcast along the other; other lengths are refused. *)
Definition np_subtract (a b : list F) : outcome (list F) :=
  if (List.length a =? List.length b)%nat then Returned (differences a b)
  else match a, b with
       | [x], _ => Returned (map (fun y => sub x y) b)
       | _, [y] => Returned (map (fun x => sub x y) a)
       | _, _ => Raised (ValueError "operands could not be broadcast together")
       end.

(** Seaborn and scipy are taken as they come: [draws c] tells whether the
    call [c] returns or raises.  A call that returns is recorded with its
    arguments, a call that raises leaves nothing to see. *)
Variable draws : library_call F -> outcome unit.

Definition library (c : library_call F) : script F unit :=
  match draws c with
  | Returned _ => ([drew c], Returned tt)
  | Raised e => ([], Raised e)
  end.

(** [resid_plot(y_test, y_score)], lines 176-184. *)
Definition resid_plot (y_test y_score : labels F) : script F unit :=
  resids <- run (np_subtract y_test y_score) ;;
  library (sns_regplot y_score resids false) ;;;
  say (plt_title "Residuals vs. predicted values") ;;;
  say (plt_xlabel "Predicted values") ;;;
  say (plt_ylabel "Residual") ;;;
  say plt_show.

(** [hist_resids(y_test, y_score)], lines 186-194. *)
Definition hist_resids (y_test y_score : labels F) : script F unit :=
  resids <- run (np_subtract y_test y_score) ;;
  library (sns_distplot resids) ;;;
  say (plt_title "Histogram of residuals") ;;;
  say (plt_xlabel "Residual value") ;;;
  say (plt_ylabel "count") ;;;
  say plt_show.

(** [resid_qq(y_test, y_score)], lines 196-204; [resids.flatten()] is
    [resids] itself. *)
Definition resid_qq (y_test y_score : labels F) : script F unit :=
  resids <- run (np_subtract y_test y_score) ;;
  library (ss_probplot resids) ;;;
  say (plt_title "Residuals vs. predicted values") ;;;
  say (plt_xlabel "Predicted values") ;;;
  say (plt_ylabel "Residual") ;;;
  say plt_show.

Variable r2_score : labels F -> labels F -> outcome F.
Variable mean_absolute_error : labels F -> labels F -> outcome F.
Variable median_absolute_error : labels F -> labels F -> outcome F.
Variable estimator : Type.
Variable Ridge : F -> features F -> labels F -> outcome estimator.
Variable Lasso : F -> features F -> labels F -> outcome estimator.
Variable predict : estimator -> features F -> outcome (labels F).

(** The four calls that end the three cells which fit one model and look at
    it, lines 208-211, 337-340 and 446-449. *)
Definition diagnostics (y_test y_score : labels F) : script F unit :=
  lift (print_metrics r2_score mean_absolute_error median_absolute_error
          y_test y_score) ;;;
  hist_resids y_test y_score ;;;
  resid_qq y_test y_score ;;;
  resid_plot y_test y_score.

(** The cell of lines 333-340, which fits the ridge regression anew at the
    penalty [out_l2[0]] and looks at it on the test set; the data and
    [out_l2] are globals of the notebook. *)
Definition refit_l2 (x_train : features F) (y_train : labels F)
    (x_test : features F) (y_test : labels F) (out_l2 : F * F)
    : script F unit :=
  lin_mod_l2 <- run (Ridge (fst out_l2) x_train y_train) ;;
  y_score_l2 <- run (predict lin_mod_l2 x_test) ;;
  diagnostics y_test y_score_l2.

(** The cell of lines 442-449, the same with the lasso and [out_l1[0]]. *)
Definition refit_l1 (x_train : features F) (y_train : labels F)
    (x_test : features F) (y_test : labels F) (out_l1 : F * F)
    : script F unit :=
  lin_mod_l1 <- run (Lasso (fst out_l1) x_train y_train) ;;
  y_score_l1 <- run (predict lin_mod_l1 x_test) ;;
  diagnostics y_test y_score_l1.

End Cells.

(** Further examples: a ridge constructor that refuses a negative penalty,
    as scikit-learn does when it validates [alpha], and libraries that accept
    every call. *)
Module Examples.

Definition checked_Ridge (alpha : float) (x : features float) (y : labels float)
    : outcome OneFeature.linear :=
  if ltb alpha zero then Raised (ValueError "alpha must be >= 0.0")
  else OneFeature.Ridge alpha x y.

Definition accepted (c : library_call float) : outcome unit := Returned tt.

(** The lasso on a single feature column that is not constant: scikit-learn
    minimises [sum((y - X w - b) ** 2) / (2 n) + alpha * abs(w)], whose
    minimiser is the soft threshold of [sum(xc * yc) / n] at [alpha], divided
    by [sum(xc * xc) / n]. *)
Definition soft_threshold (z a : float) : float :=
  if ltb a z then sub z a
  else if ltb z (sub zero a) then add z a
  else zero.

Definition Lasso (alpha : float) (x : features float) (y : labels float)
    : outcome OneFeature.linear :=
  let xs := OneFeature.column x in
  let xc := OneFeature.centred xs in
  let yc := OneFeature.centred y in
  let n := of_nat (List.length y) in
  let coef := div (soft_threshold (div (OneFeature.dot xc yc) n) alpha)
                  (div (OneFeature.dot xc xc) n) in
  Returned (OneFeature.mkLinear [coef]
              (sub (OneFeature.mean y) (mul coef (OneFeature.mean xs)))).

End Examples.

(** * Properties *)

(** ** The runtime *)

Section Runtime.

Context {F : Type}.

Lemma bind_call_returned {A B : Type} (a : A) (k : A -> stmt F B) :
  bind (call (Returned a)) k = k a.
Proof. unfold bind, call. destruct (k a) as [t r]. reflexivity. Qed.

Lemma bind_emit {B : Type} (ev : event F) (k : unit -> stmt F B) :
  bind (emit ev) k = (ev :: trace (k tt), result (k tt)).
Proof. unfold bind, emit, trace, result. destruct (k tt) as [t r]. reflexivity. Qed.

Lemma obind_returned {A B : Type} (o : outcome A) (k : A -> outcome B) (b : B) :
  obind o k = Returned b -> exists a, o = Returned a /\ k a = Returned b.
Proof. destruct o as [a|e]; simpl; [eauto|discriminate]. Qed.

Lemma getitem_nth_error {A : Type} (l : list A) (i : nat) (a : A) :
  nth_error l i = Some a -> getitem l i = Returned a.
Proof. unfold getitem. intros ->. reflexivity. Qed.

End Runtime.

(** ** The laws of the arithmetic *)

(** *** The binary64 instance, from the specification of the primitives *)

Module Binary64.

Lemma Prim2SF_zero : Prim2SF PrimFloat.zero = S754_zero false.
Proof. vm_compute. reflexivity. Qed.

Lemma ltb_zero_sign_clear (x : float) :
  PrimFloat.ltb x PrimFloat.zero = negb (sign_clear (Prim2SF x)).
Proof.
  rewrite ltb_spec, Prim2SF_zero.
  destruct (Prim2SF x) as [s|s| |s m e]; try destruct s; reflexivity.
Qed.

Lemma binary_round_aux_sign_clear (mx ex : Z) (lx : location) :
  sign_clear (binary_round_aux prec emax false mx ex lx) = true.
Proof.
  unfold binary_round_aux.
  destruct (shr_fexp prec emax mx ex lx) as [mrs' e'].
  destruct (shr_fexp prec emax _ e' loc_Exact) as [mrs'' e''].
  destruct (shr_m mrs''); [reflexivity| |reflexivity].
  destruct (Z.leb e'' _); reflexivity.
Qed.

Lemma binary_round_sign_clear (m : positive) (e : Z) :
  sign_clear (binary_round prec emax false m e) = true.
Proof.
  unfold binary_round.
  destruct (shl_align m e _) as [mz ez].
  apply binary_round_aux_sign_clear.
Qed.

Lemma binary_round_not_neg_zero (m : positive) (e : Z) :
  binary_round prec emax false m e <> S754_zero true.
Proof.
  unfold binary_round, binary_round_aux.
  destruct (shl_align m e _) as [mz ez].
  destruct (shr_fexp prec emax (Z.pos mz) ez loc_Exact) as [mrs' e'].
  destruct (shr_fexp prec emax _ e' loc_Exact) as [mrs'' e''].
  destruct (shr_m mrs''); try discriminate.
  destruct (Z.leb e'' _); discriminate.
Qed.

Lemma SFmul_square_sign_clear (x : spec_float) :
  sign_clear (SF64mul x x) = true.
Proof.
  destruct x as [s|s| |s m e]; simpl; try reflexivity;
    try (destruct s; reflexivity).
  replace (xorb s s) with false by (destruct s; reflexivity).
  apply binary_round_aux_sign_clear.
Qed.

Lemma SFadd_sign_clear (x y : spec_float) :
  sign_clear x = true -> sign_clear y = true -> sign_clear (SF64add x y) = true.
Proof.
  destruct x as [sx|sx| |sx mx ex], y as [sy|sy| |sy my ey]; simpl;
    try (destruct sx; simpl; try discriminate);
    try (destruct sy; simpl; try discriminate);
    intros _ _; try reflexivity.
  apply binary_round_sign_clear.
Qed.

Lemma binary_normalize_sign_clear (m : Z) :
  (0 <= m)%Z -> sign_clear (binary_normalize prec emax m 0 false) = true.
Proof.
  destruct m as [|p|p]; intros Hm; simpl.
  - reflexivity.
  - apply binary_round_sign_clear.
  - lia.
Qed.

Lemma SFdiv_sign_clear (x y : spec_float) :
  sign_clear x = true -> sign_clear y = true ->
  (forall s, y <> S754_zero s \/ s = false) ->
  sign_clear (SF64div x y) = true.
Proof.
  destruct x as [sx|sx| |sx mx ex], y as [sy|sy| |sy my ey]; simpl;
    intros Hx Hy Hz; try reflexivity;
    try (destruct (Hz sy) as [Hne | ->]; [congruence|]);
    try (apply negb_true_iff in Hx; subst sx);
    try (apply negb_true_iff in Hy; subst sy);
    try reflexivity;
    try (destruct sx; reflexivity).
  destruct (SFdiv_core_binary prec emax (Z.pos mx) ex (Z.pos my) ey) as [[mz ez] lz].
  apply binary_round_aux_sign_clear.
Qed.

(** The comparison of the specification: NaN compares with nothing, the
    other numbers are totally preordered. *)
Lemma SFcompare_refl (x : spec_float) :
  x <> S754_nan -> SFcompare x x = Some Eq.
Proof.
  destruct x as [s|s| |s m e]; simpl; intros Hx; try congruence;
    try (destruct s; reflexivity).
  fold (Pos.compare m m).
  rewrite Z.compare_refl, Pos.compare_refl. destruct s; reflexivity.
Qed.

Ltac split_compare :=
  repeat match goal with
  | |- context [Pos.compare_cont Eq ?a ?b] => fold (Pos.compare a b)
  | H : context [Pos.compare_cont Eq ?a ?b] |- _ => fold (Pos.compare a b) in H
  end;
  repeat match goal with
  | |- context [Z.compare ?a ?b] => destruct (Z.compare_spec a b)
  | H : context [Z.compare ?a ?b] |- _ => destruct (Z.compare_spec a b)
  | |- context [Pos.compare ?a ?b] => destruct (Pos.compare_spec a b)
  | H : context [Pos.compare ?a ?b] |- _ => destruct (Pos.compare_spec a b)
  end;
  simpl in *; subst; try reflexivity; try discriminate; try lia.

Lemma SFleb_total (x y : spec_float) :
  x <> S754_nan -> y <> S754_nan -> SFleb x y = false -> SFleb y x = true.
Proof.
  unfold SFleb.
  destruct x as [sx|sx| |sx mx ex], y as [sy|sy| |sy my ey]; simpl;
    intros Hx Hy; try congruence;
    try (destruct sx); try (destruct sy); simpl;
    try reflexivity; try discriminate; intros Hle; split_compare.
Qed.

Lemma SFleb_trans (x y z : spec_float) :
  SFleb x y = true -> SFleb y z = true -> SFleb x z = true.
Proof.
  unfold SFleb.
  destruct x as [sx|sx| |sx mx ex], y as [sy|sy| |sy my ey],
    z as [sz|sz| |sz mz ez]; simpl;
    try discriminate; try reflexivity;
    try (destruct sx); try (destruct sy); try (destruct sz); simpl;
    try reflexivity; try discriminate; intros Hxy Hyz; split_compare.
Qed.

Lemma SFleb_nan_l (y : spec_float) : SFleb S754_nan y = false.
Proof. reflexivity. Qed.

Lemma SFleb_nan_r (x : spec_float) : SFleb x S754_nan = false.
Proof. destruct x; reflexivity. Qed.

Lemma is_nan_Prim2SF (x : float) :
  PrimFloat.is_nan x = true <-> Prim2SF x = S754_nan.
Proof.
  unfold PrimFloat.is_nan. rewrite eqb_spec. unfold SFeqb. split.
  - intros Hx. destruct (Prim2SF x) as [s|s| |s m e] eqn:E; try reflexivity;
      rewrite SFcompare_refl in Hx by congruence; discriminate.
  - intros ->. reflexivity.
Qed.

Lemma not_nan_Prim2SF (x : float) :
  PrimFloat.is_nan x = false -> Prim2SF x <> S754_nan.
Proof.
  intros Hx Hn. apply is_nan_Prim2SF in Hn. congruence.
Qed.

Lemma of_nat_sign_clear (n : nat) :
  sign_clear (Prim2SF (PrimFloat.of_uint63 (Uint63.of_Z (Z.of_nat n)))) = true
  /\ forall s, Prim2SF (PrimFloat.of_uint63 (Uint63.of_Z (Z.of_nat n))) <> S754_zero s
               \/ s = false.
Proof.
  rewrite of_uint63_spec.
  pose proof (Uint63.to_Z_bounded (Uint63.of_Z (Z.of_nat n))) as [Hlo _].
  destruct (Uint63.to_Z _) as [|p|p]; simpl.
  - split; [reflexivity|]. intros [|]; [left; intros E; discriminate E|right; reflexivity].
  - pose proof (binary_round_sign_clear p 0) as Hs.
    split; [exact Hs|]. intros [|]; [left|right; reflexivity].
    apply binary_round_not_neg_zero.
  - lia.
Qed.

(** *** Rounding, as the specification of the primitives computes it *)

Unset Implicit Arguments.

Section Rounding.

Local Open Scope Z_scope.

Lemma fexp_eq (e : Z) : fexp prec emax e = Z.max (e - 53) (-1074).
Proof. reflexivity. Qed.

Lemma digits2_pos_size (p : positive) : digits2_pos p = Pos.size p.
Proof. induction p as [p IH|p IH|]; simpl; rewrite ?IH; reflexivity. Qed.

Lemma Zdigits2_log2 (m : Z) : 0 < m -> Zdigits2 m = Z.log2 m + 1.
Proof.
  destruct m as [|p|p]; try lia. intros _. simpl. rewrite digits2_pos_size.
  destruct p as [p|p|]; simpl; lia.
Qed.

Lemma Zdigits2_bounds (m : Z) :
  0 < m -> 2 ^ (Zdigits2 m - 1) <= m < 2 ^ Zdigits2 m.
Proof.
  intros Hm. rewrite Zdigits2_log2 by exact Hm.
  replace (Z.log2 m + 1 - 1) with (Z.log2 m) by lia.
  apply Z.log2_spec. exact Hm.
Qed.

Lemma Zdigits2_unique (m d : Z) :
  2 ^ (d - 1) <= m < 2 ^ d -> 0 < d -> Zdigits2 m = d.
Proof.
  intros Hb Hd.
  assert (0 < m) as Hm.
  { pose proof (Z.pow_pos_nonneg 2 (d - 1)). lia. }
  rewrite Zdigits2_log2 by exact Hm.
  rewrite (Z.log2_unique m (d - 1)); [lia|lia|].
  replace (Z.succ (d - 1)) with d by lia. exact Hb.
Qed.

Lemma Zdigits2_pos (m : Z) : 0 < m -> 0 < Zdigits2 m.
Proof. destruct m; simpl; lia. Qed.

(** [iter_pos] is iteration. *)
Lemma iter_pos_nat {A : Type} (f : A -> A) (p : positive) : forall x,
  SpecFloat.iter_pos f p x = Nat.iter (Pos.to_nat p) f x.
Proof.
  induction p as [p IH|p IH|]; intros x; cbn [SpecFloat.iter_pos].
  - rewrite !IH, Pos2Nat.inj_xI. rewrite !Nat.iter_swap, <- Nat.iter_add.
    rewrite <- Nat.iter_succ. f_equal. lia.
  - rewrite !IH, Pos2Nat.inj_xO. rewrite <- Nat.iter_add. f_equal. lia.
  - reflexivity.
Qed.

Lemma shr_1_m (mrs : shr_record) :
  0 <= shr_m mrs -> shr_m (shr_1 mrs) = shr_m mrs / 2.
Proof.
  destruct mrs as [m r s]. simpl. intros Hm.
  destruct m as [|[p|p|]|p]; simpl; try reflexivity; try lia.
  - rewrite Pos2Z.inj_xI. apply Z.div_unique with 1; lia.
  - rewrite Pos2Z.inj_xO. apply Z.div_unique with 0; lia.
Qed.

Lemma shr_iter_m (n : nat) : forall mrs,
  0 <= shr_m mrs ->
  shr_m (Nat.iter n shr_1 mrs) = shr_m mrs / 2 ^ Z.of_nat n.
Proof.
  induction n as [|n IH]; intros mrs Hm.
  - simpl. rewrite Z.div_1_r. reflexivity.
  - rewrite Nat.iter_succ_r, IH.
    + rewrite shr_1_m by exact Hm.
      rewrite Z.div_div by lia.
      rewrite Nat2Z.inj_succ, Z.pow_succ_r by lia. reflexivity.
    + rewrite shr_1_m by exact Hm. apply Z.div_pos; lia.
Qed.

(** The first step of the rounding drops [shr_shift m e] bits. *)
Lemma shr_fexp_m (m e : Z) (l : location) :
  0 <= m ->
  shr_m (fst (shr_fexp prec emax m e l)) = m / 2 ^ shr_shift m e
  /\ snd (shr_fexp prec emax m e l) = e + shr_shift m e
  /\ (shr_shift m e = 0 -> fst (shr_fexp prec emax m e l) = shr_record_of_loc m l).
Proof.
  intros Hm. unfold shr_fexp, shr_shift, shr.
  assert (shr_m (shr_record_of_loc m l) = m) as Hrec
    by (destruct l as [|[| |]]; reflexivity).
  destruct (fexp prec emax (Zdigits2 m + e) - e) as [|k|k] eqn:Hk; simpl fst; simpl snd.
  - rewrite Z.max_l by lia. rewrite Z.div_1_r, Z.add_0_r. auto.
  - rewrite Z.max_r by lia. rewrite iter_pos_nat, shr_iter_m by lia.
    rewrite Hrec, positive_nat_Z. split; [reflexivity|]. split; [reflexivity|]. lia.
  - rewrite Z.max_l by lia. rewrite Z.div_1_r, Z.add_0_r. auto.
Qed.

Lemma round_nearest_even_incr (m : Z) (l : location) :
  round_nearest_even m l = m \/ round_nearest_even m l = m + 1.
Proof.
  destruct l as [|[| |]]; simpl; auto. destruct (Z.even m); auto.
Qed.

Lemma loc_of_shr_record_of_loc (m : Z) (l : location) :
  loc_of_shr_record (shr_record_of_loc m l) = l.
Proof. destruct l as [|[| |]]; reflexivity. Qed.

Lemma shr_1_eq (m : Z) (r s : bool) :
  0 <= m ->
  shr_1 {| shr_m := m; shr_r := r; shr_s := s |}
  = {| shr_m := m / 2; shr_r := Z.odd m; shr_s := r || s |}.
Proof.
  intros Hm. destruct m as [|[p|p|]|p]; try lia; simpl; try reflexivity.
  - f_equal. rewrite Pos2Z.inj_xI. apply Z.div_unique with 1; lia.
  - f_equal. rewrite Pos2Z.inj_xO. apply Z.div_unique with 0; lia.
Qed.

(** What the round bit and the sticky bit hold after [n] shifts of an exact
    mantissa: with [t] the bits that were dropped, the round bit tells
    whether [t] is at least half of [2 ^ n], the sticky bit whether
    anything is left below the round bit. *)
Lemma shr_iter_exact (m : Z) (n : nat) :
  0 <= m ->
  let mrs := Nat.iter n shr_1 {| shr_m := m; shr_r := false; shr_s := false |} in
  exists t,
    m = shr_m mrs * 2 ^ Z.of_nat n + t /\ 0 <= t < 2 ^ Z.of_nat n
    /\ 0 <= shr_m mrs
    /\ shr_r mrs = (2 ^ Z.of_nat n <=? 2 * t)
    /\ shr_s mrs = negb (2 * t =? if shr_r mrs then 2 ^ Z.of_nat n else 0).
Proof.
  intros Hm. induction n as [|n IH].
  - exists 0. simpl. repeat split; try lia.
  - rewrite Nat.iter_succ. cbv zeta in IH.
    destruct (Nat.iter n shr_1 _) as [mn r s].
    destruct IH as (t & Hval & Ht & Hmn & Hr & Hs).
    cbn [shr_m shr_r shr_s] in Hval, Hmn, Hr, Hs.
    cbv zeta. rewrite shr_1_eq by exact Hmn. cbn [shr_m shr_r shr_s].
    rewrite Nat2Z.inj_succ, Z.pow_succ_r by lia.
    assert (0 < 2 ^ Z.of_nat n) as Hpow by (apply Z.pow_pos_nonneg; lia).
    set (P := 2 ^ Z.of_nat n) in *.
    pose proof (Z.div2_odd mn) as Hdiv. rewrite Z.div2_div in Hdiv.
    assert (0 <= mn / 2) as Hq by (apply Z.div_pos; lia).
    assert (r || s = negb (t =? 0)) as Hrs.
    { subst r s. destruct (P <=? 2 * t) eqn:Hle.
      - apply Z.leb_le in Hle. cbn [orb]. symmetry.
        apply negb_true_iff, Z.eqb_neq. lia.
      - apply Z.leb_gt in Hle. cbn [orb].
        destruct (t =? 0) eqn:Ht0.
        + apply Z.eqb_eq in Ht0. apply negb_false_iff, Z.eqb_eq. lia.
        + apply Z.eqb_neq in Ht0. apply negb_true_iff, Z.eqb_neq. lia. }
    rewrite Hrs.
    exists ((if Z.odd mn then P else 0) + t).
    destruct (Z.odd mn); simpl Z.b2z in Hdiv.
    + split; [lia|]. split; [lia|]. split; [lia|].
      split; [symmetry; apply Z.leb_le; lia|].
      destruct (t =? 0) eqn:Ht0.
      * apply Z.eqb_eq in Ht0. symmetry. apply negb_false_iff, Z.eqb_eq. lia.
      * apply Z.eqb_neq in Ht0. symmetry. apply negb_true_iff, Z.eqb_neq. lia.
    + split; [lia|]. split; [lia|]. split; [lia|].
      split; [symmetry; apply Z.leb_gt; lia|].
      destruct (t =? 0) eqn:Ht0.
      * apply Z.eqb_eq in Ht0. symmetry. apply negb_false_iff, Z.eqb_eq. lia.
      * apply Z.eqb_neq in Ht0. symmetry. apply negb_true_iff, Z.eqb_neq. lia.
Qed.

(** Rounding an exact mantissa goes to a nearest multiple of the bits
    dropped. *)
Lemma shr_fexp_nearest (m e : Z) :
  0 <= m ->
  let mrs := fst (shr_fexp prec emax m e loc_Exact) in
  2 * Z.abs (round_nearest_even (shr_m mrs) (loc_of_shr_record mrs)
             * 2 ^ shr_shift m e - m) <= 2 ^ shr_shift m e.
Proof.
  intros Hm. unfold shr_fexp, shr_shift, shr.
  destruct (fexp prec emax (Zdigits2 m + e) - e) as [|k|k] eqn:Hk; simpl fst.
  - rewrite Z.max_l by lia. cbn [shr_record_of_loc shr_m loc_of_shr_record round_nearest_even].
    rewrite Z.pow_0_r. lia.
  - rewrite Z.max_r by lia. rewrite iter_pos_nat.
    destruct (shr_iter_exact m (Pos.to_nat k) Hm) as (t & Hval & Ht & Hmn & Hr & Hs).
    simpl shr_record_of_loc.
    destruct (Nat.iter (Pos.to_nat k) shr_1 _) as [mn r s].
    cbn [shr_m shr_r shr_s] in Hval, Hmn, Hr, Hs. rewrite positive_nat_Z in *.
    assert (0 < 2 ^ Z.pos k) as Hpow by (apply Z.pow_pos_nonneg; lia).
    set (P := 2 ^ Z.pos k) in *.
    unfold loc_of_shr_record. simpl shr_m.
    destruct r, s; simpl round_nearest_even.
    + symmetry in Hr. apply Z.leb_le in Hr. lia.
    + symmetry in Hr. apply Z.leb_le in Hr.
      symmetry in Hs. apply negb_false_iff, Z.eqb_eq in Hs.
      destruct (Z.even mn); lia.
    + symmetry in Hr. apply Z.leb_gt in Hr. lia.
    + symmetry in Hr. apply Z.leb_gt in Hr. lia.
  - rewrite Z.max_l by lia. cbn [shr_record_of_loc shr_m loc_of_shr_record round_nearest_even].
    rewrite Z.pow_0_r. lia.
Qed.

Lemma div_pow2_bounds (m d k : Z) :
  0 <= k -> k < d -> 2 ^ (d - 1) <= m < 2 ^ d ->
  2 ^ (d - 1 - k) <= m / 2 ^ k < 2 ^ (d - k).
Proof.
  intros Hk Hkd [Hlo Hhi].
  assert (0 < 2 ^ k) by (apply Z.pow_pos_nonneg; lia).
  split.
  - apply Z.div_le_lower_bound; [lia|]. rewrite <- Z.pow_add_r by lia.
    replace (k + (d - 1 - k)) with (d - 1) by lia. exact Hlo.
  - apply Z.div_lt_upper_bound; [lia|]. rewrite <- Z.pow_add_r by lia.
    replace (k + (d - k)) with d by lia. exact Hhi.
Qed.

(** What the rounding of the specification returns for a mantissa above
    zero that is not below the smallest float: the mantissa without the
    bits dropped, or the next integer, at the exponent raised by their
    number; a nearest one when the mantissa is exact; a mantissa that
    reaches [2 ^ 53] is halved; an exponent above 971 gives an infinity. *)
Lemma binary_round_aux_finite (mx ex : Z) (lx : location) :
  0 < mx -> -1073 <= Zdigits2 mx + ex ->
  exists m1,
    (m1 = mx / 2 ^ shr_shift mx ex \/ m1 = mx / 2 ^ shr_shift mx ex + 1)
    /\ (shr_shift mx ex = 0 -> m1 = round_nearest_even mx lx)
    /\ (lx = loc_Exact ->
        2 * Z.abs (m1 * 2 ^ shr_shift mx ex - mx) <= 2 ^ shr_shift mx ex)
    /\ 0 < m1 <= 2 ^ 53
    /\ binary_round_aux prec emax false mx ex lx
       = if m1 =? 2 ^ 53
         then if ex + shr_shift mx ex + 1 <=? 971
              then S754_finite false (2 ^ 52)%positive (ex + shr_shift mx ex + 1)
              else S754_infinity false
         else if ex + shr_shift mx ex <=? 971
              then S754_finite false (Z.to_pos m1) (ex + shr_shift mx ex)
              else S754_infinity false.
Proof.
  intros Hm Hd.
  pose proof (Zdigits2_bounds mx Hm) as Hb.
  pose proof (Zdigits2_pos mx Hm) as Hdpos.
  pose proof (shr_fexp_m mx ex lx (Z.lt_le_incl _ _ Hm)) as (Hm0 & He1 & Hrec).
  assert (lx = loc_Exact ->
          2 * Z.abs (round_nearest_even
                       (shr_m (fst (shr_fexp prec emax mx ex lx)))
                       (loc_of_shr_record (fst (shr_fexp prec emax mx ex lx)))
                     * 2 ^ shr_shift mx ex - mx) <= 2 ^ shr_shift mx ex) as Hnear.
  { intros ->. apply shr_fexp_nearest. lia. }
  assert (0 <= shr_shift mx ex < Zdigits2 mx /\ Zdigits2 mx - shr_shift mx ex <= 53
          /\ fexp prec emax (Zdigits2 mx + ex) <= ex + shr_shift mx ex)
    as (Hk & Hdk & Hfe).
  { unfold shr_shift. rewrite fexp_eq. lia. }
  set (d := Zdigits2 mx) in *. set (k := shr_shift mx ex) in *.
  pose proof (div_pow2_bounds mx d k (proj1 Hk) (proj2 Hk) Hb) as Hm0b.
  assert (0 < 2 ^ (d - 1 - k)) as Hlow by (apply Z.pow_pos_nonneg; lia).
  assert (2 ^ (d - k) <= 2 ^ 53) as Hhigh by (apply Z.pow_le_mono_r; lia).
  assert (2 ^ (d - k) = 2 * 2 ^ (d - 1 - k)) as Hdouble.
  { replace (d - k) with (Z.succ (d - 1 - k)) by lia. apply Z.pow_succ_r. lia. }
  unfold binary_round_aux.
  destruct (shr_fexp prec emax mx ex lx) as [mrs e1].
  cbn [fst snd] in Hm0, He1, Hrec, Hnear.
  set (m1 := round_nearest_even (shr_m mrs) (loc_of_shr_record mrs)).
  assert (m1 = mx / 2 ^ k \/ m1 = mx / 2 ^ k + 1) as Hc.
  { unfold m1. rewrite <- Hm0. apply round_nearest_even_incr. }
  exists m1. split; [exact Hc|]. split.
  { intros Hk0. unfold m1. rewrite (Hrec Hk0), loc_of_shr_record_of_loc.
    destruct lx as [|[| |]]; reflexivity. }
  split; [exact Hnear|].
  split; [lia|].
  assert (0 <= m1) as Hm1 by lia.
  pose proof (shr_fexp_m m1 e1 loc_Exact Hm1) as (Hm2 & He2 & _).
  destruct (shr_fexp prec emax m1 e1 loc_Exact) as [mrs2 e2]. simpl in Hm2, He2.
  assert (shr_shift m1 e1 = if m1 =? 2 ^ 53 then 1 else 0) as Hshift.
  { destruct (Z.eq_dec m1 (2 ^ (d - k))) as [Hcarry|Hno].
    - assert (Zdigits2 m1 = d - k + 1) as Hd1.
      { apply Zdigits2_unique; [|lia].
        replace (d - k + 1 - 1) with (d - k) by lia.
        replace (d - k + 1) with (Z.succ (d - k)) by lia.
        rewrite Z.pow_succ_r by lia. lia. }
      unfold shr_shift. rewrite Hd1, fexp_eq. rewrite fexp_eq in Hfe.
      destruct (Z.eq_dec (d - k) 53) as [H53|H53].
      + rewrite Hcarry, H53, Z.eqb_refl. lia.
      + assert (2 ^ (d - k) < 2 ^ 53) by (apply Z.pow_lt_mono_r; lia).
        replace (m1 =? 2 ^ 53) with false by (symmetry; apply Z.eqb_neq; lia).
        lia.
    - assert (Zdigits2 m1 = d - k) as Hd1.
      { apply Zdigits2_unique; [|lia].
        replace (d - k - 1) with (d - 1 - k) by lia. lia. }
      unfold shr_shift. rewrite Hd1, fexp_eq. rewrite fexp_eq in Hfe.
      replace (m1 =? 2 ^ 53) with false by (symmetry; apply Z.eqb_neq; lia).
      lia. }
  rewrite Hshift in Hm2, He2. subst e1 e2.
  change (emax - prec) with 971.
  destruct (m1 =? 2 ^ 53) eqn:Heq.
  - apply Z.eqb_eq in Heq. rewrite Heq in Hm2.
    change (2 ^ 53 / 2 ^ 1) with (Z.pos (2 ^ 52)) in Hm2. rewrite Hm2.
    reflexivity.
  - rewrite Z.pow_0_r, Z.div_1_r in Hm2. rewrite Hm2, Z.add_0_r.
    destruct m1 as [|p|p]; try lia. reflexivity.
Qed.

(** Rounding a mantissa that is not negative gives a zero, a finite number
    or an infinity of the sign asked for, never a NaN. *)
Lemma binary_round_aux_sign (s : bool) (mx ex : Z) (lx : location) :
  0 <= mx ->
  match binary_round_aux prec emax s mx ex lx with
  | S754_nan => False
  | S754_zero s' | S754_infinity s' | S754_finite s' _ _ => s' = s
  end.
Proof.
  intros Hm. unfold binary_round_aux.
  pose proof (shr_fexp_m mx ex lx Hm) as (Hm0 & _ & _).
  destruct (shr_fexp prec emax mx ex lx) as [mrs e1]. simpl in Hm0.
  set (m1 := round_nearest_even (shr_m mrs) (loc_of_shr_record mrs)).
  assert (0 <= m1) as Hm1.
  { assert (0 <= shr_m mrs) by (rewrite Hm0; apply Z.div_pos;
      [lia|apply Z.pow_pos_nonneg; unfold shr_shift; lia]).
    unfold m1.
    destruct (round_nearest_even_incr (shr_m mrs) (loc_of_shr_record mrs)); lia. }
  pose proof (shr_fexp_m m1 e1 loc_Exact Hm1) as (Hm2 & _ & _).
  destruct (shr_fexp prec emax m1 e1 loc_Exact) as [mrs2 e2]. simpl in Hm2.
  assert (0 <= shr_m mrs2) as Hpos.
  { rewrite Hm2. apply Z.div_pos; [lia|apply Z.pow_pos_nonneg; unfold shr_shift; lia]. }
  destruct (shr_m mrs2) as [|p|p]; [reflexivity| |lia].
  destruct (e2 <=? emax - prec); reflexivity.
Qed.

Lemma binary_round_sign (s : bool) (m : positive) (e : Z) :
  match binary_round prec emax s m e with
  | S754_nan => False
  | S754_zero s' | S754_infinity s' | S754_finite s' _ _ => s' = s
  end.
Proof.
  unfold binary_round. destruct (shl_align m e _) as [mz ez].
  apply binary_round_aux_sign. lia.
Qed.

Lemma binary_normalize_not_nan (m e : Z) :
  binary_normalize prec emax m e false <> S754_nan.
Proof.
  destruct m as [|p|p]; simpl; [discriminate| |].
  - pose proof (binary_round_sign false p e) as Hs.
    destruct (binary_round prec emax false p e); [discriminate|discriminate|contradiction|discriminate].
  - pose proof (binary_round_sign true p e) as Hs.
    destruct (binary_round prec emax true p e); [discriminate|discriminate|contradiction|discriminate].
Qed.

Lemma binary_round_aux_not_negative (mx ex : Z) (lx : location) :
  0 <= mx -> not_negative (binary_round_aux prec emax false mx ex lx) = true.
Proof.
  intros Hm. pose proof (binary_round_aux_sign false mx ex lx Hm) as Hs.
  destruct (binary_round_aux prec emax false mx ex lx); simpl;
    try contradiction; subst; reflexivity.
Qed.

Lemma binary_round_not_negative (m : positive) (e : Z) :
  not_negative (binary_round prec emax false m e) = true.
Proof.
  pose proof (binary_round_sign false m e) as Hs.
  destruct (binary_round prec emax false m e); simpl;
    try contradiction; subst; reflexivity.
Qed.

(** The difference of two finite numbers is not NaN. *)
Lemma SFsub_not_nan (x y : spec_float) :
  SFfinite x = true -> SFfinite y = true -> SF64sub x y <> S754_nan.
Proof.
  destruct x as [sx|sx| |sx mx ex], y as [sy|sy| |sy my ey]; simpl;
    try discriminate; intros _ _.
  - destruct sx, sy; discriminate.
  - apply binary_normalize_not_nan.
Qed.

(** The square of a number that is not NaN is not negative. *)
Lemma SFmul_square_not_negative (x : spec_float) :
  x <> S754_nan -> not_negative (SF64mul x x) = true.
Proof.
  destruct x as [s|s| |s m e]; simpl; intros Hx; try congruence;
    try (destruct s; reflexivity).
  replace (xorb s s) with false by (destruct s; reflexivity).
  apply binary_round_aux_not_negative. lia.
Qed.

Lemma SFadd_not_negative (x y : spec_float) :
  not_negative x = true -> not_negative y = true ->
  not_negative (SF64add x y) = true.
Proof.
  destruct x as [sx|sx| |sx mx ex], y as [sy|sy| |sy my ey]; simpl;
    try discriminate;
    try (destruct sx; simpl; try discriminate);
    try (destruct sy; simpl; try discriminate);
    intros _ _; try reflexivity.
  apply binary_round_not_negative.
Qed.

Lemma SFdiv_not_negative (x : spec_float) (my : positive) (ey : Z) :
  not_negative x = true ->
  not_negative (SF64div x (S754_finite false my ey)) = true.
Proof.
  destruct x as [sx|sx| |sx mx ex]; simpl; try discriminate;
    intros Hx; apply negb_true_iff in Hx; subst sx; try reflexivity.
  unfold SFdiv_core_binary.
  set (s := ex - ey - _).
  set (m' := match s with 0 => Z.pos mx | Z.pos _ => Z.shiftl (Z.pos mx) s | Z.neg _ => 0 end).
  assert (0 <= m') as Hm'.
  { unfold m'. destruct s; try lia. apply Z.shiftl_nonneg. lia. }
  pose proof (Z.div_pos m' (Z.pos my) Hm' ltac:(lia)) as Hq.
  unfold Z.div in Hq. destruct (Z.div_eucl m' (Z.pos my)) as [q r].
  apply binary_round_aux_not_negative. exact Hq.
Qed.

Lemma digits2_pos_iter_xO (p n : positive) :
  digits2_pos (Pos.iter xO p n) = (digits2_pos p + n)%positive.
Proof.
  induction n as [|n IH] using Pos.peano_ind.
  - simpl. lia.
  - rewrite Pos.iter_succ. simpl. rewrite IH. lia.
Qed.

(** Rounding a mantissa of a magnitude within the range of binary64 gives
    a finite number that is not zero. *)
Lemma binary_round_finite (m : positive) (e : Z) :
  -1073 <= Z.pos (digits2_pos m) + e <= 1023 ->
  exists m' e', binary_round prec emax false m e = S754_finite false m' e'.
Proof.
  intros Hd. unfold binary_round.
  assert (exists mz ez,
            shl_align m e (fexp prec emax (Z.pos (digits2_pos m) + e)) = (mz, ez)
            /\ Zdigits2 (Z.pos mz) + ez = Z.pos (digits2_pos m) + e
            /\ ez <= fexp prec emax (Z.pos (digits2_pos m) + e)) as (mz & ez & -> & Hdz & Hez).
  { unfold shl_align.
    destruct (fexp prec emax (Z.pos (digits2_pos m) + e) - e) as [|k|k] eqn:Hk.
    - exists m, e. split; [reflexivity|]. cbn [Zdigits2]. lia.
    - exists m, e. split; [reflexivity|]. cbn [Zdigits2]. lia.
    - eexists _, _. split; [reflexivity|]. cbn [Zdigits2].
      rewrite digits2_pos_iter_xO. lia. }
  destruct (binary_round_aux_finite (Z.pos mz) ez loc_Exact) as (m1 & _ & _ & _ & Hm1 & ->);
    [lia|lia|].
  assert (ez + shr_shift (Z.pos mz) ez <= 970) as Hexp.
  { unfold shr_shift. rewrite Hdz. rewrite fexp_eq in *. lia. }
  destruct (m1 =? 2 ^ 53).
  - replace (ez + shr_shift (Z.pos mz) ez + 1 <=? 971) with true
      by (symmetry; apply Z.leb_le; lia). eauto.
  - replace (ez + shr_shift (Z.pos mz) ez <=? 971) with true
      by (symmetry; apply Z.leb_le; lia). eauto.
Qed.

(** [float(n)] for a length [n] below [2 ^ 63] is a finite number above
    zero. *)
Lemma of_nat_finite (n : nat) :
  0 < Z.of_nat n < 2 ^ 63 ->
  exists m e,
    Prim2SF (PrimFloat.of_uint63 (Uint63.of_Z (Z.of_nat n))) = S754_finite false m e.
Proof.
  intros Hn. rewrite of_uint63_spec, Uint63.of_Z_spec.
  rewrite Z.mod_small by (change Uint63.wB with (2 ^ 63); lia).
  destruct (Z.of_nat n) as [|p|p] eqn:Hp; try lia. simpl.
  apply binary_round_finite.
  pose proof (Zdigits2_bounds (Z.pos p) ltac:(lia)) as [Hlo _].
  cbn [Zdigits2] in Hlo.
  assert (Z.pos (digits2_pos p) - 1 < 63).
  { apply (Z.pow_lt_mono_r_iff 2); lia. }
  lia.
Qed.

Lemma Prim2SF_infinity : Prim2SF infinity = S754_infinity false.
Proof. reflexivity. Qed.

(** [math.isfinite]: a zero or a finite number. *)
Lemma is_finite_Prim2SF (x : float) :
  PrimFloat.is_finite x = SFfinite (Prim2SF x).
Proof.
  unfold is_finite, is_nan, is_infinity.
  rewrite !FloatAxioms.eqb_spec, abs_spec, Prim2SF_infinity. unfold SFeqb.
  destruct (Prim2SF x) as [s|s| |s m e]; try reflexivity.
  - destruct s; reflexivity.
  - rewrite SFcompare_refl by discriminate. reflexivity.
Qed.

Lemma bounded_canonical (M : positive) (e : Z) :
  SpecFloat.bounded prec emax M e = true ->
  Zdigits2 (Z.pos M) <= 53 /\ -1074 <= e <= 971.
Proof.
  unfold SpecFloat.bounded, canonical_mantissa. intros Hb.
  apply andb_true_iff in Hb. destruct Hb as [Hc He].
  apply Z.eqb_eq in Hc. apply Z.leb_le in He. change (emax - prec) with 971 in He.
  cbn [Zdigits2]. rewrite fexp_eq in Hc. lia.
Qed.

Lemma pow2_52 : 2 ^ 52 = 4503599627370496. Proof. reflexivity. Qed.
Lemma pow2_53 : 2 ^ 53 = 9007199254740992. Proof. reflexivity. Qed.
Lemma pow2_104 : 2 ^ 104 = 4503599627370496 * 4503599627370496. Proof. reflexivity. Qed.
Lemma pow2_105 : 2 ^ 105 = 2 * (4503599627370496 * 4503599627370496). Proof. reflexivity. Qed.
Lemma pow2_106 : 2 ^ 106 = 9007199254740992 * 9007199254740992. Proof. reflexivity. Qed.

(** The square root of a finite number above zero: a mantissa [root] of 53
    bits at an exponent [e'], with [root] the integer nearest to the square
    root of the mantissa brought to the exponent [2 e']. *)
Lemma SFsqrt_finite (M : positive) (e : Z) :
  SpecFloat.bounded prec emax M e = true ->
  exists (root : positive) (e' s : Z),
    SF64sqrt (S754_finite false M e) = S754_finite false root e'
    /\ 2 ^ 52 <= Z.pos root < 2 ^ 53
    /\ -589 <= e' <= 459
    /\ e = 2 * e' + s /\ 52 <= s
    /\ Z.abs (Z.pos M * 2 ^ s - Z.pos root * Z.pos root) <= Z.pos root
    /\ 2 ^ 52 * Z.pos root <= Z.pos M * 2 ^ s.
Proof.
  intros Hb. destruct (bounded_canonical M e Hb) as (Hd & He).
  pose proof (Zdigits2_bounds (Z.pos M) ltac:(lia)) as HM.
  pose proof (Zdigits2_pos (Z.pos M) ltac:(lia)) as Hdpos.
  unfold SF64sqrt, SFsqrt, SFsqrt_core_binary.
  set (d := Zdigits2 (Z.pos M)) in *.
  set (e' := Z.min (fexp prec emax (Z.div2 (d + e + 1))) (Z.div2 e)).
  assert (e' = (d + e + 1) / 2 - 53) as He'.
  { unfold e'. rewrite fexp_eq, !Z.div2_div.
    Z.to_euclidean_division_equations. lia. }
  assert (e - 2 * e' = 105 - d \/ e - 2 * e' = 106 - d) as Hs
    by (rewrite He'; Z.to_euclidean_division_equations; lia).
  assert (-589 <= e' <= 459) as He'b
    by (rewrite He'; Z.to_euclidean_division_equations; lia).
  destruct (e - 2 * e') as [|p|p] eqn:Hsp; try lia.
  rewrite Z.shiftl_mul_pow2 by lia.
  set (s := Z.pos p) in *.
  assert (0 < 2 ^ s) as HS by (apply Z.pow_pos_nonneg; lia).
  assert (0 < 2 ^ (d - 1)) as Ha by (apply Z.pow_pos_nonneg; lia).
  assert (2 ^ d = 2 * 2 ^ (d - 1)) as Hda.
  { replace d with (Z.succ (d - 1)) at 1 by lia. apply Z.pow_succ_r. lia. }
  assert (2 ^ (d - 1) * 2 ^ s = 2 ^ (d - 1 + s)) as HaS
    by (rewrite <- Z.pow_add_r; lia).
  assert ((2 ^ (d - 1) * 2 ^ s = 2 ^ 104)
          \/ (2 ^ (d - 1) * 2 ^ s = 2 ^ 105 /\ 2 ^ 53 <= 2 ^ s)) as Hcase.
  { destruct Hs as [Hs|Hs].
    - left. rewrite HaS. f_equal. lia.
    - right. split; [rewrite HaS; f_equal; lia|].
      apply Z.pow_le_mono_r; lia. }
  set (m' := Z.pos M * 2 ^ s).
  assert (2 ^ (d - 1) * 2 ^ s <= m' <= 2 * (2 ^ (d - 1) * 2 ^ s) - 2 ^ s) as Hm'b.
  { unfold m'. split.
    - apply Z.mul_le_mono_nonneg_r; lia.
    - replace (2 * (2 ^ (d - 1) * 2 ^ s) - 2 ^ s)
        with ((2 * 2 ^ (d - 1) - 1) * 2 ^ s) by ring.
      apply Z.mul_le_mono_nonneg_r; lia. }
  pose proof (Z.sqrtrem_spec m' ltac:(lia)) as Hsq.
  destruct (Z.sqrtrem m') as [q r]. destruct Hsq as [Hqr Hr].
  rewrite pow2_104, pow2_105, pow2_53 in Hcase.
  assert (4503599627370496 <= q < 9007199254740992) as Hq by nia.
  assert (Zdigits2 q = 53) as Hdq.
  { apply Zdigits2_unique; [|lia]. change (53 - 1) with 52.
    rewrite pow2_52, pow2_53. exact Hq. }
  set (l := if r =? 0 then loc_Exact
            else loc_Inexact (if r <=? q then Lt else Gt)).
  destruct (binary_round_aux_finite q e' l) as (m1 & _ & Hk0 & _ & Hm1 & Hres);
    [lia|lia|].
  assert (shr_shift q e' = 0) as Hshift.
  { unfold shr_shift. rewrite Hdq, fexp_eq. lia. }
  rewrite Hshift in Hres. specialize (Hk0 Hshift).
  assert (m1 = if q <? r then q + 1 else q) as Hround.
  { rewrite Hk0. unfold l. destruct (r =? 0) eqn:Hr0.
    - apply Z.eqb_eq in Hr0. simpl.
      replace (q <? r) with false by (symmetry; apply Z.ltb_ge; lia). reflexivity.
    - destruct (r <=? q) eqn:Hrq.
      + apply Z.leb_le in Hrq. simpl.
        replace (q <? r) with false by (symmetry; apply Z.ltb_ge; lia). reflexivity.
      + apply Z.leb_gt in Hrq. simpl.
        replace (q <? r) with true by (symmetry; apply Z.ltb_lt; lia). reflexivity. }
  assert (4503599627370496 <= m1 < 9007199254740992
          /\ Z.abs (m' - m1 * m1) <= m1
          /\ 4503599627370496 * m1 <= m') as (Hlt & Hnear & Hlow).
  { rewrite Hround. destruct (q <? r) eqn:Hqr'.
    - apply Z.ltb_lt in Hqr'. nia.
    - apply Z.ltb_ge in Hqr'. nia. }
  rewrite pow2_53 in Hres.
  replace (m1 =? 9007199254740992) with false in Hres
    by (symmetry; apply Z.eqb_neq; lia).
  replace (e' + 0 <=? 971) with true in Hres by (symmetry; apply Z.leb_le; lia).
  rewrite Z.add_0_r in Hres.
  exists (Z.to_pos m1), e', s.
  rewrite Z2Pos.id by lia. rewrite pow2_52, pow2_53.
  split; [exact Hres|]. split; [lia|]. split; [lia|]. split; [lia|].
  split; [lia|]. split; [exact Hnear|exact Hlow].
Qed.

(** The product of such a root with itself: the square of the mantissa,
    rounded to a nearest multiple of the bits dropped, at the exponent
    [2 e'] raised by their number; it does not overflow. *)
Lemma SFmul_square_finite (root : positive) (e' : Z) :
  2 ^ 52 <= Z.pos root < 2 ^ 53 -> -589 <= e' <= 459 ->
  exists (Q : positive) (E k Q0 : Z),
    SF64mul (S754_finite false root e') (S754_finite false root e')
    = S754_finite false Q E
    /\ k = Z.max (Zdigits2 (Z.pos root * Z.pos root) - 53) (-1074 - 2 * e')
    /\ 52 <= k
    /\ 2 * Z.abs (Q0 * 2 ^ k - Z.pos root * Z.pos root) <= 2 ^ k
    /\ 2 * e' + k <= E /\ Z.pos Q * 2 ^ (E - (2 * e' + k)) = Q0.
Proof.
  rewrite pow2_52, pow2_53. intros Hroot He'.
  unfold SF64mul, SFmul. cbn [xorb]. rewrite Pos2Z.inj_mul.
  set (P := Z.pos root * Z.pos root).
  assert (2 ^ 104 <= P /\ P <= 9007199254740991 * 9007199254740991) as HP
    by (rewrite pow2_104; unfold P; nia).
  assert (0 < P) as HPpos by (rewrite pow2_104 in HP; lia).
  pose proof (Zdigits2_bounds P HPpos) as HD.
  assert (Zdigits2 P = 105 \/ Zdigits2 P = 106) as HDP.
  { assert (104 < Zdigits2 P).
    { apply (Z.pow_lt_mono_r_iff 2); [lia|pose proof (Zdigits2_pos P HPpos); lia|lia]. }
    assert (Zdigits2 P - 1 < 106).
    { apply (Z.pow_lt_mono_r_iff 2); [lia|lia|]. rewrite pow2_106. lia. }
    lia. }
  destruct (binary_round_aux_finite P (e' + e') loc_Exact)
    as (Q0 & Hc & _ & Hnear & HQ0 & Hres); [lia|lia|].
  specialize (Hnear eq_refl).
  assert (shr_shift P (e' + e') = Z.max (Zdigits2 P - 53) (-1074 - 2 * e')) as Hk.
  { unfold shr_shift. rewrite fexp_eq. lia. }
  rewrite Hk in *.
  set (k := Z.max (Zdigits2 P - 53) (-1074 - 2 * e')) in *.
  assert (52 <= k) as Hk52 by lia.
  assert (0 < 2 ^ k) as Hpow by (apply Z.pow_pos_nonneg; lia).
  assert (e' + e' + k <= 971) as Hexp by lia.
  rewrite pow2_53 in Hres, HQ0.
  destruct (Q0 =? 9007199254740992) eqn:Hcarry.
  - apply Z.eqb_eq in Hcarry.
    assert (k = 52) as Hk'.
    { destruct (Z.le_gt_cases k 52) as [Hle|Hgt]; [lia|].
      assert (2 ^ 53 <= 2 ^ k) as Hbig by (apply Z.pow_le_mono_r; lia).
      rewrite pow2_53 in Hbig.
      pose proof (Z.mul_div_le P (2 ^ k) Hpow) as Hdiv.
      nia. }
    replace (e' + e' + k + 1 <=? 971) with true in Hres
      by (symmetry; apply Z.leb_le; lia).
    exists (2 ^ 52)%positive, (e' + e' + k + 1), k, Q0.
    split; [exact Hres|]. split; [reflexivity|]. split; [exact Hk52|].
    split; [exact Hnear|].
    split; [lia|].
    replace (e' + e' + k + 1 - (2 * e' + k)) with 1 by lia.
    rewrite Hcarry. reflexivity.
  - apply Z.eqb_neq in Hcarry.
    replace (e' + e' + k <=? 971) with true in Hres
      by (symmetry; apply Z.leb_le; lia).
    exists (Z.to_pos Q0), (e' + e' + k), k, Q0.
    split; [exact Hres|]. split; [reflexivity|]. split; [exact Hk52|].
    split; [exact Hnear|].
    split; [lia|].
    replace (e' + e' + k - (2 * e' + k)) with 0 by lia.
    rewrite Z2Pos.id by lia. rewrite Z.pow_0_r. lia.
Qed.

(** The round trip on the mantissas, in units of [2 ^ (2 e')]. *)
Lemma round_trip_mantissas (M root Q0 s k e' : Z) :
  2 ^ 52 <= root < 2 ^ 53 ->
  0 < M -> 0 <= s -> -1074 - 2 * e' <= s ->
  Z.abs (M * 2 ^ s - root * root) <= root ->
  2 ^ 52 * root <= M * 2 ^ s ->
  k = Z.max (Zdigits2 (root * root) - 53) (-1074 - 2 * e') ->
  2 * Z.abs (Q0 * 2 ^ k - root * root) <= 2 ^ k ->
  2 ^ 51 * Z.abs (Q0 * 2 ^ k - M * 2 ^ s) <= M * 2 ^ s.
Proof.
  rewrite pow2_52, pow2_53. change (2 ^ 51) with 2251799813685248.
  intros Hroot HM Hs Hsk Hsq Hlow Hk Hnear.
  set (P := root * root) in *. set (m' := M * 2 ^ s) in *.
  assert (4503599627370496 * 4503599627370496 <= P) as HP by (unfold P; nia).
  assert (0 < P) as HPpos by lia.
  pose proof (Zdigits2_bounds P HPpos) as [HD _].
  assert (104 < Zdigits2 P) as HD104.
  { pose proof (Zdigits2_bounds P HPpos) as [_ HD'].
    apply (Z.pow_lt_mono_r_iff 2); [lia|pose proof (Zdigits2_pos P HPpos); lia|].
    rewrite pow2_104. lia. }
  assert (0 <= k) as Hk0 by lia.
  assert (0 < 2 ^ k) as HK by (apply Z.pow_pos_nonneg; lia).
  destruct (Z.max_spec (Zdigits2 P - 53) (-1074 - 2 * e')) as [[Hlt Hmax]|[Hge Hmax]];
    rewrite Hmax in Hk.
  - (* the result is subnormal: both are multiples of [2 ^ k] *)
    assert (m' = M * 2 ^ (s - k) * 2 ^ k) as Hmult.
    { unfold m'. rewrite <- Z.mul_assoc, <- Z.pow_add_r by lia.
      f_equal. f_equal. lia. }
    set (N := M * 2 ^ (s - k)) in *. set (K := 2 ^ k) in *.
    destruct (Z.eq_dec Q0 N) as [->|Hne].
    + rewrite <- Hmult. replace (m' - m') with 0 by lia. simpl. lia.
    + assert (K <= Z.abs (Q0 * K - m')) as Hfar by (rewrite Hmult; nia).
      lia.
  - (* the result is normal *)
    assert (2 ^ 52 * 2 ^ k <= P) as Hbig.
    { rewrite <- Z.pow_add_r by lia.
      replace (52 + k) with (Zdigits2 P - 1) by lia. exact HD. }
    rewrite pow2_52 in Hbig. set (K := 2 ^ k) in *. lia.
Qed.


End Rounding.

(** *** The values of binary64 numbers *)

Section Values.

Local Open Scope Z_scope.

Lemma IZR_pow2 (s : Z) : 0 <= s -> IZR (2 ^ s) = powerRZ 2 s.
Proof.
  intros Hs. rewrite <- (Z2Nat.id s Hs), <- pow_powerRZ, <- pow_IZR. reflexivity.
Qed.

(** The value of a mantissa at an exponent, brought to a lower exponent. *)
Lemma SF2R_scaled (m : positive) (e e0 : Z) :
  e0 <= e ->
  SF2R (S754_finite false m e)
  = (IZR (Z.pos m * 2 ^ (e - e0)) * powerRZ 2 e0)%R.
Proof.
  intros He. unfold SF2R. cbn [cond_Zopp]. rewrite mult_IZR, IZR_pow2 by lia.
  rewrite Rmult_assoc, <- powerRZ_add by lra. f_equal. f_equal. lia.
Qed.

(** The square of the square root of a finite number above zero is a
    finite number within [2 ^ -51] of it. *)
Lemma SFsqrt_square_close (M : positive) (e : Z) :
  SpecFloat.bounded prec emax M e = true ->
  exists (Q : positive) (E : Z),
    SF64mul (SF64sqrt (S754_finite false M e)) (SF64sqrt (S754_finite false M e))
    = S754_finite false Q E
    /\ (Rabs (SF2R (S754_finite false Q E) - SF2R (S754_finite false M e))
        <= / 2 ^ 51 * Rabs (SF2R (S754_finite false M e)))%R.
Proof.
  intros Hb.
  destruct (SFsqrt_finite M e Hb) as (root & e' & s & -> & Hroot & He' & He & Hs & Hsq & Hlow).
  destruct (SFmul_square_finite root e' Hroot He') as (Q & E & k & Q0 & -> & Hk & Hk52 & Hnear & HE & HQ).
  exists Q, E. split; [reflexivity|].
  destruct (bounded_canonical M e Hb) as (_ & Hemin).
  pose proof (round_trip_mantissas (Z.pos M) (Z.pos root) Q0 s k e' Hroot
                ltac:(lia) ltac:(lia) ltac:(lia) Hsq Hlow Hk Hnear) as Hint.
  assert (0 <= k) as Hk0 by lia.
  rewrite (SF2R_scaled Q E (2 * e')) by lia.
  rewrite (SF2R_scaled M e (2 * e')) by lia.
  replace (e - 2 * e') with s by lia.
  assert (Z.pos Q * 2 ^ (E - 2 * e') = Q0 * 2 ^ k) as ->.
  { rewrite <- HQ, <- Z.mul_assoc, <- Z.pow_add_r by lia. f_equal. f_equal. lia. }
  set (a := Q0 * 2 ^ k) in *. set (b := Z.pos M * 2 ^ s) in *.
  assert (0 < powerRZ 2 (2 * e'))%R as Hc by (apply powerRZ_lt; lra).
  set (c := powerRZ 2 (2 * e')) in *.
  rewrite <- Rmult_minus_distr_r, !Rabs_mult, (Rabs_pos_eq c) by lra.
  rewrite <- Rmult_assoc. apply Rmult_le_compat_r; [lra|].
  rewrite <- minus_IZR, <- !abs_IZR.
  assert (0 < b) as Hb0.
  { unfold b. apply Z.mul_pos_pos; [lia|apply Z.pow_pos_nonneg; lia]. }
  rewrite (Z.abs_eq b) by lia.
  apply IZR_le in Hint. rewrite mult_IZR in Hint.
  change (IZR (2 ^ 51)) with (IZR 2251799813685248) in Hint.
  assert ((2 ^ 51)%R = IZR 2251799813685248) as Hpow.
  { rewrite pow_IZR. reflexivity. }
  rewrite Hpow.
  assert (0 < IZR 2251799813685248)%R as Hpos by (apply IZR_lt; lia).
  apply (Rmult_le_reg_l (IZR 2251799813685248)); [exact Hpos|].
  rewrite <- Rmult_assoc, Rinv_r by lra. lra.
Qed.

(** [math.sqrt(x) * math.sqrt(x)] for a float that is not negative and not
    NaN. *)
Lemma sqrt_square_within_tolerance (x : float) :
  not_negative (Prim2SF x) = true ->
  within_tolerance (/ 2 ^ 51) (PrimFloat.mul (PrimFloat.sqrt x) (PrimFloat.sqrt x)) x.
Proof.
  intros Hx. pose proof (Prim2SF_valid x) as Hvalid.
  destruct (Prim2SF x) as [s|s| |s M e] eqn:HSF; try discriminate Hx;
    simpl in Hx; apply negb_true_iff in Hx; subst s.
  - left. apply Prim2SF_inj. rewrite mul_spec, sqrt_spec, HSF. reflexivity.
  - left. apply Prim2SF_inj. rewrite mul_spec, sqrt_spec, HSF. reflexivity.
  - right. destruct (SFsqrt_square_close M e Hvalid) as (Q & E & Hmul & Hclose).
    assert (Prim2SF (PrimFloat.mul (PrimFloat.sqrt x) (PrimFloat.sqrt x))
            = S754_finite false Q E) as HSF'
      by (rewrite mul_spec, sqrt_spec, HSF; exact Hmul).
    split; [rewrite is_finite_Prim2SF, HSF'; reflexivity|].
    split; [rewrite is_finite_Prim2SF, HSF; reflexivity|].
    unfold value. rewrite HSF', HSF. exact Hclose.
Qed.

End Values.

Set Implicit Arguments.

End Binary64.

#[export] Instance float64_laws : PyNumLaws float.
Proof.
  split; simpl.
  - intros x y Hx. apply Binary64.is_nan_Prim2SF in Hx.
    rewrite leb_spec, Hx. reflexivity.
  - intros x y Hy. apply Binary64.is_nan_Prim2SF in Hy.
    rewrite leb_spec, Hy. apply Binary64.SFleb_nan_r.
  - intros x Hx. apply Binary64.not_nan_Prim2SF in Hx.
    rewrite leb_spec. unfold SFleb. rewrite Binary64.SFcompare_refl by exact Hx.
    reflexivity.
  - intros x y Hx Hy. rewrite !leb_spec.
    apply Binary64.SFleb_total; apply Binary64.not_nan_Prim2SF; assumption.
  - intros x y z. rewrite !leb_spec. apply Binary64.SFleb_trans.
  - reflexivity.
  - intros x. rewrite Binary64.ltb_zero_sign_clear, mul_spec.
    rewrite Binary64.SFmul_square_sign_clear. reflexivity.
  - intros x y. rewrite !Binary64.ltb_zero_sign_clear, add_spec.
    intros Hx Hy. apply negb_false_iff in Hx, Hy.
    rewrite Binary64.SFadd_sign_clear by assumption. reflexivity.
  - intros x n _. rewrite !Binary64.ltb_zero_sign_clear, div_spec.
    intros Hx. apply negb_false_iff in Hx.
    destruct (Binary64.of_nat_sign_clear n) as [Hs Hz].
    rewrite Binary64.SFdiv_sign_clear by assumption. reflexivity.
Qed.


(** ** [np.argmin] *)

Section Argmin.

Context {F : Type} `{PyNumLaws F}.

Lemma argmin_scan_bound (l : list F) : forall mp min_ind i,
  (min_ind < i)%nat -> (argmin_scan mp min_ind i l < i + List.length l)%nat.
Proof.
  induction l as [|ip l IH]; intros mp min_ind i Hlt; simpl.
  - lia.
  - destruct (negb (leb mp ip)).
    + destruct (isnan ip).
      * lia.
      * specialize (IH ip i (S i)). lia.
    + specialize (IH mp min_ind (S i)). lia.
Qed.

(** [np.argmin] of a sequence that is not empty returns one of its
    indices. *)
Lemma np_argmin_returns (a : list F) :
  a <> [] -> exists i, np_argmin a = Returned i /\ (i < List.length a)%nat.
Proof.
  destruct a as [|mp l]; [congruence|]. intros _. simpl.
  destruct (isnan mp).
  - exists 0%nat. split; [reflexivity|lia].
  - exists (argmin_scan mp 0 1 l). split; [reflexivity|].
    pose proof (argmin_scan_bound l mp (min_ind := 0) (i := 1)). lia.
Qed.

(** The scan from an index that is a first minimum of the entries seen so
    far ends at a first minimum of all entries, when none is NaN. *)
Lemma argmin_scan_first_minimum (l : list F) : forall pre mp min_ind,
  Forall (fun x => isnan x = false) (pre ++ l) ->
  nth_error pre min_ind = Some mp ->
  (forall j x, nth_error pre j = Some x -> leb mp x = true) ->
  (forall j x, (j < min_ind)%nat -> nth_error pre j = Some x -> leb x mp = false) ->
  first_minimum (pre ++ l) (argmin_scan mp min_ind (List.length pre) l).
Proof.
  induction l as [|ip l IH]; intros pre mp min_ind Hnan Hmp Hmin Hfirst.
  - simpl. rewrite app_nil_r. exists mp. auto.
  - assert (isnan ip = false) as Hip.
    { rewrite Forall_app in Hnan. destruct Hnan as [_ Hl].
      inversion Hl; assumption. }
    assert (isnan mp = false) as Hmpn.
    { rewrite Forall_forall in Hnan. apply Hnan, in_or_app. left.
      eapply nth_error_In; eassumption. }
    assert (List.length (pre ++ [ip]) = S (List.length pre)) as Hlen
      by (rewrite length_app; simpl; lia).
    replace (pre ++ ip :: l) with ((pre ++ [ip]) ++ l) in *
      by (rewrite <- app_assoc; reflexivity).
    simpl. destruct (leb mp ip) eqn:Hle; simpl.
    + rewrite <- Hlen. apply IH.
      * exact Hnan.
      * rewrite nth_error_app1; [exact Hmp|]. apply nth_error_Some. congruence.
      * intros j x Hj. destruct (Nat.lt_ge_cases j (List.length pre)) as [Hlt|Hge].
        -- rewrite nth_error_app1 in Hj by exact Hlt. eauto.
        -- rewrite nth_error_app2 in Hj by exact Hge.
           destruct (j - List.length pre)%nat as [|k]; simpl in Hj.
           ++ congruence.
           ++ destruct k; discriminate.
      * intros j x Hlt Hj. apply (Hfirst j x Hlt).
        rewrite nth_error_app1 in Hj; [exact Hj|].
        assert (min_ind < List.length pre)%nat
          by (apply nth_error_Some; congruence). lia.
    + rewrite Hip. rewrite <- Hlen. apply IH.
      * exact Hnan.
      * rewrite nth_error_app2 by lia. rewrite Nat.sub_diag. reflexivity.
      * intros j x Hj. destruct (Nat.lt_ge_cases j (List.length pre)) as [Hlt|Hge].
        -- rewrite nth_error_app1 in Hj by exact Hlt.
           apply leb_trans with mp; [|eauto].
           apply leb_total; assumption.
        -- rewrite nth_error_app2 in Hj by exact Hge.
           destruct (j - List.length pre)%nat as [|k]; simpl in Hj.
           ++ injection Hj as <-. apply leb_refl. exact Hip.
           ++ destruct k; discriminate.
      * intros j x Hlt Hj. rewrite nth_error_app1 in Hj by exact Hlt.
        destruct (leb x ip) eqn:Hx; [|reflexivity].
        rewrite (leb_trans mp x ip) in Hle; [discriminate|eauto|exact Hx].
Qed.

(** [np.argmin] of a sequence without NaN returns the first index of a
    smallest entry. *)
Lemma np_argmin_first_minimum (a : list F) :
  a <> [] -> Forall (fun x => isnan x = false) a ->
  exists i, np_argmin a = Returned i /\ first_minimum a i.
Proof.
  destruct a as [|mp l]; [congruence|]. intros _ Hnan.
  assert (isnan mp = false) as Hmp by (inversion Hnan; assumption).
  simpl. rewrite Hmp. eexists. split; [reflexivity|].
  apply (argmin_scan_first_minimum l [mp] (min_ind := 0)).
  - exact Hnan.
  - reflexivity.
  - intros [|[|j]] x Hj; simpl in Hj; try discriminate.
    injection Hj as <-. apply leb_refl. exact Hmp.
  - intros j x Hj. lia.
Qed.

(** The scan stops at the first NaN it meets. *)
Lemma argmin_scan_first_nan (l : list F) : forall mp min_ind i k v,
  nth_error l k = Some v -> isnan v = true ->
  (forall j x, (j < k)%nat -> nth_error l j = Some x -> isnan x = false) ->
  argmin_scan mp min_ind i l = (i + k)%nat.
Proof.
  induction l as [|ip l IH]; intros mp min_ind i k v Hk Hv Hbefore.
  - destruct k; discriminate.
  - destruct k as [|k]; simpl in Hk.
    + injection Hk as ->. simpl.
      rewrite (leb_nan_r mp v Hv), Hv. simpl. lia.
    + assert (isnan ip = false) as Hip by (apply (Hbefore 0%nat); [lia|reflexivity]).
      assert (forall j x, (j < k)%nat -> nth_error l j = Some x -> isnan x = false)
        as Hbefore' by (intros j x Hj Hx; apply (Hbefore (S j)); [lia|exact Hx]).
      simpl. rewrite Hip.
      destruct (negb (leb mp ip));
        erewrite IH by eassumption; lia.
Qed.

(** [np.argmin] of a sequence with a NaN returns the index of its first
    NaN. *)
Lemma np_argmin_first_nan (a : list F) (k : nat) :
  first_nan a k -> np_argmin a = Returned k.
Proof.
  intros (v & Hk & Hv & Hbefore).
  destruct a as [|mp l]; [destruct k; discriminate|].
  destruct k as [|k]; simpl in Hk.
  - injection Hk as ->. simpl. rewrite Hv. reflexivity.
  - simpl. rewrite (Hbefore 0%nat mp) by (lia || reflexivity).
    f_equal. apply argmin_scan_first_nan with v; try assumption.
    intros j x Hj Hx. apply (Hbefore (S j)); [lia|exact Hx].
Qed.

Example np_argmin_tie :
  np_argmin [3; 1; 2; 1]%float = Returned 1%nat.
Proof. reflexivity. Qed.

Example np_argmin_nan :
  np_argmin [3; 1; nan; 0.5]%float = Returned 2%nat.
Proof. reflexivity. Qed.

Example np_argmin_signed_zeros :
  np_argmin [0; -0]%float = Returned 0%nat.
Proof. reflexivity. Qed.

(** A sequence has a first NaN or no NaN at all. *)
Lemma first_nan_or_none (a : list F) :
  (exists k, first_nan a k) \/ Forall (fun x => isnan x = false) a.
Proof.
  induction a as [|x a IH].
  - right. constructor.
  - destruct (isnan x) eqn:Hx.
    + left. exists 0%nat, x. split; [reflexivity|]. split; [exact Hx|].
      intros j y Hj. lia.
    + destruct IH as [(k & v & Hk & Hv & Hbefore)|Hnone].
      * left. exists (S k), v. split; [exact Hk|]. split; [exact Hv|].
        intros [|j] y Hj Hy; simpl in Hy.
        -- injection Hy as <-. exact Hx.
        -- apply (Hbefore j); [lia|exact Hy].
      * right. constructor; assumption.
Qed.

(** [np.argmin] on any sequence that is not empty: the first NaN if there
    is one, the first of the smallest entries otherwise. *)
Lemma np_argmin_selects (a : list F) :
  a <> [] ->
  exists i, np_argmin a = Returned i
    /\ (first_nan a i
        \/ (Forall (fun x => isnan x = false) a /\ first_minimum a i)).
Proof.
  intros Hne. destruct (first_nan_or_none a) as [(k & Hk)|Hnone].
  - exists k. split; [apply np_argmin_first_nan; exact Hk|left; exact Hk].
  - destruct (np_argmin_first_minimum Hne Hnone) as (i & Hi & Hmin).
    exists i. auto.
Qed.

End Argmin.

(** ** The two loops *)

Section Sweep.

Context {F : Type} `{PyNum F}.
Variable estimator : Type.
Variable fit : F -> features F -> labels F -> outcome estimator.
Variable coef_ : estimator -> list F.
Variable predict : estimator -> features F -> outcome (labels F).
Variables (x_train : features F) (y_train : labels F).
Variables (x_test : features F) (y_test : labels F).

Let point := fit_point fit coef_ predict x_train y_train x_test y_test.
Let loop2 := loop_l2 fit coef_ predict x_train y_train x_test y_test.
Let loop1 := loop_l1 fit coef_ predict x_train y_train x_test y_test.
Let points := grid_points fit coef_ predict x_train y_train x_test y_test.

(** One turn of the loop appends the triple of its penalty to the three
    lists, or raises what the turn raises. *)
Lemma loop_l2_turn (reg : F) (rest train_RMSE test_RMSE : list F)
    (coefs : list (list F)) :
  loop2 (reg :: rest) train_RMSE test_RMSE coefs =
  obind (point reg) (fun r =>
    loop2 rest (train_RMSE ++ [fst (fst r)]) (test_RMSE ++ [snd (fst r)])
      (coefs ++ [snd r])).
Proof.
  unfold loop2, point, fit_point. simpl.
  destruct (fit reg x_train y_train) as [lin_mod|e]; simpl; [|reflexivity].
  destruct (predict lin_mod x_train) as [y_score_train|e]; simpl; [|reflexivity].
  destruct (mean_squared_error y_train y_score_train) as [e_train|e]; simpl;
    [|reflexivity].
  destruct (predict lin_mod x_test) as [y_score|e]; simpl; [|reflexivity].
  destruct (mean_squared_error y_test y_score) as [e_test|e]; reflexivity.
Qed.

(** With the same constructor the two loops are one function. *)
Lemma loop_l1_l2 (l : list F) : forall train_RMSE test_RMSE coefs,
  loop1 l train_RMSE test_RMSE coefs = loop2 l train_RMSE test_RMSE coefs.
Proof.
  unfold loop1, loop2.
  induction l as [|reg rest IH]; intros train_RMSE test_RMSE coefs; simpl.
  - reflexivity.
  - destruct (fit reg x_train y_train) as [lin_mod|e]; simpl; [|reflexivity].
    destruct (predict lin_mod x_train) as [y_score_train|e]; simpl; [|reflexivity].
    destruct (mean_squared_error y_train y_score_train) as [e_train|e]; simpl;
      [|reflexivity].
    destruct (predict lin_mod x_test) as [y_score|e]; simpl; [|reflexivity].
    destruct (mean_squared_error y_test y_score) as [e_test|e]; simpl;
      [|reflexivity].
    apply IH.
Qed.

(** A loop that ends has appended, in grid order, the triple of every
    penalty. *)
Lemma loop_l2_returned (l : list F) : forall train_RMSE test_RMSE coefs s,
  loop2 l train_RMSE test_RMSE coefs = Returned s ->
  exists rs, points l rs
    /\ s = (train_RMSE ++ train_errors rs, test_RMSE ++ test_errors rs,
            coefs ++ coefficients rs).
Proof.
  induction l as [|reg rest IH]; intros train_RMSE test_RMSE coefs s Hs.
  - exists []. split; [constructor|]. simpl. rewrite !app_nil_r.
    unfold loop2 in Hs. simpl in Hs. congruence.
  - rewrite loop_l2_turn in Hs.
    apply obind_returned in Hs. destruct Hs as (r & Hr & Hs).
    apply IH in Hs. destruct Hs as (rs & Hrs & ->).
    exists (r :: rs). split; [constructor; assumption|].
    simpl. rewrite <- !app_assoc. reflexivity.
Qed.

(** When every penalty has a triple the loop ends. *)
Lemma loop_l2_complete (l : list F) : forall rs train_RMSE test_RMSE coefs,
  points l rs ->
  loop2 l train_RMSE test_RMSE coefs =
  Returned (train_RMSE ++ train_errors rs, test_RMSE ++ test_errors rs,
            coefs ++ coefficients rs).
Proof.
  induction l as [|reg rest IH]; intros rs train_RMSE test_RMSE coefs Hrs;
    inversion Hrs as [|? r ? rs' Hr Hrs']; subst.
  - simpl. rewrite !app_nil_r. reflexivity.
  - rewrite loop_l2_turn. unfold point. rewrite Hr. simpl.
    rewrite (IH rs') by assumption.
    rewrite <- !app_assoc. reflexivity.
Qed.

(** A loop that raises raises what the turn of one of its penalties
    raises. *)
Lemma loop_l2_raised_at (l : list F) : forall train_RMSE test_RMSE coefs e,
  loop2 l train_RMSE test_RMSE coefs = Raised e ->
  exists reg, In reg l /\ point reg = Raised e.
Proof.
  induction l as [|reg rest IH]; intros train_RMSE test_RMSE coefs e He.
  - discriminate He.
  - rewrite loop_l2_turn in He. destruct (point reg) as [r|e'] eqn:Hr.
    + simpl in He. apply IH in He. destruct He as (reg' & Hin & Hreg').
      exists reg'. split; [right; exact Hin|exact Hreg'].
    + simpl in He. injection He as <-. exists reg. split; [left; reflexivity|exact Hr].
Qed.

Lemma points_length (l : list F) (rs : list (F * F * list F)) :
  points l rs ->
  List.length (train_errors rs) = List.length l
  /\ List.length (test_errors rs) = List.length l
  /\ List.length (coefficients rs) = List.length l.
Proof.
  intros Hrs. apply Forall2_length in Hrs.
  unfold train_errors, test_errors, coefficients. rewrite !length_map. lia.
Qed.

Lemma points_nth (l : list F) (rs : list (F * F * list F)) (i : nat) (reg : F) :
  points l rs -> nth_error l i = Some reg ->
  exists r, point reg = Returned r
    /\ nth_error (train_errors rs) i = Some (fst (fst r))
    /\ nth_error (test_errors rs) i = Some (snd (fst r))
    /\ nth_error (coefficients rs) i = Some (snd r).
Proof.
  intros Hrs. revert i.
  induction Hrs as [|reg' r l' rs' Hr Hrs IH]; intros i Hi.
  - destruct i; discriminate.
  - destruct i as [|i]; simpl in Hi.
    + injection Hi as ->. exists r. simpl. auto.
    + apply IH. exact Hi.
Qed.

End Sweep.

(** ** The routines *)

Section Routines.

Context {F : Type} `{PyNum F}.

Lemma plot_regularization_charts (l train_RMSE test_RMSE : list F)
    (coefs : list (list F)) (min_idx : F) (title : string) :
  List.length train_RMSE = List.length l ->
  List.length test_RMSE = List.length l ->
  List.length coefs = List.length l ->
  plot_regularization l train_RMSE test_RMSE coefs min_idx title
  = (charts l train_RMSE test_RMSE coefs min_idx title, Returned tt).
Proof.
  intros Htrain Htest Hcoefs.
  unfold plot_regularization, plot, plot_lines.
  rewrite Htrain, Htest, Hcoefs, Nat.eqb_refl. reflexivity.
Qed.

(** The three statements of the selection, as they stand in the routines,
    are [select_min]. *)
Lemma select_min_statements {A : Type} (l test_RMSE : list F)
    (k : F -> F -> stmt F A) :
  bind (call (np_argmin test_RMSE)) (fun min_idx =>
  bind (call (getitem l min_idx)) (fun min_l =>
  bind (call (getitem test_RMSE min_idx)) (fun min_RMSE =>
  k min_l min_RMSE)))
  = bind (call (select_min l test_RMSE)) (fun best => k (fst best) (snd best)).
Proof.
  unfold select_min.
  destruct (np_argmin test_RMSE) as [min_idx|e]; [|reflexivity].
  cbn [obind]. rewrite bind_call_returned.
  destruct (getitem l min_idx) as [min_l|e]; [|reflexivity].
  cbn [obind]. rewrite bind_call_returned.
  destruct (getitem test_RMSE min_idx) as [min_RMSE|e]; [|reflexivity].
  cbn [obind]. rewrite !bind_call_returned. reflexivity.
Qed.

Lemma select_min_empty (l : list F) :
  select_min l [] = Raised (ValueError "attempt to get argmin of an empty sequence").
Proof. reflexivity. Qed.

(** On a grid and a list of errors of the same length, not empty, the
    selection returns the grid value and the error at the index of
    [np.argmin]. *)
Lemma select_min_returns (l test_RMSE : list F) :
  test_RMSE <> [] -> List.length test_RMSE = List.length l ->
  exists i p v, np_argmin test_RMSE = Returned i
    /\ nth_error l i = Some p /\ nth_error test_RMSE i = Some v
    /\ select_min l test_RMSE = Returned (p, v).
Proof.
  intros Hne Hlen.
  destruct (np_argmin_returns Hne) as (i & Hi & Hlt).
  destruct (nth_error l i) as [p|] eqn:Hp;
    [|apply nth_error_None in Hp; lia].
  destruct (nth_error test_RMSE i) as [v|] eqn:Hv;
    [|apply nth_error_None in Hv; lia].
  exists i, p, v. repeat split; try assumption.
  unfold select_min. rewrite Hi. simpl.
  rewrite (getitem_nth_error _ _ Hp). simpl.
  rewrite (getitem_nth_error _ _ Hv). reflexivity.
Qed.

Variable estimator : Type.
Variable fit : F -> features F -> labels F -> outcome estimator.
Variable coef_ : estimator -> list F.
Variable predict : estimator -> features F -> outcome (labels F).
Variables (x_train : features F) (y_train : labels F).
Variables (x_test : features F) (y_test : labels F).

Let loop2 := loop_l2 fit coef_ predict x_train y_train x_test y_test.
Let routine2 := test_regularization_l2 fit coef_ predict x_train y_train x_test y_test.
Let routine1 := test_regularization_l1 fit coef_ predict x_train y_train x_test y_test.

(** What one turn computes, call by call. *)
Lemma fit_point_returned (reg e_train e_test : F) (c : list F) :
  fit_point fit coef_ predict x_train y_train x_test y_test reg
    = Returned (e_train, e_test, c) ->
  exists lin_mod y_score_train y_score,
    fit reg x_train y_train = Returned lin_mod
    /\ c = coef_ lin_mod
    /\ predict lin_mod x_train = Returned y_score_train
    /\ mean_squared_error y_train y_score_train = Returned e_train
    /\ predict lin_mod x_test = Returned y_score
    /\ mean_squared_error y_test y_score = Returned e_test.
Proof.
  unfold fit_point. intros Hp.
  apply obind_returned in Hp. destruct Hp as (lin_mod & Hfit & Hp).
  apply obind_returned in Hp. destruct Hp as (y_score_train & Hpt & Hp).
  apply obind_returned in Hp. destruct Hp as (a & Ha & Hp).
  apply obind_returned in Hp. destruct Hp as (y_score & Hps & Hp).
  apply obind_returned in Hp. destruct Hp as (b & Hb & Hp).
  injection Hp as <- <- <-.
  exists lin_mod, y_score_train, y_score. auto 7.
Qed.

(** The lists of a loop that ends are as long as the grid. *)
Lemma loop_l2_length (l train_RMSE test_RMSE : list F) (coefs : list (list F)) :
  loop2 l [] [] [] = Returned (train_RMSE, test_RMSE, coefs) ->
  List.length train_RMSE = List.length l
  /\ List.length test_RMSE = List.length l
  /\ List.length coefs = List.length l.
Proof.
  intros Hloop. apply loop_l2_returned in Hloop.
  destruct Hloop as (rs & Hrs & Heq). injection Heq as -> -> ->.
  simpl. eapply points_length. exact Hrs.
Qed.

(** With the same constructor the routine for L1 is the routine for L2. *)
Lemma routine_l1_as_l2 (l : list F) : routine1 l = routine2 l.
Proof.
  unfold routine1, routine2, test_regularization_l1, test_regularization_l2.
  rewrite loop_l1_l2. reflexivity.
Qed.

(** A loop that raises ends the routine before any output. *)
Lemma routine_l2_raised (l : list F) (e : exception) :
  loop2 l [] [] [] = Raised e -> routine2 l = ([], Raised e).
Proof.
  intros Hloop. unfold routine2, test_regularization_l2.
  fold loop2. rewrite Hloop. reflexivity.
Qed.

(** On the empty grid the loop does nothing and [np.argmin] raises. *)
Lemma routine_l2_empty :
  routine2 [] = ([], Raised (ValueError "attempt to get argmin of an empty sequence")).
Proof. reflexivity. Qed.

(** A loop that ends on a grid that is not empty is followed by the
    selection, the two charts and the return of the selected pair. *)
Lemma routine_l2_returned (l train_RMSE test_RMSE : list F)
    (coefs : list (list F)) :
  loop2 l [] [] [] = Returned (train_RMSE, test_RMSE, coefs) -> l <> [] ->
  exists i p v, np_argmin test_RMSE = Returned i
    /\ nth_error l i = Some p /\ nth_error test_RMSE i = Some v
    /\ routine2 l = (charts l train_RMSE test_RMSE coefs p sweep_title,
                     Returned (p, v)).
Proof.
  intros Hloop Hne.
  destruct (loop_l2_length _ Hloop) as (Htrain & Htest & Hcoefs).
  assert (test_RMSE <> []) as Hte.
  { intros ->. destruct l; [congruence|discriminate]. }
  destruct (select_min_returns l Hte Htest) as (i & p & v & Hi & Hp & Hv & Hsel).
  exists i, p, v. repeat split; try assumption.
  unfold routine2, test_regularization_l2. fold loop2. rewrite Hloop.
  rewrite bind_call_returned, select_min_statements, Hsel, bind_call_returned.
  simpl fst. simpl snd.
  rewrite plot_regularization_charts by assumption.
  reflexivity.
Qed.

End Routines.

(** ** The sum of an array *)

Section Summation.

Context {F : Type} `{PyNum F}.

(** A property of numbers that zero has and sums keep is a property of
    every sum [np.sum] forms, whatever the order of the additions. *)
Variable P : F -> Prop.
Hypothesis P_zero : P zero.
Hypothesis P_add : forall x y, P x -> P y -> P (add x y).

Lemma fold_add_closed (l : list F) : forall acc,
  P acc -> Forall P l -> P (fold_left add l acc).
Proof.
  induction l as [|x l IH]; intros acc Hacc Hl; simpl.
  - exact Hacc.
  - inversion Hl as [|? ? Hx Hl']; subst. apply IH; auto.
Qed.

Let lanes_closed (r : lanes) : Prop :=
  let '(r0, r1, r2, r3, r4, r5, r6, r7) := r in
  P r0 /\ P r1 /\ P r2 /\ P r3 /\ P r4 /\ P r5 /\ P r6 /\ P r7.

Lemma add_blocks_closed (n : nat) : forall (a : list F) (r : lanes),
  (List.length a <= n)%nat -> Forall P a -> lanes_closed r ->
  lanes_closed (fst (add_blocks r a)) /\ Forall P (snd (add_blocks r a)).
Proof.
  induction n as [|n IH]; intros a r Hn Ha Hr.
  - destruct a; [|simpl in Hn; lia]. simpl. auto.
  - destruct a as [|a0 [|a1 [|a2 [|a3 [|a4 [|a5 [|a6 [|a7 rest]]]]]]]];
      try (simpl; auto; fail).
    destruct r as [[[[[[[r0 r1] r2] r3] r4] r5] r6] r7].
    destruct Hr as (H0 & H1 & H2 & H3 & H4 & H5 & H6 & H7).
    repeat match goal with
           | Hall : Forall P (_ :: _) |- _ =>
               let Hx := fresh "Hx" in
               let Hl := fresh "Hl" in
               inversion Hall as [|? ? Hx Hl]; subst; clear Hall
           end.
    cbn [add_blocks]. apply IH.
    + simpl in Hn. lia.
    + assumption.
    + unfold lanes_closed. repeat split; apply P_add; assumption.
Qed.

Lemma unrolled_sum_closed (a : list F) : Forall P a -> P (unrolled_sum a).
Proof.
  intros Ha. unfold unrolled_sum.
  destruct a as [|a0 [|a1 [|a2 [|a3 [|a4 [|a5 [|a6 [|a7 rest]]]]]]]];
    try (apply fold_add_closed; [exact P_zero|exact Ha]).
  repeat match goal with
         | Hall : Forall P (_ :: _) |- _ =>
             let Hx := fresh "Hx" in
             let Hl := fresh "Hl" in
             inversion Hall as [|? ? Hx Hl]; subst; clear Hall
         end.
  destruct (add_blocks_closed (a := rest) (a0, a1, a2, a3, a4, a5, a6, a7)
              (le_n _)) as [Hr Htail]; [assumption|unfold lanes_closed; auto 10|].
  destruct (add_blocks _ rest) as [[[[[[[[r0 r1] r2] r3] r4] r5] r6] r7] tail].
  simpl in Hr, Htail. destruct Hr as (H0 & H1 & H2 & H3 & H4 & H5 & H6 & H7).
  apply fold_add_closed; [|exact Htail].
  repeat apply P_add; assumption.
Qed.

Lemma Forall_firstn (n : nat) (a : list F) : Forall P a -> Forall P (firstn n a).
Proof.
  intros Ha. rewrite Forall_forall in *. intros x Hx.
  apply Ha. rewrite <- (firstn_skipn n a). apply in_or_app. left. exact Hx.
Qed.

Lemma Forall_skipn (n : nat) (a : list F) : Forall P a -> Forall P (skipn n a).
Proof.
  intros Ha. rewrite Forall_forall in *. intros x Hx.
  apply Ha. rewrite <- (firstn_skipn n a). apply in_or_app. right. exact Hx.
Qed.

Lemma pairwise_sum_closed (depth : nat) : forall a : list F,
  Forall P a -> P (pairwise_sum depth a).
Proof.
  induction depth as [|depth IH]; intros a Ha; simpl;
    destruct (List.length a <? 8)%nat;
    try (apply fold_add_closed; [exact P_zero|exact Ha]);
    destruct (List.length a <=? PW_BLOCKSIZE)%nat;
    try (apply unrolled_sum_closed; exact Ha).
  apply P_add; apply IH; [apply Forall_firstn|apply Forall_skipn]; exact Ha.
Qed.

Lemma np_sum_closed (a : list F) : Forall P a -> P (np_sum a).
Proof. apply pairwise_sum_closed. Qed.

End Summation.

Section SummationOrder.

Context {F : Type} `{PyNum F}.

(** An array of more than 128 elements is split in two parts that are not
    empty. *)
Lemma split_point_bounds (n : nat) :
  (PW_BLOCKSIZE < n)%nat -> (0 < n / 2 - (n / 2) mod 8 < n)%nat.
Proof.
  unfold PW_BLOCKSIZE. intros Hn.
  pose proof (Nat.div_mod_eq n 2) as Hn2.
  pose proof (Nat.mod_upper_bound n 2 ltac:(lia)) as Hr.
  pose proof (Nat.mod_upper_bound (n / 2) 8 ltac:(lia)) as Hm.
  remember (n / 2)%nat as h. remember (h mod 8)%nat as m.
  remember (n mod 2)%nat as r. lia.
Qed.

(** The number of nested calls does not matter once it is at least the
    length of the array: the bound is never reached. *)
Lemma pairwise_sum_depth (depth : nat) : forall (depth' : nat) (a : list F),
  (List.length a <= depth)%nat -> (List.length a <= depth')%nat ->
  pairwise_sum depth a = pairwise_sum depth' a.
Proof.
  induction depth as [|depth IH]; intros depth' a Hd Hd'.
  - destruct a; [|simpl in Hd; lia]. destruct depth'; reflexivity.
  - destruct depth' as [|depth'].
    + destruct a; [|simpl in Hd'; lia]. reflexivity.
    + cbn [pairwise_sum]. destruct (List.length a <? 8)%nat; [reflexivity|].
      destruct (List.length a <=? PW_BLOCKSIZE)%nat eqn:Hblock; [reflexivity|].
      apply Nat.leb_gt in Hblock. apply split_point_bounds in Hblock.
      f_equal; apply IH; rewrite ?length_firstn, ?length_skipn; lia.
Qed.

(** Fewer than 8 numbers are added from left to right. *)
Lemma np_sum_short (a : list F) :
  (List.length a < 8)%nat -> np_sum a = fsum a.
Proof.
  intros Hlen. unfold np_sum, fsum.
  destruct (List.length a) as [|n] eqn:Hn; simpl; rewrite ?Hn.
  - reflexivity.
  - apply Nat.ltb_lt in Hlen. rewrite Hlen. reflexivity.
Qed.

(** Eight numbers are added as a tree. *)
Lemma np_sum_eight (a0 a1 a2 a3 a4 a5 a6 a7 : F) :
  np_sum [a0; a1; a2; a3; a4; a5; a6; a7]
  = add (add (add a0 a1) (add a2 a3)) (add (add a4 a5) (add a6 a7)).
Proof. reflexivity. Qed.

End SummationOrder.

(** ** The metrics *)

Section Metrics.

Context {F : Type} `{PyNumLaws F}.

(** No sum of numbers that are not below zero is below zero. *)
Lemma np_sum_not_negative (l : list F) :
  Forall (fun x => ltb x zero = false) l -> ltb (np_sum l) zero = false.
Proof.
  apply (np_sum_closed (P := fun x => ltb x zero = false));
    [apply ltb_zero_zero|apply ltb_zero_add].
Qed.

Lemma squared_errors_not_negative (y_true : list F) : forall y_pred,
  Forall (fun x => ltb x zero = false) (squared_errors y_true y_pred).
Proof.
  induction y_true as [|a y_true IH]; intros [|b y_pred]; simpl;
    constructor; [apply ltb_zero_square|apply IH].
Qed.

(** What [mean_squared_error] returns is not below zero. *)
Lemma mean_squared_error_not_negative (y_true y_pred : list F) (v : F) :
  mean_squared_error y_true y_pred = Returned v -> ltb v zero = false.
Proof.
  unfold mean_squared_error.
  destruct (negb (List.length y_true =? List.length y_pred)%nat); [discriminate|].
  destruct (List.length y_true =? 0)%nat eqn:Hn; [discriminate|].
  destruct (negb _); [discriminate|].
  intros Hv. injection Hv as <-.
  apply Nat.eqb_neq in Hn.
  apply ltb_zero_div; [lia|].
  apply np_sum_not_negative, squared_errors_not_negative.
Qed.

(** [mean_squared_error] returns on two sequences of the same length, not
    empty, of finite numbers. *)
Lemma mean_squared_error_returns (y_true y_pred : list F) :
  List.length y_true = List.length y_pred -> y_true <> [] ->
  forallb isfinite y_true = true -> forallb isfinite y_pred = true ->
  mean_squared_error y_true y_pred
  = Returned (div (np_sum (squared_errors y_true y_pred))
                  (of_nat (List.length y_true))).
Proof.
  intros Hlen Hne Ht Hp. unfold mean_squared_error.
  rewrite Hlen, Nat.eqb_refl, <- Hlen. simpl.
  destruct y_true; [congruence|]. simpl in *. rewrite Ht, Hp. reflexivity.
Qed.

Variable r2_score : labels F -> labels F -> outcome F.
Variable mean_absolute_error : labels F -> labels F -> outcome F.
Variable median_absolute_error : labels F -> labels F -> outcome F.

(** When the four metric functions return, [print_metrics] prints five
    lines and ends with [None]; the second line is the square root of the
    first. *)
Lemma print_metrics_lines (y_true y_predicted : labels F) (r2 mse mae medae : F) :
  r2_score y_true y_predicted = Returned r2 ->
  mean_squared_error y_true y_predicted = Returned mse ->
  mean_absolute_error y_true y_predicted = Returned mae ->
  median_absolute_error y_true y_predicted = Returned medae ->
  print_metrics r2_score mean_absolute_error median_absolute_error
    y_true y_predicted
  = ([ print (cat (lit "Mean Square Error      = ") (str mse));
       print (cat (lit "Root Mean Square Error = ") (str (fsqrt mse)));
       print (cat (lit "Mean Absolute Error    = ") (str mae));
       print (cat (lit "Median Absolute Error  = ") (str medae));
       print (cat (lit "R^2                    = ") (str r2)) ],
     Returned tt).
Proof.
  intros Hr2 Hmse Hmae Hmedae. unfold print_metrics, math_sqrt.
  rewrite Hr2, Hmse, Hmae, Hmedae.
  repeat (first [ rewrite bind_call_returned | rewrite bind_emit
                | rewrite (mean_squared_error_not_negative _ _ Hmse) ];
          cbv beta).
  reflexivity.
Qed.

End Metrics.

(** ** The mean squared error on binary64 *)

Section Errors64.

(** The start value of a reduction, [+0] or [-0], changes no number that is
    not negative. *)
Lemma add_zero_not_negative (x : float) :
  not_negative (Prim2SF x) = true ->
  PrimFloat.add PrimFloat.zero x = x /\ PrimFloat.add PrimFloat.neg_zero x = x.
Proof.
  intros Hx. split; apply Prim2SF_inj; rewrite add_spec;
    [change (Prim2SF PrimFloat.zero) with (S754_zero false)
    |change (Prim2SF PrimFloat.neg_zero) with (S754_zero true)];
    destruct (Prim2SF x) as [s|s| |s m e]; try discriminate Hx;
    try reflexivity; destruct s; try discriminate Hx; reflexivity.
Qed.

(** The squared differences of finite numbers are not negative. *)
Lemma squared_errors_plus (y_true : list float) : forall y_pred,
  forallb isfinite y_true = true -> forallb isfinite y_pred = true ->
  Forall (fun x => not_negative (Prim2SF x) = true)
    (squared_errors y_true y_pred).
Proof.
  induction y_true as [|a y_true IH]; intros [|b y_pred] Ht Hp; simpl;
    constructor; simpl in Ht, Hp;
    apply andb_true_iff in Ht, Hp; destruct Ht as [Ha Ht], Hp as [Hb Hp].
  - rewrite mul_spec. apply Binary64.SFmul_square_not_negative.
    rewrite sub_spec.
    apply Binary64.SFsub_not_nan; rewrite <- Binary64.is_finite_Prim2SF;
      assumption.
  - apply IH; assumption.
Qed.

Lemma np_sum_plus (l : list float) :
  Forall (fun x => not_negative (Prim2SF x) = true) l ->
  not_negative (Prim2SF (np_sum l)) = true.
Proof.
  apply (np_sum_closed (P := fun x => not_negative (Prim2SF x) = true)).
  - reflexivity.
  - intros x y Hx Hy. simpl. rewrite add_spec.
    apply Binary64.SFadd_not_negative; assumption.
Qed.

(** What [mean_squared_error] returns is [+0], a finite number above zero
    or [+infinity], for any number of samples a Python sequence can hold. *)
Lemma mean_squared_error_plus (y_true y_pred : list float) (v : float) :
  (Z.of_nat (List.length y_true) < 2 ^ 63)%Z ->
  mean_squared_error y_true y_pred = Returned v ->
  not_negative (Prim2SF v) = true.
Proof.
  intros Hlen. unfold mean_squared_error.
  destruct (negb (List.length y_true =? List.length y_pred)%nat); [discriminate|].
  destruct (List.length y_true =? 0)%nat eqn:Hn; [discriminate|].
  destruct (forallb isfinite y_true && forallb isfinite y_pred) eqn:Hfin;
    [|discriminate].
  simpl. intros Hv. injection Hv as <-.
  apply Nat.eqb_neq in Hn. apply andb_true_iff in Hfin. destruct Hfin as [Ht Hp].
  destruct (Binary64.of_nat_finite (List.length y_true)) as (m & e & Hof);
    [lia|].
  rewrite div_spec, Hof. apply Binary64.SFdiv_not_negative.
  apply np_sum_plus, squared_errors_plus; assumption.
Qed.

(** ... and so it is not NaN. *)
Lemma mean_squared_error_not_nan (y_true y_pred : list float) (v : float) :
  (Z.of_nat (List.length y_true) < 2 ^ 63)%Z ->
  mean_squared_error y_true y_pred = Returned v -> isnan v = false.
Proof.
  intros Hlen Hv. pose proof (mean_squared_error_plus _ _ Hlen Hv) as Hplus.
  simpl. destruct (PrimFloat.is_nan v) eqn:Hnan; [|reflexivity].
  apply Binary64.is_nan_Prim2SF in Hnan. rewrite Hnan in Hplus.
  discriminate Hplus.
Qed.

End Errors64.

(** ** The sweep, entry by entry *)

Section Entries.

Context {F : Type} `{PyNum F}.
Variable estimator : Type.
Variable fit : F -> features F -> labels F -> outcome estimator.
Variable coef_ : estimator -> list F.
Variable predict : estimator -> features F -> outcome (labels F).
Variables (x_train : features F) (y_train : labels F).
Variables (x_test : features F) (y_test : labels F).

Let point := fit_point fit coef_ predict x_train y_train x_test y_test.
Let loop2 := loop_l2 fit coef_ predict x_train y_train x_test y_test.

(** Entry [i] of each list of a loop that ends is the one of the [i]-th
    penalty of the grid. *)
Lemma loop_l2_entries (l train_RMSE test_RMSE : list F) (coefs : list (list F)) :
  loop2 l [] [] [] = Returned (train_RMSE, test_RMSE, coefs) ->
  forall i reg, nth_error l i = Some reg ->
  exists e_train e_test c,
    point reg = Returned (e_train, e_test, c)
    /\ nth_error train_RMSE i = Some e_train
    /\ nth_error test_RMSE i = Some e_test
    /\ nth_error coefs i = Some c.
Proof.
  intros Hloop i reg Hi. apply loop_l2_returned in Hloop.
  destruct Hloop as (rs & Hrs & Heq). injection Heq as -> -> ->.
  destruct (points_nth i Hrs Hi) as ([[e_train e_test] c] & Hr & Ha & Hb & Hc).
  exists e_train, e_test, c. simpl in *. auto.
Qed.

(** When every penalty of the grid has its triple, the loop ends. *)
Lemma loop_l2_ends (l : list F) :
  Forall (fun reg => exists r, point reg = Returned r) l ->
  exists train_RMSE test_RMSE coefs,
    loop2 l [] [] [] = Returned (train_RMSE, test_RMSE, coefs).
Proof.
  intros Hall.
  assert (exists rs,
            grid_points fit coef_ predict x_train y_train x_test y_test l rs)
    as (rs & Hrs).
  { induction Hall as [|reg l' (r & Hr) _ (rs & Hrs)].
    - exists []. constructor.
    - exists (r :: rs). constructor; assumption. }
  do 3 eexists. apply (loop_l2_complete [] [] [] Hrs).
Qed.

End Entries.

(** ** What a routine that returns has done *)

Section SweepFacts.

Context {F : Type} `{PyNum F}.
Variable estimator : Type.
Variable fit : F -> features F -> labels F -> outcome estimator.
Variable coef_ : estimator -> list F.
Variable predict : estimator -> features F -> outcome (labels F).
Variables (x_train : features F) (y_train : labels F).
Variables (x_test : features F) (y_test : labels F).

Local Abbreviation point :=
  (fit_point fit coef_ predict x_train y_train x_test y_test).
Local Abbreviation loop2 :=
  (loop_l2 fit coef_ predict x_train y_train x_test y_test).
Local Abbreviation routine2 :=
  (test_regularization_l2 fit coef_ predict x_train y_train x_test y_test).
Local Abbreviation routine1 :=
  (test_regularization_l1 fit coef_ predict x_train y_train x_test y_test).

(** A routine that returns has run its loop to the end on a grid that is not
    empty, and returns what the selection finds in the lists of the loop. *)
Lemma routine_l2_inversion (l : list F) (p v : F) :
  result (routine2 l) = Returned (p, v) ->
  exists train_RMSE test_RMSE coefs i,
    loop2 l [] [] [] = Returned (train_RMSE, test_RMSE, coefs)
    /\ l <> []
    /\ np_argmin test_RMSE = Returned i
    /\ nth_error l i = Some p /\ nth_error test_RMSE i = Some v.
Proof.
  intros Hret.
  destruct (loop2 l [] [] []) as [[[train_RMSE test_RMSE] coefs]|e] eqn:Hloop.
  - destruct l as [|reg rest]; [discriminate Hret|].
    pose proof Hloop as Hr. apply routine_l2_returned in Hr; [|discriminate].
    destruct Hr as (i & p' & v' & Hi & Hp & Hv & Hr).
    rewrite Hr in Hret. injection Hret as <- <-.
    exists train_RMSE, test_RMSE, coefs, i.
    repeat split; try assumption. discriminate.
  - rewrite (routine_l2_raised _ _ _ _ _ _ _ _ Hloop) in Hret. discriminate Hret.
Qed.

(** The loop over a grid followed by another is the loop over the first
    continued by the loop over the second. *)
Lemma loop_l2_app (l l' : list F) : forall train_RMSE test_RMSE coefs,
  loop2 (l ++ l') train_RMSE test_RMSE coefs =
  obind (loop2 l train_RMSE test_RMSE coefs) (fun s =>
    loop2 l' (fst (fst s)) (snd (fst s)) (snd s)).
Proof.
  induction l as [|reg rest IH]; intros train_RMSE test_RMSE coefs.
  - reflexivity.
  - change ((reg :: rest) ++ l') with (reg :: (rest ++ l')).
    rewrite (loop_l2_turn _ _ _ _ _ _ _ reg (rest ++ l')).
    rewrite (loop_l2_turn _ _ _ _ _ _ _ reg rest).
    destruct (point reg) as [r|e]; simpl; [apply IH|reflexivity].
Qed.

(** The loops over two grids that end give the loop over their
    concatenation. *)
Lemma loop_l2_app_returned (l l' train_RMSE test_RMSE train_RMSE' test_RMSE' : list F)
    (coefs coefs' : list (list F)) :
  loop2 l [] [] [] = Returned (train_RMSE, test_RMSE, coefs) ->
  loop2 l' [] [] [] = Returned (train_RMSE', test_RMSE', coefs') ->
  loop2 (l ++ l') [] [] []
  = Returned (train_RMSE ++ train_RMSE', test_RMSE ++ test_RMSE', coefs ++ coefs').
Proof.
  intros Hs Hs'.
  apply loop_l2_returned in Hs. destruct Hs as (rs & Hrs & Hs).
  apply loop_l2_returned in Hs'. destruct Hs' as (rs' & Hrs' & Hs').
  injection Hs as -> -> ->. injection Hs' as -> -> ->.
  rewrite loop_l2_app.
  rewrite (loop_l2_complete [] [] [] Hrs).
  simpl obind. cbn [fst snd].
  rewrite (loop_l2_complete _ _ _ Hrs').
  reflexivity.
Qed.

(** The pair a routine returns comes from a model fitted with the returned
    penalty and scored on the test set. *)
Lemma routine_l2_best_scored (l : list F) (p v : F) :
  result (routine2 l) = Returned (p, v) ->
  exists lin_mod y_score,
    fit p x_train y_train = Returned lin_mod
    /\ predict lin_mod x_test = Returned y_score
    /\ mean_squared_error y_test y_score = Returned v.
Proof.
  intros Hret. apply routine_l2_inversion in Hret.
  destruct Hret as (train_RMSE & test_RMSE & coefs & i & Hloop & _ & _ & Hp & Hv).
  destruct (loop_l2_entries fit coef_ predict x_train y_train x_test y_test
              l Hloop i Hp)
    as (e_train & e_test & c & Hpoint & _ & Hte & _).
  assert (e_test = v) as -> by congruence.
  apply fit_point_returned in Hpoint.
  destruct Hpoint as (lin_mod & _ & y_score & Hfit & _ & _ & _ & Hpred & Hmse).
  exists lin_mod, y_score. auto.
Qed.

(** The loop stops at the first penalty whose turn raises, with what that
    turn raises. *)
Lemma loop_l2_first_failure (pre post : list F) (reg : F) (e : exception) :
  Forall (fun reg' => exists r, point reg' = Returned r) pre ->
  point reg = Raised e ->
  forall train_RMSE test_RMSE coefs,
    loop2 (pre ++ reg :: post) train_RMSE test_RMSE coefs = Raised e.
Proof.
  intros Hpre Hreg. induction Hpre as [|reg' pre' (r & Hr) _ IH];
    intros train_RMSE test_RMSE coefs.
  - change ([] ++ reg :: post) with (reg :: post).
    rewrite loop_l2_turn, Hreg. reflexivity.
  - change ((reg' :: pre') ++ reg :: post) with (reg' :: (pre' ++ reg :: post)).
    rewrite loop_l2_turn, Hr. simpl. apply IH.
Qed.

End SweepFacts.

(** ** The selected minimum *)

Section MinimumFacts.

Context {F : Type} `{PyNumLaws F}.

(** A sequence has at most one first minimum. *)
Lemma first_minimum_unique (a : list F) (i j : nat) :
  first_minimum a i -> first_minimum a j -> i = j.
Proof.
  intros (v & Hv & Hvmin & Hvfirst) (w & Hw & Hwmin & Hwfirst).
  destruct (Nat.lt_trichotomy i j) as [Hlt|[Heq|Hgt]]; [|exact Heq|].
  - specialize (Hvmin j w Hw).
    rewrite (Hwfirst i v Hlt Hv) in Hvmin. discriminate.
  - specialize (Hwmin i v Hv).
    rewrite (Hvfirst j w Hgt Hw) in Hwmin. discriminate.
Qed.

(** When the entry [np.argmin] points at is not NaN, no entry is and the
    index is the first minimum. *)
Lemma np_argmin_not_nan (a : list F) (i : nat) (v : F) :
  np_argmin a = Returned i -> nth_error a i = Some v -> isnan v = false ->
  Forall (fun x => isnan x = false) a /\ first_minimum a i.
Proof.
  intros Hi Hv Hnan.
  assert (a <> []) as Hne by (intros ->; destruct i; discriminate).
  destruct (np_argmin_selects Hne) as (i' & Hi' & Hsel).
  assert (i' = i) as -> by congruence.
  destruct Hsel as [(w & Hw & Hwnan & _)|Hsel]; [congruence|exact Hsel].
Qed.

(** The first minimum of two sequences put end to end is the first minimum
    of the first, unless that of the second is smaller. *)
Lemma first_minimum_app (a b : list F) (i j : nat) (v w : F) :
  Forall (fun x => isnan x = false) a -> Forall (fun x => isnan x = false) b ->
  first_minimum a i -> nth_error a i = Some v ->
  first_minimum b j -> nth_error b j = Some w ->
  first_minimum (a ++ b) (if leb v w then i else List.length a + j).
Proof.
  intros Ha Hb (v' & Hv' & Hvmin & Hvfirst) Hv (w' & Hw' & Hwmin & Hwfirst) Hw.
  assert (v' = v) as -> by congruence. assert (w' = w) as -> by congruence.
  assert (isnan v = false) as Hvn
    by (rewrite Forall_forall in Ha; eapply Ha, nth_error_In; exact Hv).
  assert (isnan w = false) as Hwn
    by (rewrite Forall_forall in Hb; eapply Hb, nth_error_In; exact Hw).
  assert (i < List.length a)%nat as Hi by (apply nth_error_Some; congruence).
  destruct (leb v w) eqn:Hvw.
  - exists v. split; [rewrite nth_error_app1 by exact Hi; exact Hv|]. split.
    + intros k x Hk.
      destruct (Nat.lt_ge_cases k (List.length a)) as [Hlt|Hge].
      * rewrite nth_error_app1 in Hk by exact Hlt. eauto.
      * rewrite nth_error_app2 in Hk by exact Hge.
        apply leb_trans with w; eauto.
    + intros k x Hlt Hk. rewrite nth_error_app1 in Hk by lia. eauto.
  - exists w. split.
    { rewrite nth_error_app2 by lia.
      replace (List.length a + j - List.length a)%nat with j by lia. exact Hw. }
    split.
    + intros k x Hk.
      destruct (Nat.lt_ge_cases k (List.length a)) as [Hlt|Hge].
      * rewrite nth_error_app1 in Hk by exact Hlt.
        apply leb_trans with v; [apply leb_total; assumption|eauto].
      * rewrite nth_error_app2 in Hk by exact Hge. eauto.
    + intros k x Hlt Hk.
      destruct (Nat.lt_ge_cases k (List.length a)) as [Hlt'|Hge].
      * rewrite nth_error_app1 in Hk by exact Hlt'.
        destruct (leb x w) eqn:Hxw; [|reflexivity].
        rewrite (leb_trans v x w) in Hvw; [discriminate|eauto|exact Hxw].
      * rewrite nth_error_app2 in Hk by exact Hge.
        apply (Hwfirst (k - List.length a)%nat); [lia|exact Hk].
Qed.

End MinimumFacts.

(** * The claims *)

Import OneFeature.

Unset Implicit Arguments.

Section Claims.

Context {F : Type} `{PyNum F}.
Variable estimator : Type.
Variable fit : F -> features F -> labels F -> outcome estimator.
Variable coef_ : estimator -> list F.
Variable predict : estimator -> features F -> outcome (labels F).
Variables (x_train : features F) (y_train : labels F).
Variables (x_test : features F) (y_test : labels F).

Local Abbreviation point :=
  (fit_point fit coef_ predict x_train y_train x_test y_test).
Local Abbreviation loop2 :=
  (loop_l2 fit coef_ predict x_train y_train x_test y_test).
Local Abbreviation routine2 :=
  (test_regularization_l2 fit coef_ predict x_train y_train x_test y_test)
 .
Local Abbreviation routine1 :=
  (test_regularization_l1 fit coef_ predict x_train y_train x_test y_test)
 .

(** C2, as amended.  When the loop ends on a grid that is not empty, each
    routine returns the pair of the grid value and the recorded test error at
    the index [np.argmin] gives, and nothing else; the grid and the three
    lists of the loop go to [plot_regularization], whose calls are the whole
    output. *)
Theorem C2_returns_best_pair_only (l train_RMSE test_RMSE : list F)
    (coefs : list (list F)) :
  loop2 l [] [] [] = Returned (train_RMSE, test_RMSE, coefs) -> l <> [] ->
  exists i p v, np_argmin test_RMSE = Returned i
    /\ nth_error l i = Some p /\ nth_error test_RMSE i = Some v
    /\ routine2 l = (charts l train_RMSE test_RMSE coefs p sweep_title,
                     Returned (p, v))
    /\ routine1 l = (charts l train_RMSE test_RMSE coefs p sweep_title,
                     Returned (p, v)).
Proof.
  intros Hloop Hne.
  pose proof Hloop as Hr. apply routine_l2_returned in Hr; [|exact Hne].
  destruct Hr as (i & p & v & Hi & Hp & Hv & Hr).
  exists i, p, v.
  split; [exact Hi|]. split; [exact Hp|]. split; [exact Hv|].
  split; [exact Hr|].
  rewrite <- Hr. apply (routine_l1_as_l2 fit coef_ predict).
Qed.

(** C3, as amended.  Each routine either raises before any output, or
    returns after the calls of [plot_regularization] on the lists of the
    loop: the two charts are its only output and they are drawn once. *)
Theorem C3_output_is_the_two_charts (l : list F) :
  (exists e, routine2 l = ([], Raised e) /\ routine1 l = ([], Raised e))
  \/ (exists train_RMSE test_RMSE coefs p v,
        loop2 l [] [] [] = Returned (train_RMSE, test_RMSE, coefs)
        /\ routine2 l = (charts l train_RMSE test_RMSE coefs p sweep_title,
                         Returned (p, v))
        /\ routine1 l = (charts l train_RMSE test_RMSE coefs p sweep_title,
                         Returned (p, v))).
Proof.
  destruct (loop2 l [] [] []) as [[[train_RMSE test_RMSE] coefs]|e] eqn:Hloop.
  - destruct l as [|reg rest].
    + left. eexists. split; apply routine_l2_empty.
    + right.
      pose proof Hloop as Hr. apply routine_l2_returned in Hr; [|discriminate].
      destruct Hr as (i & p & v & _ & _ & _ & Hr).
      exists train_RMSE, test_RMSE, coefs, p, v. auto.
  - left. exists e. split; apply routine_l2_raised; exact Hloop.
Qed.

(** C5, as amended.  On the empty grid each routine raises the [ValueError]
    of [np.argmin], whatever the data, before any fit and any output. *)
Theorem C5_empty_grid_raises_ValueError :
  routine2 [] = ([], Raised (ValueError "attempt to get argmin of an empty sequence"))
  /\ routine1 [] = ([], Raised (ValueError "attempt to get argmin of an empty sequence"))
  /\ fails_with "ValueError" (routine2 []) /\ fails_with "ValueError" (routine1 []).
Proof.
  repeat split; try reflexivity; eexists; split; reflexivity.
Qed.

(** C8, as amended.  The three lists are not returned but drawn, and they
    exist only when every penalty can be fitted and scored.  For every grid,
    either each routine raises before any output, the grid being empty or
    the turn of one of its penalties raising that exception; or the lists
    each routine builds and hands to [plot_regularization] have one entry
    per grid value, entry [i] being the train error, the test error and the
    coefficient vector of the [i]-th grid value. *)
Theorem C8_one_entry_per_penalty (l : list F) :
  (exists e,
     routine2 l = ([], Raised e) /\ routine1 l = ([], Raised e)
     /\ (l = [] \/ exists reg, In reg l /\ point reg = Raised e))
  \/ (l <> []
      /\ exists train_RMSE test_RMSE coefs p v,
           loop2 l [] [] [] = Returned (train_RMSE, test_RMSE, coefs)
           /\ List.length train_RMSE = List.length l
           /\ List.length test_RMSE = List.length l
           /\ List.length coefs = List.length l
           /\ (forall i reg, nth_error l i = Some reg ->
               exists e_train e_test c,
                 point reg = Returned (e_train, e_test, c)
                 /\ nth_error train_RMSE i = Some e_train
                 /\ nth_error test_RMSE i = Some e_test
                 /\ nth_error coefs i = Some c)
           /\ routine2 l = (charts l train_RMSE test_RMSE coefs p sweep_title,
                            Returned (p, v))
           /\ routine1 l = (charts l train_RMSE test_RMSE coefs p sweep_title,
                            Returned (p, v))).
Proof.
  destruct (loop2 l [] [] []) as [[[train_RMSE test_RMSE] coefs]|e] eqn:Hloop.
  - destruct l as [|reg rest].
    + left. eexists. split; [apply routine_l2_empty|].
      split; [apply routine_l2_empty|]. left. reflexivity.
    + right. split; [discriminate|].
      pose proof Hloop as Hlen. apply loop_l2_length in Hlen.
      destruct Hlen as (Ha & Hb & Hc).
      pose proof Hloop as Hr. apply routine_l2_returned in Hr; [|discriminate].
      destruct Hr as (i & p & v & _ & _ & _ & Hr).
      exists train_RMSE, test_RMSE, coefs, p, v.
      split; [reflexivity|].
      split; [exact Ha|]. split; [exact Hb|]. split; [exact Hc|].
      split; [apply loop_l2_entries; exact Hloop|].
      split; [exact Hr|].
      rewrite <- Hr. apply (routine_l1_as_l2 fit coef_ predict).
  - left. exists e.
    split; [apply routine_l2_raised; exact Hloop|].
    split; [apply routine_l2_raised; exact Hloop|].
    right. apply loop_l2_raised_at in Hloop. exact Hloop.
Qed.

(** C10.  With one constructor for both, [test_regularization_l1] and
    [test_regularization_l2] are the same function of the data and the grid:
    same output, same result, same exception. *)
Theorem C10_l1_and_l2_differ_only_in_the_fit (l : list F) :
  test_regularization_l1 fit coef_ predict x_train y_train x_test y_test l
  = test_regularization_l2 fit coef_ predict x_train y_train x_test y_test l.
Proof.
  unfold test_regularization_l1, test_regularization_l2.
  rewrite loop_l1_l2. reflexivity.
Qed.

End Claims.

(** ** The claims on binary64 *)

Section FloatClaims.

Variable estimator : Type.
Variable fit : float -> features float -> labels float -> outcome estimator.
Variable coef_ : estimator -> list float.
Variable predict : estimator -> features float -> outcome (labels float).
Variables (x_train : features float) (y_train : labels float).
Variables (x_test : features float) (y_test : labels float).

(** C4, as amended.  When the loop ends on a grid that is not empty, each
    routine returns the grid value at the first index, in grid order, of a
    smallest recorded test error (at the first NaN, should one be recorded):
    of tied penalties the one met first in the grid is returned, whatever
    its magnitude. *)
Theorem C4_first_of_ties (l train_RMSE test_RMSE : list float)
    (coefs : list (list float)) :
  loop_l2 fit coef_ predict x_train y_train x_test y_test l [] [] []
    = Returned (train_RMSE, test_RMSE, coefs) ->
  l <> [] ->
  exists i p v,
    (first_nan test_RMSE i
     \/ (Forall (fun x => isnan x = false) test_RMSE
         /\ first_minimum test_RMSE i))
    /\ nth_error l i = Some p /\ nth_error test_RMSE i = Some v
    /\ result (test_regularization_l2 fit coef_ predict
                 x_train y_train x_test y_test l) = Returned (p, v)
    /\ result (test_regularization_l1 fit coef_ predict
                 x_train y_train x_test y_test l) = Returned (p, v).
Proof.
  intros Hloop Hne.
  pose proof Hloop as Hr. apply routine_l2_returned in Hr; [|exact Hne].
  destruct Hr as (i & p & v & Hi & Hp & Hv & Hr).
  assert (test_RMSE <> []) as Hte by (intros ->; destruct i; discriminate).
  destruct (np_argmin_selects Hte) as (i' & Hi' & Hsel).
  assert (i' = i) as -> by congruence.
  exists i, p, v.
  split; [exact Hsel|]. split; [exact Hp|]. split; [exact Hv|].
  split; [rewrite Hr; reflexivity|].
  etransitivity; [apply (f_equal result); apply routine_l1_as_l2|].
  rewrite Hr. reflexivity.
Qed.

(** C6.  No NaN is recorded, so the selection has none to skip: a test
    error is what [mean_squared_error] returns, which refuses a NaN or an
    infinity among the labels and the predictions and returns the mean of
    squares of finite differences.  Whenever a routine returns, the lists of
    its loop hold no NaN, and the returned pair is a grid value with its
    recorded test error, which is not NaN and is a smallest of the recorded
    test errors.  The number of test labels is one a Python sequence can
    have. *)
Theorem C6_no_nan_is_recorded (l : list float) (best : float * float) :
  (Z.of_nat (List.length y_test) < 2 ^ 63)%Z ->
  result (test_regularization_l2 fit coef_ predict
            x_train y_train x_test y_test l) = Returned best
  \/ result (test_regularization_l1 fit coef_ predict
               x_train y_train x_test y_test l) = Returned best ->
  exists train_RMSE test_RMSE coefs,
    loop_l2 fit coef_ predict x_train y_train x_test y_test l [] [] []
      = Returned (train_RMSE, test_RMSE, coefs)
    /\ loop_l1 fit coef_ predict x_train y_train x_test y_test l [] [] []
       = Returned (train_RMSE, test_RMSE, coefs)
    /\ Forall (fun e => isnan e = false) test_RMSE
    /\ skips_nan l test_RMSE best.
Proof.
  intros Hlen Hret. destruct best as [p v].
  assert (result (test_regularization_l2 fit coef_ predict
                    x_train y_train x_test y_test l) = Returned (p, v)) as Hret2
    by (destruct Hret as [Hret|Hret]; exact Hret).
  apply routine_l2_inversion in Hret2.
  destruct Hret2 as (train_RMSE & test_RMSE & coefs & i & Hloop & _ & Hi & Hp & Hv).
  exists train_RMSE, test_RMSE, coefs.
  split; [exact Hloop|].
  split; [rewrite <- Hloop; apply loop_l1_l2|].
  assert (Forall (fun e => isnan e = false) test_RMSE) as Hall.
  { destruct (loop_l2_length fit coef_ predict x_train y_train x_test y_test
                l Hloop) as (_ & Hlen2 & _).
    apply Forall_forall. intros e He.
    apply In_nth_error in He. destruct He as (j & He).
    assert (j < List.length l)%nat as Hj
      by (rewrite <- Hlen2; apply nth_error_Some; congruence).
    destruct (nth_error l j) as [reg|] eqn:Hreg;
      [|apply nth_error_None in Hreg; lia].
    destruct (loop_l2_entries fit coef_ predict x_train y_train x_test y_test
                l Hloop j Hreg) as (e_train & e_test & c & Hpoint & _ & Hb & _).
    assert (e_test = e) as -> by congruence.
    apply fit_point_returned in Hpoint.
    destruct Hpoint as (lin_mod & _ & y_score & _ & _ & _ & _ & _ & Hmse).
    exact (mean_squared_error_not_nan _ _ Hlen Hmse). }
  split; [exact Hall|].
  assert (isnan v = false) as Hvn.
  { rewrite Forall_forall in Hall. eapply Hall, nth_error_In. exact Hv. }
  destruct (np_argmin_not_nan _ Hi Hv Hvn) as (_ & w & Hw & Hmin & _).
  assert (w = v) as -> by congruence.
  split; [exists i; split; assumption|]. split; [exact Hvn|].
  intros x Hx _. apply In_nth_error in Hx. destruct Hx as (j & Hx).
  exact (Hmin j x Hx).
Qed.

End FloatClaims.

(** C7, as amended.  On two sequences of the same length, not empty, of
    finite numbers, for which the three other metric functions return,
    [mean_squared_error] returns, and [print_metrics] prints five lines, the
    mean squared error it returns, its square root, the mean and the median
    absolute error and R^2, and ends with [None]: the metrics are its
    output, not its value. *)
Theorem C7_prints_five_lines
    (r2_score mean_absolute_error median_absolute_error :
       labels float -> labels float -> outcome float)
    (y_true y_predicted : labels float) (r2 mae medae : float) :
  List.length y_true = List.length y_predicted -> y_true <> [] ->
  forallb isfinite y_true = true -> forallb isfinite y_predicted = true ->
  r2_score y_true y_predicted = Returned r2 ->
  mean_absolute_error y_true y_predicted = Returned mae ->
  median_absolute_error y_true y_predicted = Returned medae ->
  exists mse,
    mean_squared_error y_true y_predicted = Returned mse
    /\ print_metrics r2_score mean_absolute_error median_absolute_error
         y_true y_predicted
       = ([ print (cat (lit "Mean Square Error      = ") (str mse));
            print (cat (lit "Root Mean Square Error = ") (str (fsqrt mse)));
            print (cat (lit "Mean Absolute Error    = ") (str mae));
            print (cat (lit "Median Absolute Error  = ") (str medae));
            print (cat (lit "R^2                    = ") (str r2)) ],
          Returned tt).
Proof.
  intros Hlen Hne Ht Hp Hr2 Hmae Hmedae.
  pose proof (mean_squared_error_returns y_predicted Hlen Hne Ht Hp) as Hmse.
  eexists. split; [exact Hmse|].
  apply print_metrics_lines; assumption.
Qed.

(** C9.  On binary64 the square of the root mean squared error
    [print_metrics] prints is the mean squared error it prints on the line
    before, within two units in the last place: the two are equal (when the
    error is 0 or an infinity), or both are finite and their difference is at
    most [2 ^ -51] of the mean squared error.  The second line is
    [math.sqrt] of the first, which rounds once, and the product rounds once
    more; neither the smallest nor the largest floats are left out. *)
Theorem C9_rmse_squared_is_mse
    (r2_score mean_absolute_error median_absolute_error :
       labels float -> labels float -> outcome float)
    (y_true y_predicted : labels float) (r2 : float) :
  List.length y_true = List.length y_predicted -> y_true <> [] ->
  forallb isfinite y_true = true -> forallb isfinite y_predicted = true ->
  (Z.of_nat (List.length y_true) < 2 ^ 63)%Z ->
  r2_score y_true y_predicted = Returned r2 ->
  exists mse rmse : float,
    mean_squared_error y_true y_predicted = Returned mse
    /\ math_sqrt mse = Returned rmse
    /\ within_tolerance (/ 2 ^ 51) (mul rmse rmse) mse
    /\ nth_error (trace (print_metrics r2_score mean_absolute_error
                           median_absolute_error y_true y_predicted)) 0
       = Some (print (cat (lit "Mean Square Error      = ") (str mse)))
    /\ nth_error (trace (print_metrics r2_score mean_absolute_error
                           median_absolute_error y_true y_predicted)) 1
       = Some (print (cat (lit "Root Mean Square Error = ") (str rmse))).
Proof.
  intros Hlen Hne Ht Hp Hn Hr2.
  pose proof (mean_squared_error_returns y_predicted Hlen Hne Ht Hp) as Hmse.
  set (mse := div (np_sum (squared_errors y_true y_predicted))
                  (of_nat (List.length y_true))) in *.
  pose proof (mean_squared_error_not_negative _ _ Hmse) as Hpos.
  assert (math_sqrt mse = Returned (fsqrt mse)) as Hsqrt.
  { unfold math_sqrt. rewrite Hpos. reflexivity. }
  exists mse, (fsqrt mse).
  split; [exact Hmse|]. split; [exact Hsqrt|].
  split.
  { apply Binary64.sqrt_square_within_tolerance.
    exact (mean_squared_error_plus _ _ Hn Hmse). }
  unfold print_metrics. rewrite Hr2, Hmse.
  repeat (first [ rewrite bind_call_returned | rewrite bind_emit
                | rewrite Hsqrt ]; cbv beta).
  split; reflexivity.
Qed.

(** The round trip is not exact: for a mean squared error of 2 the square
    of the root is the next float above 2. *)
Example rmse_squared_rounds :
  math_sqrt 2%float = Returned (fsqrt 2%float)
  /\ mul (fsqrt 2%float) (fsqrt 2%float) = PrimFloat.next_up 2%float
  /\ PrimFloat.eqb (mul (fsqrt 2%float) (fsqrt 2%float)) 2%float = false.
Proof. repeat split; vm_compute; reflexivity. Qed.

(** ** The routines at work *)

Open Scope float_scope.

(** C1 (defect of the code).  On the constant-feature data with the grid
    [[2]] the fitted model predicts 2 for every row, the labels are [[0; 4]]
    and [[4]], so the root mean squared error is 2 on both sets; the loop
    records 4 and 4, the mean squared errors: [math.sqrt], which
    [print_metrics] applies, is missing in both loops. *)
Theorem C1_loop_records_mean_squared_error :
  exists lin_mod,
    Ridge 2 x_train y_train = Returned lin_mod
    /\ predict lin_mod x_train = Returned [2; 2]
    /\ predict lin_mod x_test = Returned [2]
    /\ rmse y_train [2; 2] = 2
    /\ rmse y_test [2] = 2
    /\ mean_squared_error y_train [2; 2] = Returned 4
    /\ mean_squared_error y_test [2] = Returned 4
    /\ loop_l2 Ridge coef_ predict x_train y_train x_test y_test [2] [] [] []
       = Returned ([4], [4], [[0]])
    /\ loop_l1 Ridge coef_ predict x_train y_train x_test y_test [2] [] [] []
       = Returned ([4], [4], [[0]]).
Proof.
  eexists. repeat split; vm_compute; reflexivity.
Qed.

(** C2, counterexample.  On the constant-feature data the grids [[2]] and
    [[2; 1]] give the same returned pair and different lists: the lists
    cannot be read off the returned value. *)
Lemma C2_counterexample : ~ returns_sequences l2_routine l2_loop.
Proof.
  intros (read & Hread).
  assert (read (2, 4) = ([2], ([4], [4], [[0]]))) as H1.
  { apply (Hread x_train y_train x_test y_test); vm_compute; reflexivity. }
  assert (read (2, 4) = ([2; 1], ([4; 4], [4; 4], [[0]; [0]]))) as H2.
  { apply (Hread x_train y_train x_test y_test); vm_compute; reflexivity. }
  rewrite H1 in H2. discriminate H2.
Qed.

(** C2 at work, on the line data and the grid [[6; 2; 14]]. *)
Lemma C2_witness :
  exists i p v, np_argmin line_test_RMSE = Returned i
    /\ nth_error line_grid i = Some p /\ nth_error line_test_RMSE i = Some v
    /\ l2_routine line_x_train line_y_train line_x_test line_y_test line_grid
       = (charts line_grid line_train_RMSE line_test_RMSE line_coefs p sweep_title,
          Returned (p, v))
    /\ l1_routine line_x_train line_y_train line_x_test line_y_test line_grid
       = (charts line_grid line_train_RMSE line_test_RMSE line_coefs p sweep_title,
          Returned (p, v)).
Proof.
  apply (C2_returns_best_pair_only linear Ridge coef_ predict
           line_x_train line_y_train line_x_test line_y_test
           line_grid line_train_RMSE line_test_RMSE line_coefs).
  - vm_compute. reflexivity.
  - discriminate.
Defined.

(** C3, counterexample.  On the constant-feature data and the grid [[2; 1]]
    the routine draws. *)
Lemma C3_counterexample :
  ~ no_side_effects (l2_routine x_train y_train x_test y_test [2; 1]).
Proof. unfold no_side_effects. vm_compute. discriminate. Qed.

(** C4, counterexample.  On the constant-feature data the penalties 2 and 1
    of the grid [[2; 1]] are tied at the test error 4; the routine returns
    2, the first, and 1 is smaller. *)
Lemma C4_counterexample :
  l2_loop x_train y_train x_test y_test [2; 1]
    = Returned ([4; 4], [4; 4], [[0]; [0]])
  /\ result (l2_routine x_train y_train x_test y_test [2; 1]) = Returned (2, 4)
  /\ ~ smallest_of_ties [2; 1] [4; 4] (2, 4).
Proof.
  split; [vm_compute; reflexivity|]. split; [vm_compute; reflexivity|].
  intros Hs. specialize (Hs 1%nat 1 eq_refl eq_refl).
  vm_compute in Hs. discriminate Hs.
Qed.

(** C4 at work: on the line data the grid [[6; 2; 14]] has the recorded
    test errors [[5.0625; 2.25; 6.890625]] and the routines return 2. *)
Lemma C4_witness :
  exists i p v,
    (first_nan line_test_RMSE i
     \/ (Forall (fun x => isnan x = false) line_test_RMSE
         /\ first_minimum line_test_RMSE i))
    /\ nth_error line_grid i = Some p /\ nth_error line_test_RMSE i = Some v
    /\ result (l2_routine line_x_train line_y_train line_x_test line_y_test
                 line_grid) = Returned (p, v)
    /\ result (l1_routine line_x_train line_y_train line_x_test line_y_test
                 line_grid) = Returned (p, v).
Proof.
  apply (C4_first_of_ties linear Ridge coef_ predict
           line_x_train line_y_train line_x_test line_y_test
           line_grid line_train_RMSE line_test_RMSE line_coefs).
  - vm_compute. reflexivity.
  - discriminate.
Defined.

(** C5, counterexample.  On the empty grid the routine raises a
    [ValueError], not an [EmptyGridError]. *)
Lemma C5_counterexample :
  ~ fails_with "EmptyGridError" (l2_routine x_train y_train x_test y_test []).
Proof.
  intros (e & He & Hclass). vm_compute in He.
  injection He as <-. discriminate Hclass.
Qed.

(** C6 at work, on the line data and the grid [[6; 2; 14]]: the recorded
    test errors are [[5.0625; 2.25; 6.890625]] and the routines return
    [(2, 2.25)]. *)
Lemma C6_witness :
  exists train_RMSE test_RMSE coefs,
    loop_l2 Ridge coef_ predict line_x_train line_y_train line_x_test line_y_test
      line_grid [] [] [] = Returned (train_RMSE, test_RMSE, coefs)
    /\ loop_l1 Ridge coef_ predict line_x_train line_y_train line_x_test
         line_y_test line_grid [] [] [] = Returned (train_RMSE, test_RMSE, coefs)
    /\ Forall (fun e => isnan e = false) test_RMSE
    /\ skips_nan line_grid test_RMSE (2, 2.25).
Proof.
  apply (C6_no_nan_is_recorded linear Ridge coef_ predict
           line_x_train line_y_train line_x_test line_y_test line_grid (2, 2.25)).
  - reflexivity.
  - left. vm_compute. reflexivity.
Defined.

(** C7, counterexample.  For the labels [[1; 3]] and the predictions
    [[1; 1]], where scikit-learn gives R^2 = -1 and 1 for the mean and the
    median absolute error, [print_metrics] prints. *)
Lemma C7_counterexample :
  ~ no_side_effects
      (print_metrics (metric_value (-1)) (metric_value 1) (metric_value 1)
         [1; 3] [1; 1]).
Proof. unfold no_side_effects. vm_compute. discriminate. Qed.

(** C7 at work, on the same labels and predictions. *)
Lemma C7_witness :
  exists mse,
    mean_squared_error [1; 3] [1; 1] = Returned mse
    /\ print_metrics (metric_value (-1)) (metric_value 1) (metric_value 1)
         [1; 3] [1; 1]
       = ([ print (cat (lit "Mean Square Error      = ") (str mse));
            print (cat (lit "Root Mean Square Error = ") (str (fsqrt mse)));
            print (cat (lit "Mean Absolute Error    = ") (str 1));
            print (cat (lit "Median Absolute Error  = ") (str 1));
            print (cat (lit "R^2                    = ") (str (-1))) ],
          Returned tt).
Proof.
  apply (C7_prints_five_lines (metric_value (-1)) (metric_value 1)
           (metric_value 1) [1; 3] [1; 1] (-1) 1 1); try reflexivity.
  discriminate.
Defined.

(** The mean squared error of eight samples is the sum of a tree, not the
    sum from left to right: for the eight labels against predictions that
    are all 0, [mean_squared_error] returns 3.78125, and adding the squares in
    index order would give the next float above it. *)
Example mean_squared_error_adds_pairwise :
  mean_squared_error eight_labels eight_zeros = Returned 3.78125
  /\ div (fsum (squared_errors eight_labels eight_zeros)) (of_nat 8)
     = PrimFloat.next_up 3.78125.
Proof. split; vm_compute; reflexivity. Qed.

(** C9 at work, on the labels [[1; 3]] and the predictions [[1; 1]]: the
    mean squared error is 2 and the square of its root the next float. *)
Lemma C9_witness :
  exists mse rmse : float,
    mean_squared_error [1; 3] [1; 1] = Returned mse
    /\ math_sqrt mse = Returned rmse
    /\ within_tolerance (/ 2 ^ 51) (mul rmse rmse) mse
    /\ nth_error (trace (print_metrics (metric_value (-1)) (metric_value 1)
                           (metric_value 1) [1; 3] [1; 1])) 0
       = Some (print (cat (lit "Mean Square Error      = ") (str mse)))
    /\ nth_error (trace (print_metrics (metric_value (-1)) (metric_value 1)
                           (metric_value 1) [1; 3] [1; 1])) 1
       = Some (print (cat (lit "Root Mean Square Error = ") (str rmse))).
Proof.
  apply (C9_rmse_squared_is_mse (metric_value (-1)) (metric_value 1)
           (metric_value 1) [1; 3] [1; 1] (-1)); try reflexivity.
  discriminate.
Defined.

(** C8, counterexample.  The steep data with the far test row are a valid
    input: finite numbers, two training rows and one test row of one
    feature, the grid [[2]].  The prediction for the test row is an
    infinity, [mean_squared_error] refuses it, the routine raises a
    [ValueError] and there are no lists. *)
Lemma C8_counterexample :
  valid_input steep_x_train steep_y_train far_x_test far_y_test [2]
  /\ Ridge 2 steep_x_train steep_y_train = Returned (mkLinear [4] 4)
  /\ predict (mkLinear [4] 4) far_x_test = Returned [infinity]
  /\ trace (l2_routine steep_x_train steep_y_train far_x_test far_y_test [2]) = []
  /\ fails_with "ValueError"
       (l2_routine steep_x_train steep_y_train far_x_test far_y_test [2])
  /\ ~ one_entry_per_penalty l2_routine l2_loop (fit_point Ridge coef_ predict).
Proof.
  assert (valid_input steep_x_train steep_y_train far_x_test far_y_test [2])
    as Hvalid.
  { unfold valid_input, well_shaped. repeat split; try discriminate;
      try reflexivity.
    - destruct H as [<-|[]]. reflexivity.
    - destruct H as [<-|[]]. reflexivity.
    - destruct H as [<-|[<-|[]]]; discriminate.
    - destruct H as [<-|[<-|[]]]; reflexivity.
    - destruct H as [<-|[<-|[]]]; reflexivity.
    - destruct H as [<-|[]]; discriminate.
    - destruct H as [<-|[]]; reflexivity.
    - destruct H as [<-|[]]; reflexivity. }
  split; [exact Hvalid|].
  split; [vm_compute; reflexivity|].
  split; [vm_compute; reflexivity|].
  split; [vm_compute; reflexivity|].
  split; [eexists; split; vm_compute; reflexivity|].
  intros Hall.
  destruct (Hall _ _ _ _ _ Hvalid) as (tr & te & cs & best & Hloop & _).
  vm_compute in Hloop. discriminate Hloop.
Qed.

Close Scope float_scope.

(** * Further properties of the sweep *)

Section SweepProperties.

Context {F : Type} `{PyNum F}.
Variable estimator : Type.
Variable fit : F -> features F -> labels F -> outcome estimator.
Variable coef_ : estimator -> list F.
Variable predict : estimator -> features F -> outcome (labels F).
Variables (x_train : features F) (y_train : labels F).
Variables (x_test : features F) (y_test : labels F).

Local Abbreviation point :=
  (fit_point fit coef_ predict x_train y_train x_test y_test).
Local Abbreviation loop2 :=
  (loop_l2 fit coef_ predict x_train y_train x_test y_test).
Local Abbreviation routine2 :=
  (test_regularization_l2 fit coef_ predict x_train y_train x_test y_test).
Local Abbreviation routine1 :=
  (test_regularization_l1 fit coef_ predict x_train y_train x_test y_test).

(** X1.  The pair a routine returns is sound: the penalty is a value of
    the grid, and the error is what [mean_squared_error] gives for the test
    labels and the predictions of the model fitted with that penalty. *)
Theorem best_is_a_fitted_grid_value (l : list F) (p v : F) :
  result (routine2 l) = Returned (p, v) \/ result (routine1 l) = Returned (p, v) ->
  In p l
  /\ exists lin_mod y_score,
       fit p x_train y_train = Returned lin_mod
       /\ predict lin_mod x_test = Returned y_score
       /\ mean_squared_error y_test y_score = Returned v.
Proof.
  intros Hret.
  assert (result (routine2 l) = Returned (p, v)) as Hret2
    by (destruct Hret as [Hret|Hret]; exact Hret).
  split; [|apply (routine_l2_best_scored fit coef_ predict _ _ _ _ l Hret2)].
  apply routine_l2_inversion in Hret2.
  destruct Hret2 as (train_RMSE & test_RMSE & coefs & i & _ & _ & _ & Hp & _).
  eapply nth_error_In. exact Hp.
Qed.

(** X2.  A penalty that cannot be fitted or scored is not dropped: when the
    turn of a penalty raises and the penalties before it in the grid have
    their triples, each routine raises what that turn raises, whatever comes
    after it in the grid, and nothing is drawn. *)
Theorem failing_penalty_ends_the_routine (pre post : list F) (reg : F)
    (e : exception) :
  Forall (fun reg' => exists r, point reg' = Returned r) pre ->
  point reg = Raised e ->
  routine2 (pre ++ reg :: post) = ([], Raised e)
  /\ routine1 (pre ++ reg :: post) = ([], Raised e).
Proof.
  intros Hpre Hreg.
  assert (routine2 (pre ++ reg :: post) = ([], Raised e)) as Hr.
  { apply routine_l2_raised.
    apply loop_l2_first_failure; assumption. }
  split; [exact Hr|]. rewrite <- Hr.
  apply (routine_l1_as_l2 fit coef_ predict).
Qed.

(** X3.  A routine returns exactly when the grid is not empty and every
    penalty of the grid can be fitted and scored. *)
Theorem routine_returns_iff (l : list F) :
  ((exists best, result (routine2 l) = Returned best)
   <-> l <> [] /\ Forall (fun reg => exists r, point reg = Returned r) l)
  /\ ((exists best, result (routine1 l) = Returned best)
      <-> l <> [] /\ Forall (fun reg => exists r, point reg = Returned r) l).
Proof.
  assert ((exists best, result (routine2 l) = Returned best)
          <-> l <> [] /\ Forall (fun reg => exists r, point reg = Returned r) l)
    as Hiff.
  { split.
    - intros ([p v] & Hret). apply routine_l2_inversion in Hret.
      destruct Hret as (train_RMSE & test_RMSE & coefs & i & Hloop & Hne & _).
      split; [exact Hne|].
      apply loop_l2_returned in Hloop. destruct Hloop as (rs & Hrs & _).
      clear - Hrs. induction Hrs as [|reg r l' rs' Hr _ IH]; constructor; eauto.
    - intros (Hne & Hall). apply loop_l2_ends in Hall.
      destruct Hall as (train_RMSE & test_RMSE & coefs & Hloop).
      apply routine_l2_returned in Hloop; [|exact Hne].
      destruct Hloop as (i & p & v & _ & _ & _ & Hr).
      exists (p, v). rewrite Hr. reflexivity. }
  split; exact Hiff.
Qed.

(** X4.  On a grid of one penalty that can be fitted and scored, each
    routine returns that penalty with its test error, whatever the error
    is. *)
Theorem single_penalty_is_returned (reg e_train e_test : F) (c : list F) :
  point reg = Returned (e_train, e_test, c) ->
  routine2 [reg] = (charts [reg] [e_train] [e_test] [c] reg sweep_title,
                    Returned (reg, e_test))
  /\ routine1 [reg] = (charts [reg] [e_train] [e_test] [c] reg sweep_title,
                       Returned (reg, e_test)).
Proof.
  intros Hpoint.
  assert (loop2 [reg] [] [] [] = Returned ([e_train], [e_test], [c])) as Hloop.
  { rewrite loop_l2_turn, Hpoint. reflexivity. }
  assert (routine2 [reg] = (charts [reg] [e_train] [e_test] [c] reg sweep_title,
                            Returned (reg, e_test))) as Hr.
  { apply routine_l2_returned in Hloop; [|discriminate].
    destruct Hloop as (i & p & v & Hi & Hp & Hv & Hr).
    assert (i = 0%nat) as ->
      by (simpl in Hi; destruct (isnan e_test); congruence).
    simpl in Hp, Hv. injection Hp as <-. injection Hv as <-. exact Hr. }
  split; [exact Hr|]. rewrite <- Hr.
  apply (routine_l1_as_l2 fit coef_ predict).
Qed.

(** X5.  Sweeps compose: when the loops over two grids end, the loop over
    the first grid followed by the second ends with, list by list, what the
    first loop records followed by what the second records. *)
Theorem sweep_of_appended_grids
    (l l' train_RMSE test_RMSE train_RMSE' test_RMSE' : list F)
    (coefs coefs' : list (list F)) :
  loop2 l [] [] [] = Returned (train_RMSE, test_RMSE, coefs) ->
  loop2 l' [] [] [] = Returned (train_RMSE', test_RMSE', coefs') ->
  loop2 (l ++ l') [] [] []
  = Returned (train_RMSE ++ train_RMSE', test_RMSE ++ test_RMSE', coefs ++ coefs').
Proof. apply loop_l2_app_returned. Qed.

End SweepProperties.

(** ** The selected minimum on binary64 *)

Section FloatSweep.

Variable estimator : Type.
Variable fit : float -> features float -> labels float -> outcome estimator.
Variable coef_ : estimator -> list float.
Variable predict : estimator -> features float -> outcome (labels float).
Variables (x_train : features float) (y_train : labels float).
Variables (x_test : features float) (y_test : labels float).

Local Abbreviation loop2 :=
  (loop_l2 fit coef_ predict x_train y_train x_test y_test).
Local Abbreviation routine2 :=
  (test_regularization_l2 fit coef_ predict x_train y_train x_test y_test).
Local Abbreviation routine1 :=
  (test_regularization_l1 fit coef_ predict x_train y_train x_test y_test).

(** What a routine finds when the error it returns is not NaN. *)
Lemma routine_l2_minimum (l : list float) (p v : float) :
  result (routine2 l) = Returned (p, v) -> isnan v = false ->
  exists train_RMSE test_RMSE coefs i,
    loop2 l [] [] [] = Returned (train_RMSE, test_RMSE, coefs)
    /\ Forall (fun x => isnan x = false) test_RMSE
    /\ first_minimum test_RMSE i
    /\ nth_error l i = Some p /\ nth_error test_RMSE i = Some v.
Proof.
  intros Hret Hnan. apply routine_l2_inversion in Hret.
  destruct Hret as (train_RMSE & test_RMSE & coefs & i & Hloop & _ & Hi & Hp & Hv).
  destruct (np_argmin_not_nan _ Hi Hv Hnan) as (Hall & Hmin).
  exists train_RMSE, test_RMSE, coefs, i. auto.
Qed.

(** X6.  No error is below zero: every train and test error a loop records,
    and so the error a routine returns, is a mean of squares, for which
    [x < 0] is false. *)
Theorem recorded_errors_not_below_zero (l train_RMSE test_RMSE : list float)
    (coefs : list (list float)) :
  loop2 l [] [] [] = Returned (train_RMSE, test_RMSE, coefs) ->
  Forall (fun e => ltb e zero = false) train_RMSE
  /\ Forall (fun e => ltb e zero = false) test_RMSE
  /\ (forall p v, result (routine2 l) = Returned (p, v) -> ltb v zero = false)
  /\ (forall p v, result (routine1 l) = Returned (p, v) -> ltb v zero = false).
Proof.
  intros Hloop.
  assert (forall i reg, nth_error l i = Some reg ->
          exists e_train e_test,
            nth_error train_RMSE i = Some e_train
            /\ nth_error test_RMSE i = Some e_test
            /\ ltb e_train zero = false /\ ltb e_test zero = false) as Hentries.
  { intros i reg Hi.
    destruct (loop_l2_entries fit coef_ predict x_train y_train x_test y_test
                l Hloop i Hi) as (e_train & e_test & c & Hpoint & Ha & Hb & _).
    apply fit_point_returned in Hpoint.
    destruct Hpoint as (lin_mod & y_score_train & y_score & _ & _ & _ & Hm1 & _ & Hm2).
    exists e_train, e_test. repeat split; try assumption;
      eapply mean_squared_error_not_negative; eassumption. }
  destruct (loop_l2_length fit coef_ predict x_train y_train x_test y_test
              l Hloop) as (Hlen1 & Hlen2 & _).
  assert (forall (errors : list float),
            List.length errors = List.length l ->
            (forall i reg, nth_error l i = Some reg ->
               exists e, nth_error errors i = Some e /\ ltb e zero = false) ->
            Forall (fun e => ltb e zero = false) errors) as Hall.
  { intros errors Hlen Hnth. apply Forall_forall. intros e He.
    apply In_nth_error in He. destruct He as (i & He).
    assert (i < List.length l)%nat as Hi
      by (rewrite <- Hlen; apply nth_error_Some; congruence).
    destruct (nth_error l i) as [reg|] eqn:Hreg;
      [|apply nth_error_None in Hreg; lia].
    destruct (Hnth i reg Hreg) as (e' & He' & Hpos). congruence. }
  assert (Forall (fun e => ltb e zero = false) test_RMSE) as Htest.
  { apply Hall; [exact Hlen2|]. intros i reg Hi.
    destruct (Hentries i reg Hi) as (a & b & _ & Hb & _ & Hpos). eauto. }
  split.
  { apply Hall; [exact Hlen1|]. intros i reg Hi.
    destruct (Hentries i reg Hi) as (a & b & Ha & _ & Hpos & _). eauto. }
  split; [exact Htest|].
  assert (forall p v, result (routine2 l) = Returned (p, v) -> ltb v zero = false)
    as Hbest.
  { intros p v Hret. apply routine_l2_inversion in Hret.
    destruct Hret as (tr & te & cs & i & Hloop' & _ & _ & _ & Hv).
    rewrite Hloop in Hloop'. injection Hloop' as <- <- <-.
    rewrite Forall_forall in Htest. eapply Htest, nth_error_In. exact Hv. }
  split; exact Hbest.
Qed.

(** X7.  The smallest test error does not depend on the order of the grid:
    on two grids with the same values, in any order and any number of times,
    the errors the routine returns, when they are not NaN, are equal as
    numbers; only which of tied penalties is returned can differ. *)
Theorem minimum_error_is_order_independent (l l' : list float)
    (p v p' v' : float) :
  (forall reg, In reg l <-> In reg l') ->
  result (routine2 l) = Returned (p, v) -> isnan v = false ->
  result (routine2 l') = Returned (p', v') -> isnan v' = false ->
  leb v v' = true /\ leb v' v = true.
Proof.
  assert (forall l l' p v p' v',
            (forall reg, In reg l' -> In reg l) ->
            result (routine2 l) = Returned (p, v) -> isnan v = false ->
            result (routine2 l') = Returned (p', v') ->
            leb v v' = true) as Hle.
  { clear. intros l l' p v p' v' Hsub Hret Hnan Hret'.
    apply routine_l2_minimum in Hret; [|exact Hnan].
    destruct Hret as (tr & te & cs & i & Hloop & _ & (w & Hw & Hmin & _) & _ & Hv).
    assert (w = v) as -> by congruence.
    pose proof Hret' as Hin. apply routine_l2_inversion in Hin.
    destruct Hin as (_ & _ & _ & i' & _ & _ & _ & Hp' & _).
    apply nth_error_In, Hsub, In_nth_error in Hp'. destruct Hp' as (j & Hj).
    destruct (loop_l2_entries fit coef_ predict x_train y_train x_test y_test
                l Hloop j Hj) as (a & b & c & Hpoint & _ & Hb & _).
    apply fit_point_returned in Hpoint.
    destruct Hpoint as (m & _ & ys & Hfit & _ & _ & _ & Hpred & Hmse).
    apply routine_l2_best_scored in Hret'.
    destruct Hret' as (m' & ys' & Hfit' & Hpred' & Hmse').
    assert (m' = m) as -> by congruence.
    assert (ys' = ys) as -> by congruence.
    assert (b = v') as -> by congruence.
    apply (Hmin j). exact Hb. }
  intros Hsame Hret Hnan Hret' Hnan'. split.
  - apply (Hle l l' p v p' v'); try assumption. intros reg. apply Hsame.
  - apply (Hle l' l p' v' p v); try assumption. intros reg. apply Hsame.
Qed.

(** X8.  The best of two grids put end to end is the better of their two
    bests, the first on a tie: when the routine returns [(p, v)] on one grid
    and [(p', v')] on another, neither error NaN, it returns [(p, v)] on the
    first followed by the second if [v <= v'], and [(p', v')] if not. *)
Theorem best_of_appended_grids (l l' : list float) (p v p' v' : float) :
  result (routine2 l) = Returned (p, v) -> isnan v = false ->
  result (routine2 l') = Returned (p', v') -> isnan v' = false ->
  result (routine2 (l ++ l')) = Returned (if leb v v' then (p, v) else (p', v'))
  /\ result (routine1 (l ++ l'))
     = Returned (if leb v v' then (p, v) else (p', v')).
Proof.
  intros Hret Hnan Hret' Hnan'.
  apply routine_l2_minimum in Hret; [|exact Hnan].
  destruct Hret as (tr & te & cs & i & Hloop & Hall & Hmin & Hp & Hv).
  apply routine_l2_minimum in Hret'; [|exact Hnan'].
  destruct Hret' as (tr' & te' & cs' & i' & Hloop' & Hall' & Hmin' & Hp' & Hv').
  pose proof (loop_l2_app_returned fit coef_ predict x_train y_train x_test y_test
                l l' Hloop Hloop') as Happ.
  destruct (loop_l2_length fit coef_ predict x_train y_train x_test y_test
              l Hloop) as (_ & Hlen & _).
  pose proof Happ as Hr. apply routine_l2_returned in Hr;
    [|intros Hnil; apply app_eq_nil in Hnil; destruct Hnil as [-> _];
      destruct i; discriminate].
  destruct Hr as (k & q & u & Hk & Hq & Hu & Hr).
  assert (isnan u = false) as Hun.
  { apply nth_error_In, in_app_or in Hu.
    rewrite Forall_forall in Hall, Hall'. destruct Hu; auto. }
  destruct (np_argmin_not_nan _ Hk Hu Hun) as (_ & Hmink).
  pose proof (first_minimum_app Hall Hall' Hmin Hv Hmin' Hv') as Hcand.
  pose proof (first_minimum_unique Hmink Hcand) as Hkeq.
  assert (i < List.length l)%nat as Hil by (apply nth_error_Some; congruence).
  assert (Returned (q, u) = Returned (if leb v v' then (p, v) else (p', v')))
    as Hbest.
  { destruct (leb v v'); subst k.
    - rewrite nth_error_app1 in Hq by exact Hil.
      rewrite nth_error_app1 in Hu by lia. congruence.
    - rewrite nth_error_app2 in Hq by lia.
      rewrite nth_error_app2 in Hu by lia.
      replace (List.length te + i' - List.length l)%nat with i' in Hq by lia.
      replace (List.length te + i' - List.length te)%nat with i' in Hu by lia.
      congruence. }
  assert (result (routine2 (l ++ l'))
          = Returned (if leb v v' then (p, v) else (p', v'))) as Hres
    by (rewrite Hr; exact Hbest).
  split; exact Hres.
Qed.

End FloatSweep.

(** * Further properties of the metrics and the charts *)

Set Implicit Arguments.

Section MetricFacts.

Context {F : Type} `{PyNum F}.

(** [mean_squared_error] refuses sequences of different lengths, an empty
    sequence, and a sequence with a NaN or an infinity. *)
Lemma mean_squared_error_refuses (y_true y_pred : list F) :
  List.length y_true <> List.length y_pred \/ y_true = []
  \/ forallb isfinite y_true = false \/ forallb isfinite y_pred = false ->
  exists msg, mean_squared_error y_true y_pred = Raised (ValueError msg).
Proof.
  intros Hbad. unfold mean_squared_error.
  destruct (List.length y_true =? List.length y_pred)%nat eqn:Hlen; simpl;
    [|eexists; reflexivity].
  destruct (List.length y_true =? 0)%nat eqn:Hzero; [eexists; reflexivity|].
  destruct (forallb isfinite y_true && forallb isfinite y_pred) eqn:Hfin; simpl;
    [|eexists; reflexivity].
  apply Nat.eqb_eq in Hlen. apply Nat.eqb_neq in Hzero.
  apply andb_true_iff in Hfin. destruct Hfin as [Ht Hp].
  destruct Hbad as [Hbad|[->|[Hbad|Hbad]]]; [contradiction| |congruence|congruence].
  simpl in Hzero. contradiction.
Qed.

End MetricFacts.

Section ScriptFacts.

Context {F : Type}.

Lemma sbind_run_returned {A B : Type} (a : A) (k : A -> script F B) :
  sbind (run (Returned a)) k = k a.
Proof. unfold sbind, run. destruct (k a) as [t r]. reflexivity. Qed.

Lemma sbind_run_raised {A B : Type} (e : exception) (k : A -> script F B) :
  sbind (run (Raised e)) k = ([], Raised e).
Proof. reflexivity. Qed.

(** What a script does begins with what its first part does. *)
Lemma actions_sbind {A B : Type} (c : script F A) (k : A -> script F B) :
  exists rest, actions (sbind c k) = actions c ++ rest.
Proof.
  destruct c as [t [a|e]]; simpl.
  - destruct (k a) as [t' r]. exists t'. reflexivity.
  - exists []. rewrite app_nil_r. reflexivity.
Qed.

Lemma actions_sbind_nth {A B : Type} (c : script F A) (k : A -> script F B)
    (i : nat) (a : action F) :
  nth_error (actions c) i = Some a -> nth_error (actions (sbind c k)) i = Some a.
Proof.
  intros Hi. destruct (actions_sbind c k) as (rest & ->).
  rewrite nth_error_app1; [exact Hi|]. apply nth_error_Some. congruence.
Qed.

Lemma actions_lift_nth {A : Type} (c : stmt F A) (i : nat) (e : event F) :
  nth_error (trace c) i = Some e ->
  nth_error (actions (lift c)) i = Some (did e).
Proof.
  intros Hi. unfold lift, actions. simpl.
  rewrite nth_error_map, Hi. reflexivity.
Qed.

End ScriptFacts.

Section MetricLines.

Context {F : Type} `{PyNumLaws F}.
Variable r2_score : labels F -> labels F -> outcome F.
Variable mean_absolute_error : labels F -> labels F -> outcome F.
Variable median_absolute_error : labels F -> labels F -> outcome F.

(** Once R^2 and the mean squared error are computed, the first two lines
    are printed, whatever happens next. *)
Lemma print_metrics_first_lines (y_true y_predicted : labels F) (r2 mse : F) :
  r2_score y_true y_predicted = Returned r2 ->
  mean_squared_error y_true y_predicted = Returned mse ->
  nth_error (trace (print_metrics r2_score mean_absolute_error
                      median_absolute_error y_true y_predicted)) 0
  = Some (print (cat (lit "Mean Square Error      = ") (str mse)))
  /\ nth_error (trace (print_metrics r2_score mean_absolute_error
                         median_absolute_error y_true y_predicted)) 1
     = Some (print (cat (lit "Root Mean Square Error = ") (str (fsqrt mse)))).
Proof.
  intros Hr2 Hmse.
  assert (math_sqrt mse = Returned (fsqrt mse)) as Hsqrt.
  { unfold math_sqrt. rewrite (mean_squared_error_not_negative _ _ Hmse).
    reflexivity. }
  unfold print_metrics. rewrite Hr2, Hmse.
  repeat (first [ rewrite bind_call_returned | rewrite bind_emit
                | rewrite Hsqrt ]; cbv beta).
  split; reflexivity.
Qed.

End MetricLines.

Unset Implicit Arguments.

Section MetricProperties.

Context {F : Type} `{PyNum F}.
Variable r2_score : labels F -> labels F -> outcome F.
Variable mean_absolute_error : labels F -> labels F -> outcome F.
Variable median_absolute_error : labels F -> labels F -> outcome F.
Variable draws : library_call F -> outcome unit.

(** X9.  On two sequences of different lengths, on an empty sequence and on
    a sequence with a NaN or an infinity, [print_metrics] raises and prints
    nothing; when [r2_score] accepts such an input the exception is the
    [ValueError] of [mean_squared_error]. *)
Theorem print_metrics_prints_nothing_on_refused_input
    (y_true y_predicted : labels F) :
  List.length y_true <> List.length y_predicted \/ y_true = []
  \/ forallb isfinite y_true = false \/ forallb isfinite y_predicted = false ->
  exists e,
    print_metrics r2_score mean_absolute_error median_absolute_error
      y_true y_predicted = ([], Raised e)
    /\ (forall r2, r2_score y_true y_predicted = Returned r2 ->
        exc_class e = "ValueError"%string).
Proof.
  intros Hbad. apply mean_squared_error_refuses in Hbad.
  destruct Hbad as (msg & Hmse). unfold print_metrics.
  destruct (r2_score y_true y_predicted) as [r2|e].
  - rewrite bind_call_returned, Hmse. eexists. split; reflexivity.
  - exists e. split; [reflexivity|]. intros r2 Hr2. discriminate Hr2.
Qed.

(** X10.  The three residual plots refuse labels and predictions of
    different lengths, neither of them one: [np.subtract] raises before
    seaborn, scipy or matplotlib are called, and nothing is drawn. *)
Theorem residual_plots_refuse_different_lengths (y_test y_score : labels F) :
  List.length y_test <> List.length y_score ->
  List.length y_test <> 1%nat -> List.length y_score <> 1%nat ->
  exists e, exc_class e = "ValueError"%string
    /\ resid_plot draws y_test y_score = ([], Raised e)
    /\ hist_resids draws y_test y_score = ([], Raised e)
    /\ resid_qq draws y_test y_score = ([], Raised e).
Proof.
  intros Hlen Ht Hs.
  assert (np_subtract y_test y_score
          = Raised (ValueError "operands could not be broadcast together"))
    as Hsub.
  { unfold np_subtract. apply Nat.eqb_neq in Hlen. rewrite Hlen.
    destruct y_test as [|a [|a' y_test]], y_score as [|b [|b' y_score]];
      simpl in *; try reflexivity; contradiction. }
  eexists. split; [|unfold resid_plot, hist_resids, resid_qq; rewrite Hsub;
                    repeat split; reflexivity].
  reflexivity.
Qed.

(** X11.  A single prediction is broadcast: against one prediction [s] and
    two labels or more, [mean_squared_error] raises, but [np.subtract] does
    not; when seaborn and scipy accept the residuals [y - s], the histogram
    and the Q-Q plot of these residuals are drawn and shown. *)
Theorem residual_plots_broadcast_a_single_prediction
    (y_test : labels F) (s : F) :
  let resids := map (fun y => sub y s) y_test in
  (2 <= List.length y_test)%nat ->
  draws (sns_distplot resids) = Returned tt ->
  draws (ss_probplot resids) = Returned tt ->
  (exists msg, mean_squared_error y_test [s] = Raised (ValueError msg))
  /\ hist_resids draws y_test [s]
     = ([ drew (sns_distplot resids);
          did (plt_title "Histogram of residuals");
          did (plt_xlabel "Residual value");
          did (plt_ylabel "count");
          did plt_show ], Returned tt)
  /\ resid_qq draws y_test [s]
     = ([ drew (ss_probplot resids);
          did (plt_title "Residuals vs. predicted values");
          did (plt_xlabel "Predicted values");
          did (plt_ylabel "Residual");
          did plt_show ], Returned tt).
Proof.
  intros resids Hlen Hdist Hprob.
  assert (np_subtract y_test [s] = Returned resids) as Hsub.
  { unfold np_subtract.
    destruct y_test as [|a [|a' y_test]]; simpl in Hlen; try lia.
    reflexivity. }
  split.
  { apply mean_squared_error_refuses. left. simpl. lia. }
  unfold hist_resids, resid_qq, library.
  rewrite Hsub, !sbind_run_returned, Hdist, Hprob. split; reflexivity.
Qed.

End MetricProperties.

(** * The cells that fit the selected model anew *)

Section RefitProperties.

Variable draws : library_call float -> outcome unit.
Variable r2_score : labels float -> labels float -> outcome float.
Variable mean_absolute_error : labels float -> labels float -> outcome float.
Variable median_absolute_error : labels float -> labels float -> outcome float.
Variable estimator : Type.
Variable Ridge : float -> features float -> labels float -> outcome estimator.
Variable Lasso : float -> features float -> labels float -> outcome estimator.
Variable coef_ : estimator -> list float.
Variable predict : estimator -> features float -> outcome (labels float).
Variables (x_train : features float) (y_train : labels float).
Variables (x_test : features float) (y_test : labels float).

(** What the four closing calls of a cell print first. *)
Lemma diagnostics_first_lines (y_score : labels float) (r2 mse : float) :
  r2_score y_test y_score = Returned r2 ->
  mean_squared_error y_test y_score = Returned mse ->
  nth_error (actions (diagnostics draws r2_score mean_absolute_error
                        median_absolute_error y_test y_score)) 0
  = Some (did (print (cat (lit "Mean Square Error      = ") (str mse))))
  /\ nth_error (actions (diagnostics draws r2_score mean_absolute_error
                           median_absolute_error y_test y_score)) 1
     = Some (did (print (cat (lit "Root Mean Square Error = ")
                           (str (fsqrt mse))))).
Proof.
  intros Hr2 Hmse.
  destruct (print_metrics_first_lines r2_score mean_absolute_error
              median_absolute_error y_test y_score Hr2 Hmse) as (H0 & H1).
  unfold diagnostics.
  split; apply actions_sbind_nth, actions_lift_nth; assumption.
Qed.

(** X13.  The cell that fits the ridge regression anew at the returned
    penalty prints the returned error again: when
    [test_regularization_l2] returns [out_l2], the cell fits and predicts
    without an exception and, once [r2_score] has returned, its first line
    gives [out_l2[1]] as the mean squared error and its second the square
    root of [out_l2[1]] as the root mean squared error. *)
Theorem refit_l2_prints_the_returned_error (l2 : list float)
    (out_l2 : float * float) :
  result (test_regularization_l2 Ridge coef_ predict
            x_train y_train x_test y_test l2) = Returned out_l2 ->
  exists lin_mod y_score,
    Ridge (fst out_l2) x_train y_train = Returned lin_mod
    /\ predict lin_mod x_test = Returned y_score
    /\ forall r2, r2_score y_test y_score = Returned r2 ->
       nth_error (actions (refit_l2 draws r2_score mean_absolute_error
                             median_absolute_error Ridge predict
                             x_train y_train x_test y_test out_l2)) 0
       = Some (did (print (cat (lit "Mean Square Error      = ")
                             (str (snd out_l2)))))
       /\ nth_error (actions (refit_l2 draws r2_score mean_absolute_error
                                median_absolute_error Ridge predict
                                x_train y_train x_test y_test out_l2)) 1
          = Some (did (print (cat (lit "Root Mean Square Error = ")
                                (str (fsqrt (snd out_l2)))))).
Proof.
  destruct out_l2 as [p v]. intros Hret.
  apply routine_l2_best_scored in Hret.
  destruct Hret as (lin_mod & y_score & Hfit & Hpred & Hmse).
  exists lin_mod, y_score. split; [exact Hfit|]. split; [exact Hpred|].
  intros r2 Hr2. unfold refit_l2. cbn [fst snd].
  rewrite Hfit, sbind_run_returned, Hpred, sbind_run_returned.
  apply diagnostics_first_lines with r2; assumption.
Qed.

(** X14.  The same for the lasso: when [test_regularization_l1] returns
    [out_l1], the cell that fits the lasso anew at [out_l1[0]] prints
    [out_l1[1]] as the mean squared error and its square root as the root
    mean squared error. *)
Theorem refit_l1_prints_the_returned_error (l1 : list float)
    (out_l1 : float * float) :
  result (test_regularization_l1 Lasso coef_ predict
            x_train y_train x_test y_test l1) = Returned out_l1 ->
  exists lin_mod y_score,
    Lasso (fst out_l1) x_train y_train = Returned lin_mod
    /\ predict lin_mod x_test = Returned y_score
    /\ forall r2, r2_score y_test y_score = Returned r2 ->
       nth_error (actions (refit_l1 draws r2_score mean_absolute_error
                             median_absolute_error Lasso predict
                             x_train y_train x_test y_test out_l1)) 0
       = Some (did (print (cat (lit "Mean Square Error      = ")
                             (str (snd out_l1)))))
       /\ nth_error (actions (refit_l1 draws r2_score mean_absolute_error
                                median_absolute_error Lasso predict
                                x_train y_train x_test y_test out_l1)) 1
          = Some (did (print (cat (lit "Root Mean Square Error = ")
                                (str (fsqrt (snd out_l1)))))).
Proof.
  destruct out_l1 as [p v]. intros Hret.
  assert (result (test_regularization_l2 Lasso coef_ predict
                    x_train y_train x_test y_test l1) = Returned (p, v)) as Hret2.
  { rewrite <- Hret. symmetry. apply (f_equal result).
    apply (routine_l1_as_l2 Lasso coef_ predict). }
  apply routine_l2_best_scored in Hret2.
  destruct Hret2 as (lin_mod & y_score & Hfit & Hpred & Hmse).
  exists lin_mod, y_score. split; [exact Hfit|]. split; [exact Hpred|].
  intros r2 Hr2. unfold refit_l1. cbn [fst snd].
  rewrite Hfit, sbind_run_returned, Hpred, sbind_run_returned.
  apply diagnostics_first_lines with r2; assumption.
Qed.

End RefitProperties.

(** * The further properties at work *)

Open Scope float_scope.

(** X1 on the line data: the routine returns 2 with the error 2.25. *)
Lemma best_is_a_fitted_grid_value_witness :
  In 2 line_grid
  /\ exists lin_mod y_score,
       Ridge 2 line_x_train line_y_train = Returned lin_mod
       /\ predict lin_mod line_x_test = Returned y_score
       /\ mean_squared_error line_y_test y_score = Returned 2.25.
Proof.
  apply (best_is_a_fitted_grid_value linear Ridge coef_ predict
           line_x_train line_y_train line_x_test line_y_test line_grid 2 2.25).
  left. vm_compute. reflexivity.
Defined.

(** X2 with a constructor that refuses the penalty -1, in the middle of the
    grid [[2; -1; 1]]. *)
Lemma failing_penalty_ends_the_routine_witness :
  test_regularization_l2 Examples.checked_Ridge coef_ predict
    line_x_train line_y_train line_x_test line_y_test ([2] ++ -1 :: [1])
  = ([], Raised (ValueError "alpha must be >= 0.0"))
  /\ test_regularization_l1 Examples.checked_Ridge coef_ predict
       line_x_train line_y_train line_x_test line_y_test ([2] ++ -1 :: [1])
     = ([], Raised (ValueError "alpha must be >= 0.0")).
Proof.
  apply (failing_penalty_ends_the_routine linear Examples.checked_Ridge
           coef_ predict line_x_train line_y_train line_x_test line_y_test
           [2] [1] (-1) (ValueError "alpha must be >= 0.0")).
  - repeat constructor. eexists. vm_compute. reflexivity.
  - vm_compute. reflexivity.
Defined.

(** X4 on the line data and the grid [[2]]. *)
Lemma single_penalty_is_returned_witness :
  l2_routine line_x_train line_y_train line_x_test line_y_test [2]
  = (charts [2] [0.25] [2.25] [[0.5]] 2 sweep_title, Returned (2, 2.25))
  /\ l1_routine line_x_train line_y_train line_x_test line_y_test [2]
     = (charts [2] [0.25] [2.25] [[0.5]] 2 sweep_title, Returned (2, 2.25)).
Proof.
  apply (single_penalty_is_returned linear Ridge coef_ predict
           line_x_train line_y_train line_x_test line_y_test 2 0.25 2.25 [0.5]).
  vm_compute. reflexivity.
Defined.

(** X5 on the line data: the grids [[6; 2]] and [[14]]. *)
Lemma sweep_of_appended_grids_witness :
  loop_l2 Ridge coef_ predict line_x_train line_y_train line_x_test line_y_test
    ([6; 2] ++ [14]) [] [] []
  = Returned ([0.5625; 0.25] ++ [0.765625], [5.0625; 2.25] ++ [6.890625],
              [[0.25]; [0.5]] ++ [[0.125]]).
Proof.
  apply (sweep_of_appended_grids linear Ridge coef_ predict
           line_x_train line_y_train line_x_test line_y_test).
  - vm_compute. reflexivity.
  - vm_compute. reflexivity.
Defined.

(** X6 on the line data. *)
Lemma recorded_errors_not_below_zero_witness :
  Forall (fun e => ltb e zero = false) line_train_RMSE
  /\ Forall (fun e => ltb e zero = false) line_test_RMSE
  /\ (forall p v,
        result (l2_routine line_x_train line_y_train line_x_test line_y_test
                  line_grid) = Returned (p, v) -> ltb v zero = false)
  /\ (forall p v,
        result (l1_routine line_x_train line_y_train line_x_test line_y_test
                  line_grid) = Returned (p, v) -> ltb v zero = false).
Proof.
  apply (recorded_errors_not_below_zero linear Ridge coef_ predict
           line_x_train line_y_train line_x_test line_y_test
           line_grid line_train_RMSE line_test_RMSE line_coefs).
  vm_compute. reflexivity.
Defined.

(** X7 on the line data: the grid [[6; 2; 14]] and the same values as
    [[14; 2; 6; 2]]. *)
Lemma minimum_error_is_order_independent_witness :
  leb 2.25 2.25 = true /\ leb 2.25 2.25 = true.
Proof.
  apply (minimum_error_is_order_independent linear Ridge coef_ predict
           line_x_train line_y_train line_x_test line_y_test
           [6; 2; 14] [14; 2; 6; 2] 2 2.25 2 2.25).
  - intros reg. simpl. tauto.
  - vm_compute. reflexivity.
  - vm_compute. reflexivity.
  - vm_compute. reflexivity.
  - vm_compute. reflexivity.
Defined.

(** X8 on the line data: the best of [[6; 14]] is 6 with the error 5.0625,
    the best of [[2]] is 2 with 2.25, the best of [[6; 14; 2]] is 2. *)
Lemma best_of_appended_grids_witness :
  result (l2_routine line_x_train line_y_train line_x_test line_y_test
            ([6; 14] ++ [2]))
  = Returned (if leb 5.0625 2.25 then (6, 5.0625) else (2, 2.25))
  /\ result (l1_routine line_x_train line_y_train line_x_test line_y_test
               ([6; 14] ++ [2]))
     = Returned (if leb 5.0625 2.25 then (6, 5.0625) else (2, 2.25)).
Proof.
  apply (best_of_appended_grids linear Ridge coef_ predict
           line_x_train line_y_train line_x_test line_y_test
           [6; 14] [2] 6 5.0625 2 2.25).
  - vm_compute. reflexivity.
  - vm_compute. reflexivity.
  - vm_compute. reflexivity.
  - vm_compute. reflexivity.
Defined.

(** X9: two labels and one prediction. *)
Lemma print_metrics_prints_nothing_on_refused_input_witness :
  exists e,
    print_metrics (metric_value 0) (metric_value 0) (metric_value 0) [1; 2] [1]
    = ([], Raised e)
    /\ (forall r2, metric_value 0 [1; 2] [1] = Returned r2 ->
        exc_class e = "ValueError"%string).
Proof.
  apply (print_metrics_prints_nothing_on_refused_input
           (metric_value 0) (metric_value 0) (metric_value 0) [1; 2] [1]).
  left. simpl. lia.
Defined.

(** X10: three labels and two predictions. *)
Lemma residual_plots_refuse_different_lengths_witness :
  exists e, exc_class e = "ValueError"%string
    /\ resid_plot Examples.accepted [1; 2; 3] [1; 2] = ([], Raised e)
    /\ hist_resids Examples.accepted [1; 2; 3] [1; 2] = ([], Raised e)
    /\ resid_qq Examples.accepted [1; 2; 3] [1; 2] = ([], Raised e).
Proof.
  apply (residual_plots_refuse_different_lengths Examples.accepted
           [1; 2; 3] [1; 2]); simpl; lia.
Defined.

(** X11: the labels [[1; 3]] against the single prediction 1. *)
Lemma residual_plots_broadcast_a_single_prediction_witness :
  (exists msg, mean_squared_error [1; 3] [1] = Raised (ValueError msg))
  /\ hist_resids Examples.accepted [1; 3] [1]
     = ([ drew (sns_distplot [0; 2]);
          did (plt_title "Histogram of residuals");
          did (plt_xlabel "Residual value");
          did (plt_ylabel "count");
          did plt_show ], Returned tt)
  /\ resid_qq Examples.accepted [1; 3] [1]
     = ([ drew (ss_probplot [0; 2]);
          did (plt_title "Residuals vs. predicted values");
          did (plt_xlabel "Predicted values");
          did (plt_ylabel "Residual");
          did plt_show ], Returned tt).
Proof.
  exact (residual_plots_broadcast_a_single_prediction Examples.accepted
           [1; 3] 1 (le_n 2) eq_refl eq_refl).
Defined.

(** X13 on the line data: the routine returns [(2, 2.25)], the cell prints
    2.25 and its square root. *)
Lemma refit_l2_prints_the_returned_error_witness :
  exists lin_mod y_score,
    Ridge (fst (2, 2.25)) line_x_train line_y_train = Returned lin_mod
    /\ predict lin_mod line_x_test = Returned y_score
    /\ forall r2, metric_value (-3) line_y_test y_score = Returned r2 ->
       nth_error (actions (refit_l2 Examples.accepted (metric_value (-3))
                             (metric_value 1.5) (metric_value 1.5) Ridge predict
                             line_x_train line_y_train line_x_test line_y_test
                             (2, 2.25))) 0
       = Some (did (print (cat (lit "Mean Square Error      = ")
                             (str (snd (2, 2.25))))))
       /\ nth_error (actions (refit_l2 Examples.accepted (metric_value (-3))
                                (metric_value 1.5) (metric_value 1.5) Ridge predict
                                line_x_train line_y_train line_x_test line_y_test
                                (2, 2.25))) 1
          = Some (did (print (cat (lit "Root Mean Square Error = ")
                                (str (fsqrt (snd (2, 2.25))))))).
Proof.
  apply (refit_l2_prints_the_returned_error Examples.accepted
           (metric_value (-3)) (metric_value 1.5) (metric_value 1.5)
           linear Ridge coef_ predict
           line_x_train line_y_train line_x_test line_y_test line_grid (2, 2.25)).
  vm_compute. reflexivity.
Defined.

(** X14 on the line data with the one-feature lasso and the grid
    [[0.5; 0.25]]: the routine returns [(0.25, 0.5625)]. *)
Lemma refit_l1_prints_the_returned_error_witness :
  exists lin_mod y_score,
    Examples.Lasso (fst (0.25, 0.5625)) line_x_train line_y_train = Returned lin_mod
    /\ predict lin_mod line_x_test = Returned y_score
    /\ forall r2, metric_value 0 line_y_test y_score = Returned r2 ->
       nth_error (actions (refit_l1 Examples.accepted (metric_value 0)
                             (metric_value 0.75) (metric_value 0.75)
                             Examples.Lasso predict
                             line_x_train line_y_train line_x_test line_y_test
                             (0.25, 0.5625))) 0
       = Some (did (print (cat (lit "Mean Square Error      = ")
                             (str (snd (0.25, 0.5625))))))
       /\ nth_error (actions (refit_l1 Examples.accepted (metric_value 0)
                                (metric_value 0.75) (metric_value 0.75)
                                Examples.Lasso predict
                                line_x_train line_y_train line_x_test line_y_test
                                (0.25, 0.5625))) 1
          = Some (did (print (cat (lit "Root Mean Square Error = ")
                                (str (fsqrt (snd (0.25, 0.5625))))))).
Proof.
  apply (refit_l1_prints_the_returned_error Examples.accepted
           (metric_value 0) (metric_value 0.75) (metric_value 0.75)
           linear Examples.Lasso coef_ predict
           line_x_train line_y_train line_x_test line_y_test [0.5; 0.25]
           (0.25, 0.5625)).
  vm_compute. reflexivity.
Defined.

Close Scope float_scope.
